(** * SwanSpawner: a shallow embedding of [swanspawner.py]

    The development follows the structure of the Python class
    [SwanSpawner]: the form handler [options_from_form], the environment
    composer [get_env], the lifecycle methods [start], [stop] and [poll], the
    static port reservation [get_reserved_port] and the three metric helpers.

    Python values, exceptions and dictionaries are modelled in [Module Py].
    Everything the class asks of the operating system (file system, helper
    programs, sockets, clock, password database) and of the upstream spawner
    it inherits from is gathered in the record [Host]; the mutable part
    (the spawner object, the file system, the log of observable effects) is
    threaded through a state-and-exception monad. *)

From Stdlib Require Import ZArith String Ascii List Bool Lia.
From stdpp Require Import base option gmap strings list fin_maps pretty.
Import ListNotations.

Local Open Scope string_scope.
Local Open Scope Z_scope.

(* ===================================================================== *)
(** * The Python fragment *)
(* ===================================================================== *)

Module Py.

(** Exception classes.  The classes that the code and the built-in
    operations it uses raise have a constructor of their own; any other
    class, which an exception of the operating system, of a helper program
    or of the upstream spawner may have, is [OtherClass] with its
    [__name__] and whether it derives from [Exception].  The code tells
    classes apart only by [except Exception] and by [__class__.__name__]. *)
Inductive exn_class : Set :=
| Exception_
| ValueError
| RuntimeError
| NameError
| KeyError
| IndexError
| AttributeError
| TypeError
| OverflowError
| OSError
| IsADirectoryError
| FileNotFoundError
| TimeoutExpired
| KeyboardInterrupt
| OtherClass (name : string) (derives_from_Exception : bool).

Definition class_name (c : exn_class) : string :=
  match c with
  | Exception_ => "Exception"
  | ValueError => "ValueError"
  | RuntimeError => "RuntimeError"
  | NameError => "NameError"
  | KeyError => "KeyError"
  | IndexError => "IndexError"
  | AttributeError => "AttributeError"
  | TypeError => "TypeError"
  | OverflowError => "OverflowError"
  | OSError => "OSError"
  | IsADirectoryError => "IsADirectoryError"
  | FileNotFoundError => "FileNotFoundError"
  | TimeoutExpired => "TimeoutExpired"
  | KeyboardInterrupt => "KeyboardInterrupt"
  | OtherClass name _ => name
  end.

(** [issubclass(c, Exception)] *)
Definition is_Exception (c : exn_class) : bool :=
  match c with
  | KeyboardInterrupt => false
  | OtherClass _ derives_from_Exception => derives_from_Exception
  | _ => true
  end.

Record exn : Set := mkExn { exn_class_of : exn_class; exn_msg : string }.

(** The values that flow through the form options and the return values. *)
Inductive pyval : Set :=
| PNone
| PInt (z : Z)
| PStr (s : string)
| PObject (name : string).   (* a module, class or function, by its name *)

Inductive result (A : Type) : Type :=
| Return (a : A)
| Raise (e : exn).
Arguments Return {A} a.
Arguments Raise {A} e.

Definition rbind {A B} (r : result A) (k : A -> result B) : result B :=
  match r with
  | Return a => k a
  | Raise e => Raise e
  end.

Definition raise {A} (c : exn_class) (msg : string) : result A :=
  Raise (mkExn c msg).

(** [str(v)] *)
Definition str (v : pyval) : string :=
  match v with
  | PNone => "None"
  | PInt z => pretty z
  | PStr s => s
  | PObject n => "<" ++ n ++ ">"
  end.

(** [bool(v)] *)
Definition truthy (v : pyval) : bool :=
  match v with
  | PNone => false
  | PInt z => negb (z =? 0)
  | PStr s => negb (String.eqb s "")
  | PObject _ => true
  end.

(** [range(n)] *)
Definition range (n : Z) : list Z := map Z.of_nat (seq 0 (Z.to_nat n)).

(** [random.randint(a, b)], the entropy being [r]. *)
Definition randint (a b r : Z) : result Z :=
  if a <=? b then Return (a + r mod (b - a + 1))
  else raise ValueError "empty range for randrange()".

(** ** Strings

    A string is a sequence of code points below 256, the character
    [ascii_of_nat n] being the code point [n]; strings with other code points
    are outside the model. *)

(** A decimal digit, [0] to [9]: what [\d] matches and what [int] reads;
    no other code point below 256 is a decimal digit. *)
Definition is_digit (c : ascii) : bool :=
  let n := nat_of_ascii c in (48 <=? n)%nat && (n <=? 57)%nat.

Fixpoint all_digits (s : string) : bool :=
  match s with
  | EmptyString => true
  | String c s' => is_digit c && all_digits s'
  end.

(** A character [c] with [c.isdigit()]: a decimal digit or one of the
    superscripts two, three and one (code points 178, 179 and 185). *)
Definition isdigit_char (c : ascii) : bool :=
  let n := nat_of_ascii c in
  is_digit c || (n =? 178)%nat || (n =? 179)%nat || (n =? 185)%nat.

Fixpoint all_isdigit (s : string) : bool :=
  match s with
  | EmptyString => true
  | String c s' => isdigit_char c && all_isdigit s'
  end.

(** [s.isdigit()] *)
Definition isdigit (s : string) : bool :=
  negb (String.eqb s "") && all_isdigit s.

(** The longest prefix of digits and what follows it. *)
Fixpoint span_digits (s : string) : string * string :=
  match s with
  | EmptyString => (EmptyString, EmptyString)
  | String c s' =>
      if is_digit c
      then let '(d, r) := span_digits s' in (String c d, r)
      else (EmptyString, s)
  end.

Fixpoint strip_prefix (p s : string) : option string :=
  match p, s with
  | EmptyString, _ => Some s
  | String a p', String b s' =>
      if Ascii.eqb a b then strip_prefix p' s' else None
  | String _ _, EmptyString => None
  end.

(** [needle in s] *)
Fixpoint contains (needle s : string) : bool :=
  match strip_prefix needle s with
  | Some _ => true
  | None =>
      match s with
      | EmptyString => false
      | String _ s' => contains needle s'
      end
  end.

(** [s.replace(a, b)] for one-character [a] and [b]. *)
Fixpoint replace (a b : ascii) (s : string) : string :=
  match s with
  | EmptyString => EmptyString
  | String c s' => String (if Ascii.eqb c a then b else c) (replace a b s')
  end.

(** [sep.join(l)] *)
Definition join (sep : string) (l : list string) : string :=
  String.concat sep l.

Fixpoint ends_with_G (s : string) : bool :=
  match s with
  | EmptyString => false
  | String c EmptyString => Ascii.eqb c "G"
  | String _ s' => ends_with_G s'
  end.

(** ** [int(s)] on a string: surrounding white space, an optional sign,
    decimal digits with single underscores between them.  The white space
    that [int] skips is, below 256, the code points 9 to 13, 32, 133 and 160.
    The integers are unbounded; the limit that an interpreter may put on the
    number of digits is a setting of the interpreter and is not modelled. *)

Definition is_space (c : ascii) : bool :=
  let n := nat_of_ascii c in
  (n =? 32)%nat || ((9 <=? n)%nat && (n <=? 13)%nat)
  || (n =? 133)%nat || (n =? 160)%nat.

Fixpoint lstrip (s : string) : string :=
  match s with
  | EmptyString => EmptyString
  | String c s' => if is_space c then lstrip s' else s
  end.

Fixpoint rstrip (s : string) : string :=
  match s with
  | EmptyString => EmptyString
  | String c s' =>
      match rstrip s' with
      | EmptyString => if is_space c then EmptyString else String c EmptyString
      | r => String c r
      end
  end.

Definition digit_value (c : ascii) : Z := Z.of_nat (nat_of_ascii c) - 48.

(** [after_digit] tells whether the previous character was a digit, the
    only place where an underscore or the end of the literal may come. *)
Fixpoint parse_digits (acc : Z) (after_digit : bool) (s : string) : option Z :=
  match s with
  | EmptyString => if after_digit then Some acc else None
  | String c s' =>
      if is_digit c then parse_digits (10 * acc + digit_value c) true s'
      else if Ascii.eqb c "_" && after_digit then parse_digits acc false s'
      else None
  end.

Definition int_of_str (s : string) : result Z :=
  let bad := raise ValueError ("invalid literal for int() with base 10: " ++ s) in
  match rstrip (lstrip s) with
  | String "-" d => match parse_digits 0 false d with Some z => Return (- z) | None => bad end
  | String "+" d => match parse_digits 0 false d with Some z => Return z | None => bad end
  | d => match parse_digits 0 false d with Some z => Return z | None => bad end
  end.

(** ** Values *)

Definition pyval_eqb (a b : pyval) : bool :=
  match a, b with
  | PNone, PNone => true
  | PInt x, PInt y => x =? y
  | PStr x, PStr y => String.eqb x y
  | PObject x, PObject y => String.eqb x y
  | _, _ => false
  end.

Fixpoint repeat_str (n : nat) (s : string) : string :=
  match n with
  | O => EmptyString
  | S n' => s ++ repeat_str n' s
  end.

(** [n * v] for an integer literal [n]: product of integers, repetition
    of a string. *)
Definition int_mul (n : Z) (v : pyval) : result pyval :=
  match v with
  | PInt z => Return (PInt (n * z))
  | PStr s => Return (PStr (repeat_str (Z.to_nat n) s))
  | PNone => raise TypeError "unsupported operand type(s) for *: 'int' and 'NoneType'"
  | PObject _ => raise TypeError "unsupported operand type(s) for *"
  end.

(** [a + b] where [a] is a string. *)
Definition str_add (a : string) (b : pyval) : result string :=
  match b with
  | PStr s => Return (a ++ s)
  | PInt _ => raise TypeError "can only concatenate str (not 'int') to str"
  | PNone => raise TypeError "can only concatenate str (not 'NoneType') to str"
  | PObject _ => raise TypeError "can only concatenate str to str"
  end.

(** [needle in v] for a string [needle]. *)
Definition str_in (needle : string) (v : pyval) : result bool :=
  match v with
  | PStr s => Return (contains needle s)
  | PInt _ => raise TypeError "argument of type 'int' is not iterable"
  | PNone => raise TypeError "argument of type 'NoneType' is not iterable"
  | PObject _ => raise TypeError "argument is not iterable"
  end.

(** ** Dictionaries that keep their insertion order *)

Section Dict.
Context {K V : Type} (eqb : K -> K -> bool).

Fixpoint dict_find (k : K) (d : list (K * V)) : option V :=
  match d with
  | [] => None
  | (k', v) :: d' => if eqb k' k then Some v else dict_find k d'
  end.

(** [d[k] = v] *)
Fixpoint dict_set (k : K) (v : V) (d : list (K * V)) : list (K * V) :=
  match d with
  | [] => [(k, v)]
  | (k', v') :: d' =>
      if eqb k' k then (k', v) :: d' else (k', v') :: dict_set k v d'
  end.
End Dict.

(** [d[k]] on a dictionary with string keys. *)
Definition getitem {V} (d : list (string * V)) (k : string) : result V :=
  match dict_find String.eqb k d with
  | Some v => Return v
  | None => raise KeyError k
  end.

(** [l[0]] *)
Definition first {A} (l : list A) : result A :=
  match l with
  | x :: _ => Return x
  | [] => raise IndexError "list index out of range"
  end.

(** [s[0]] *)
Definition first_char (s : string) : result string :=
  match s with
  | String c _ => Return (String c EmptyString)
  | EmptyString => raise IndexError "string index out of range"
  end.

(** [x in l] for a list of strings. *)
Definition str_in_list (x : string) (l : list string) : bool :=
  existsb (String.eqb x) l.

End Py.

Export Py.

(* ===================================================================== *)
(** * The host, the spawner object and the monad *)
(* ===================================================================== *)

(** ** What the operating system answers *)

(** What is at a path: a directory, a file with the text that reading it
    gives, or a file that cannot be read as text, with the exception that
    reading it raises (no permission, bytes that do not decode). *)
Inductive node : Set :=
| Dir
| File (content : string)
| Unreadable (e : exn).

(** Outcome of [subprocess.call(argv, timeout=60)]: the exit status of the
    program, or the exception of a time-out or of a failed launch. *)
Inductive proc_outcome : Set :=
| Exited (code : Z)
| Failed (e : exn).

(** The system calls of one attempt of [get_reserved_port], in the order in
    which the code makes them. *)
Inductive sockstep : Set :=
| NewListener
| NetConnections
| Bind
| Listen
| NewClient
| Connect
| Accept.

Record Attempt : Set := {
  entropy : Z;                          (* consumed by [random.randint] *)
  connections : list (string * Z);      (* [laddr] of every live connection *)
  failure : sockstep -> option exn;     (* the system calls that fail *)
  ephemeral : Z                         (* the port the kernel gives to [bind] on port 0 *)
}.

(** A Graphite metric: [(path, (timestamp, value))]. *)
Definition metric : Set := string * (Z * Z).

(** Observable effects, in the order in which they happen. *)
Inductive event : Set :=
| Spawn (argv : list string)                  (* [subprocess.call] *)
| Reserve (first_port last_port : Z)          (* a call of [get_reserved_port] *)
| CarbonSend (metrics : list metric)          (* [_send_graphite_metrics] *)
| Debug (msg : string)                        (* [self.log.debug] *)
| Info (msg : string) (m : metric)            (* [self.log.info] *)
| Error (msg : string) (e : exn).             (* [self.log.error] *)

Record Host : Type := {
  (** a helper program: its outcome and what it leaves on the file system *)
  run : list string -> gmap string node -> proc_outcome * gmap string node;
  (** [pwd.getpwnam(name).pw_uid] *)
  getpwnam : string -> option Z;
  (** [os.uname().nodename] *)
  nodename : string;
  (** [calendar.timegm(datetime.datetime.utcnow().timetuple())] *)
  utcnow : Z;
  (** the sockets seen by attempt [i] of the [k]-th reservation of [get_env] *)
  sockets : Z -> Z -> Attempt;
  (** the connection to the Graphite server: [None] when the batch is sent *)
  carbon : list metric -> option exn;
  (** [super().get_env()] of the upstream spawner, which reads [self.env] and
      settings that this class never writes, and returns a new dictionary at
      each call *)
  super_get_env : gmap string pyval -> gmap string pyval;
  (** [yield super().stop(now)] and [yield super().poll()] *)
  super_stop : result pyval;
  super_poll : result pyval
}.

(** ** The spawner object *)

(** The traits set by configuration, the user and the hub. *)
Record Config : Type := {
  lcg_view_path : string;
  auth_script : string;
  hadoop_auth_script : string;
  init_k8s_user : string;
  local_home : bool;
  eos_path_prefix : string;
  yarn_config_script : string;
  k8s_config_script : string;
  spark_max_sessions : Z;
  spark_session_num_ports : Z;
  spark_session_port_range_start : Z;
  spark_session_port_range_end : Z;
  available_cores : list string;
  available_memory : list string;
  graphite_metric_path : string;
  extra_env : gmap string pyval;
  metrics_on : bool;
  this_host : string;               (* [gethostname().split('.')[0]] *)
  user_name : string;               (* [self.user.name] *)
  cookie_name : string;             (* [self.user.server.cookie_name] *)
  user_base_url : string;           (* [self.user.base_url] *)
  hub_base_url : string;            (* [self.hub.base_url] *)
  hub_api_url : string;             (* [self.hub.api_url] *)
  use_internal_ip : bool;           (* of the Docker spawner *)
  port : Z;
  host_ip : string
}.

(** The names of the form fields are traits that are not configurable. *)
Definition lcg_rel_field : string := "LCG-rel".
Definition platform_field : string := "platform".
Definition user_script_env_field : string := "scriptenv".
Definition user_n_cores : string := "ncores".
Definition user_memory : string := "memory".
Definition spark_cluster_field : string := "spark-cluster".

(** A value of [extra_host_config['port_bindings']]: the tuple [(host_ip,)]
    of the notebook port, or the host port of a Spark port. *)
Inductive binding : Set :=
| HostIp (ip : string)
| HostPort (p : pyval).

(** The keys of [extra_host_config] and [extra_create_kwargs] that the class
    writes; it reads none of them back. *)
Record host_config : Set := {
  port_bindings : list (pyval * binding);
  cpu_period : option Z;
  cpu_quota : option pyval
}.

Record create_kwargs : Set := { ports : list pyval }.

Record Spawner : Type := {
  config : Config;
  offload : bool;
  user_options : list (string * pyval);
  env : gmap string pyval;                       (* [self.env] *)
  extra_host_config : option host_config;        (* [None]: no such attribute *)
  extra_create_kwargs : option create_kwargs;
  cpu_limit : pyval;
  mem_limit : pyval
}.

Definition with_offload (b : bool) (s : Spawner) : Spawner :=
  {| config := config s; offload := b; user_options := user_options s;
     env := env s; extra_host_config := extra_host_config s;
     extra_create_kwargs := extra_create_kwargs s;
     cpu_limit := cpu_limit s; mem_limit := mem_limit s |}.

Definition with_user_options (o : list (string * pyval)) (s : Spawner) : Spawner :=
  {| config := config s; offload := offload s; user_options := o;
     env := env s; extra_host_config := extra_host_config s;
     extra_create_kwargs := extra_create_kwargs s;
     cpu_limit := cpu_limit s; mem_limit := mem_limit s |}.

Definition with_env (e : gmap string pyval) (s : Spawner) : Spawner :=
  {| config := config s; offload := offload s; user_options := user_options s;
     env := e; extra_host_config := extra_host_config s;
     extra_create_kwargs := extra_create_kwargs s;
     cpu_limit := cpu_limit s; mem_limit := mem_limit s |}.

Definition with_host_config (c : option host_config) (s : Spawner) : Spawner :=
  {| config := config s; offload := offload s; user_options := user_options s;
     env := env s; extra_host_config := c;
     extra_create_kwargs := extra_create_kwargs s;
     cpu_limit := cpu_limit s; mem_limit := mem_limit s |}.

Definition with_create_kwargs (c : option create_kwargs) (s : Spawner) : Spawner :=
  {| config := config s; offload := offload s; user_options := user_options s;
     env := env s; extra_host_config := extra_host_config s;
     extra_create_kwargs := c;
     cpu_limit := cpu_limit s; mem_limit := mem_limit s |}.

Definition with_cpu_limit (v : pyval) (s : Spawner) : Spawner :=
  {| config := config s; offload := offload s; user_options := user_options s;
     env := env s; extra_host_config := extra_host_config s;
     extra_create_kwargs := extra_create_kwargs s;
     cpu_limit := v; mem_limit := mem_limit s |}.

Definition with_mem_limit (v : pyval) (s : Spawner) : Spawner :=
  {| config := config s; offload := offload s; user_options := user_options s;
     env := env s; extra_host_config := extra_host_config s;
     extra_create_kwargs := extra_create_kwargs s;
     cpu_limit := cpu_limit s; mem_limit := v |}.

(** ** State and exceptions *)

Record State : Type := {
  self : Spawner;
  fs : gmap string node;
  log : list event
}.

Definition M (A : Type) : Type := State -> result A * State.

#[global] Instance result_ret : MRet result := fun A a => Return a.
#[global] Instance result_bind : MBind result := fun A B k r => rbind r k.
#[global] Instance M_ret : MRet M := fun A a st => (Return a, st).
#[global] Instance M_bind : MBind M := fun A B k m st =>
  match m st with
  | (Return a, st') => k a st'
  | (Raise e, st') => (Raise e, st')
  end.

(** A computation that does not touch the state. *)
Definition lift {A} (r : result A) : M A := fun st => (r, st).

Definition throw {A} (c : exn_class) (msg : string) : M A :=
  lift (raise c msg).

Definition get_self : M Spawner := fun st => (Return (self st), st).

Definition update_self (f : Spawner -> Spawner) : M unit := fun st =>
  (Return tt, {| self := f (self st); fs := fs st; log := log st |}).

Definition emit (e : event) : M unit := fun st =>
  (Return tt, {| self := self st; fs := fs st; log := log st ++ [e] |}).

(** [try: body  except C as ex: handler(ex)], where [catches] tells the
    classes that [C] covers. *)
Definition try_except {A} (body : M A) (catches : exn_class -> bool)
    (handler : exn -> M A) : M A := fun st =>
  match body st with
  | (Raise e, st') =>
      if catches (exn_class_of e) then handler e st' else (Raise e, st')
  | r => r
  end.

Definition catch_Exception : exn_class -> bool := is_Exception.
Definition catch_BaseException : exn_class -> bool := fun _ => true.

(** [os.path.exists(p)] *)
Definition path_exists (p : string) : M bool := fun st =>
  (Return (bool_decide (is_Some (fs st !! p))), st).

(** [open(p, 'r').read()] *)
Definition read_file (p : string) : M string := fun st =>
  match fs st !! p with
  | Some (File c) => (Return c, st)
  | Some (Unreadable e) => (Raise e, st)
  | Some Dir => (raise IsADirectoryError ("Is a directory: " ++ p), st)
  | None => (raise FileNotFoundError ("No such file or directory: " ++ p), st)
  end.

(** [subprocess.call(argv, timeout=60)] *)
Definition subprocess_call (h : Host) (argv : list string) : M Z := fun st =>
  let '(out, fs') := run h argv (fs st) in
  let st' := {| self := self st; fs := fs'; log := log st ++ [Spawn argv] |} in
  match out with
  | Exited code => (Return code, st')
  | Failed e => (Raise e, st')
  end.

(* ===================================================================== *)
(** * The class [SwanSpawner] *)
(* ===================================================================== *)

(** ** [get_reserved_port] *)

Definition syscall (a : Attempt) (s : sockstep) : result unit :=
  match failure a s with
  | Some e => Raise e
  | None => Return tt
  end.

(** The body of the [try] statement: one attempt at reserving a port. *)
Definition attempt_port (start end_ : Z) (a : Attempt) : result pyval :=
  _ ← syscall a NewListener;
  port ← randint start end_ (entropy a);
  _ ← syscall a NetConnections;
  let found :=
    match find (fun conn => snd conn =? port) (connections a) with
    | Some conn => PInt (snd conn)
    | None => PStr "FREE"
    end in
  _ ← (if negb (pyval_eqb found (PStr "FREE"))
       then raise Exception_ ("Port " ++ pretty port ++ " is in use")
       else Return tt);
  _ ← (if (0 <=? port) && (port <=? 65535)
       then syscall a Bind
       else raise OverflowError "bind(): port must be 0-65535.");
  _ ← syscall a Listen;
  let sockname := ("127.0.0.1", if port =? 0 then ephemeral a else port) in
  _ ← syscall a NewClient;
  _ ← syscall a Connect;
  _ ← syscall a Accept;
  Return (PInt (snd sockname)).

(** The [for] loop over [range(n_tries)]: an attempt that raises is retried
    unless it is the last one; a loop that runs out falls off the end of the
    function, which returns [None]. *)
Fixpoint reserve_loop (start end_ n_tries : Z) (os : Z -> Attempt)
    (indices : list Z) : result pyval :=
  match indices with
  | [] => Return PNone
  | i :: rest =>
      match attempt_port start end_ (os i) with
      | Return p => Return p
      | Raise e =>
          if i =? n_tries - 1 then Raise e
          else reserve_loop start end_ n_tries os rest
      end
  end.

Definition get_reserved_port (start end_ n_tries : Z) (os : Z -> Attempt)
    : result pyval :=
  reserve_loop start end_ n_tries os (range n_tries).

(** The default value of the parameter [n_tries]. *)
Definition default_n_tries : Z := 10.

(** ** Metrics *)

Definition _get_date_seconds (h : Host) : Z := utcnow h.

Definition _get_base_metric_path (s : Spawner) : string :=
  join "." [graphite_metric_path (config s); this_host (config s)].

Definition _send_graphite_metrics (h : Host) (metrics : list metric) : M unit :=
  match carbon h metrics with
  | Some e => lift (Raise e)
  | None => emit (CarbonSend metrics)
  end.

Definition failed_to_send : string := "Failed to send metrics: %s".

(** The body of the loop over [self.user_options.items()]. *)
Definition user_metric (base_path : string) (date : Z) (item : string * pyval)
    : metric :=
  let '(key, value) := item in
  if String.eqb key user_script_env_field
  then (join "." [base_path; "spawn_form"; key],
        (date, if truthy value then 1 else 0))
  else (join "." [base_path; "spawn_form"; key; replace "/" "_" (str value)],
        (date, 1)).

Definition _send_user_metrics (h : Host) : M unit :=
  try_except
    (s ← get_self;
     if metrics_on (config s) then
       let base_path := _get_base_metric_path s in
       let date := _get_date_seconds h in
       _send_graphite_metrics h (map (user_metric base_path date) (user_options s))
     else mret tt)
    catch_Exception
    (fun ex => emit (Error failed_to_send ex)).

Definition _send_start_exception_metric (h : Host) (start_exception : option exn)
    : M unit :=
  try_except
    (s ← get_self;
     if metrics_on (config s) then
       let date := _get_date_seconds h in
       let metric_path := _get_base_metric_path s in
       let value_cleaned :=
         match start_exception with
         | Some e => class_name (exn_class_of e)
         | None => "None"
         end in
       emit (Info "StartExceptionMetric: %s"
               (join "." [metric_path; "spawn_exception"; value_cleaned], (date, 1)))
     else mret tt)
    catch_Exception
    (fun ex => emit (Error failed_to_send ex)).

(** [re.search('ExitCode=(\d+)', s)]: group 1 of the leftmost match. *)
Fixpoint search_ExitCode (s : string) : option string :=
  let here :=
    match strip_prefix "ExitCode=" s with
    | Some rest =>
        match fst (span_digits rest) with
        | EmptyString => None
        | d => Some d
        end
    | None => None
    end in
  match here with
  | Some d => Some d
  | None =>
      match s with
      | EmptyString => None
      | String _ s' => search_ExitCode s'
      end
  end.

(** The value sent as [value_cleaned]. *)
Definition exit_code_of (exit_return_code : pyval) : result string :=
  match exit_return_code with
  | PStr code =>
      if isdigit code then Return code
      else
        match search_ExitCode code with
        | None => raise Exception_ "unknown exit code format for this Spawner"
        | Some group1 => Return group1
        end
  | _ => raise AttributeError "object has no attribute 'isdigit'"
  end.

Definition _send_exit_metric (h : Host) (exit_return_code : pyval) : M unit :=
  try_except
    (s ← get_self;
     if metrics_on (config s) then
       let date := _get_date_seconds h in
       let metric_path := _get_base_metric_path s in
       value_cleaned ← lift (exit_code_of exit_return_code);
       emit (Info "ExitReturnCodeMetric: %s"
               (join "." [metric_path; "container_exit_code"; value_cleaned], (date, 1)))
     else mret tt)
    catch_Exception
    (fun ex => emit (Error failed_to_send ex)).

(** ** [options_from_form] *)

(** [formdata[field][0]] *)
Definition form_value (formdata : gmap string (list string)) (field : string)
    : result string :=
  match formdata !! field with
  | Some values => first values
  | None => raise KeyError field
  end.

Definition options_from_form (formdata : gmap string (list string))
    : M (list (string * pyval)) :=
  s ← get_self;
  let cfg := config s in
  let options := [] in
  lcg_rel ← lift (form_value formdata lcg_rel_field);
  let options := dict_set String.eqb lcg_rel_field (PStr lcg_rel) options in
  platform ← lift (form_value formdata platform_field);
  let options := dict_set String.eqb platform_field (PStr platform) options in
  scriptenv ← lift (form_value formdata user_script_env_field);
  let options := dict_set String.eqb user_script_env_field (PStr scriptenv) options in
  cluster ← lift (if bool_decide (is_Some (formdata !! spark_cluster_field))
                  then form_value formdata spark_cluster_field
                  else Return "none");
  let options := dict_set String.eqb spark_cluster_field (PStr cluster) options in
  ncores ← lift (chosen ← form_value formdata user_n_cores;
                 if str_in_list chosen (available_cores cfg)
                 then (again ← form_value formdata user_n_cores; int_of_str again)
                 else (default ← first (available_cores cfg); int_of_str default));
  let options := dict_set String.eqb user_n_cores (PInt ncores) options in
  memory ← lift (chosen ← form_value formdata user_memory;
                 if str_in_list chosen (available_memory cfg)
                 then (again ← form_value formdata user_memory; Return (again ++ "G"))
                 else (default ← first (available_memory cfg); Return (default ++ "G")));
  let options := dict_set String.eqb user_memory (PStr memory) options in
  selected ← lift (getitem options spark_cluster_field);
  _ ← update_self (with_offload (negb (pyval_eqb selected (PStr "none"))));
  mret options.

(** ** [get_env] *)

(** [env.update(d)] *)
Definition update (d env : gmap string pyval) : gmap string pyval := d ∪ env.

#[global] Instance pyval_eq_dec : EqDecision pyval.
Proof. solve_decision. Defined.

Definition set_port_bindings (b : list (pyval * binding)) (c : host_config)
    : host_config :=
  {| port_bindings := b; cpu_period := cpu_period c; cpu_quota := cpu_quota c |}.

(** [self.extra_host_config['port_bindings'][k] = v] *)
Definition bind_port (k : pyval) (v : binding) (s : Spawner) : Spawner :=
  with_host_config
    (option_map (fun c => set_port_bindings
                            (dict_set pyval_eqb k v (port_bindings c)) c)
                (extra_host_config s)) s.

(** [self.extra_host_config['port_bindings'] = {}] and
    [self.extra_create_kwargs['ports'] = []] *)
Definition clear_ports (s : Spawner) : Spawner :=
  with_create_kwargs
    (option_map (fun _ => {| ports := [] |}) (extra_create_kwargs s))
    (with_host_config
       (option_map (set_port_bindings []) (extra_host_config s)) s).

(** [self.extra_create_kwargs['ports'].append(p)] *)
Definition append_port (p : pyval) (s : Spawner) : Spawner :=
  with_create_kwargs
    (option_map (fun c => {| ports := ports c ++ [p] |}) (extra_create_kwargs s))
    s.

Definition allocation_failed : string :=
  "Error while allocating ports for Spark. Please try again.".

(** The loop [for _ in range(...)] of [get_env]; [ks] is what is left of the
    range and [spark_ports] the list built so far. *)
Fixpoint reserve_ports (h : Host) (start end_ : Z) (ks : list Z)
    (spark_ports : list string) : M (list string) :=
  match ks with
  | [] => mret spark_ports
  | k :: ks' =>
      reserved_port ←
        try_except
          (_ ← emit (Reserve start end_);
           lift (get_reserved_port start end_ default_n_tries (sockets h k)))
          catch_Exception
          (fun ex =>
             _ ← emit (Error "Error while allocating ports for Spark: %s" ex);
             throw RuntimeError allocation_failed);
      _ ← update_self (bind_port reserved_port (HostPort reserved_port));
      _ ← update_self (append_port reserved_port);
      reserve_ports h start end_ ks' (spark_ports ++ [str reserved_port])
  end.

(** Lines 216-242: the variables that every session gets. *)
Definition base_env (h : Host) (s : Spawner) : result (gmap string pyval) :=
  let cfg := config s in
  let env := super_get_env h (env s) in
  let username := user_name cfg in
  userid ← match getpwnam h username with
           | Some uid => Return uid
           | None => raise KeyError ("getpwnam(): name not found: " ++ username)
           end;
  homepath ← (if local_home cfg then Return ("/scratch/" ++ username)
              else (initial ← first_char username;
                    Return (eos_path_prefix cfg ++ "/" ++ initial ++ "/" ++ username)));
  view_name ← getitem (user_options s) lcg_rel_field;
  view_platform ← getitem (user_options s) platform_field;
  env_script ← getitem (user_options s) user_script_env_field;
  let env :=
    update (list_to_map
              [ ("ROOT_LCG_VIEW_NAME", view_name);
                ("ROOT_LCG_VIEW_PLATFORM", view_platform);
                ("USER_ENV_SCRIPT", env_script);
                ("ROOT_LCG_VIEW_PATH", PStr (lcg_view_path cfg));
                ("USER", PStr username);
                ("USER_ID", PStr (str (PInt userid)));
                ("HOME", PStr homepath);
                ("JPY_USER", PStr (user_name cfg));
                ("JPY_COOKIE_NAME", PStr (cookie_name cfg));
                ("JPY_BASE_URL", PStr (user_base_url cfg));
                ("JPY_HUB_PREFIX", PStr (hub_base_url cfg));
                ("JPY_HUB_API_URL", PStr (hub_api_url cfg)) ]) env in
  Return (if decide (extra_env cfg = ∅) then env
          else update (extra_env cfg) env).

(** Lines 256-281: the body of [if self.offload:]. *)
Definition cluster_env (h : Host) (s : Spawner) (env : gmap string pyval)
    : M (gmap string pyval) :=
  let cfg := config s in
  cluster ← lift (getitem (user_options s) spark_cluster_field);
  let env := <["SPARK_CLUSTER_NAME" := cluster]> env in
  let env := <["SPARK_USER" := PStr (user_name cfg)]> env in
  let env := <["SERVER_HOSTNAME" := PStr (nodename h)]> env in
  max_memory ← lift (getitem (user_options s) user_memory);
  let env := <["MAX_MEMORY" := max_memory]> env in
  let env :=
    if pyval_eqb cluster (PStr "k8s")
    then <["SPARK_CONFIG_SCRIPT" := PStr (k8s_config_script cfg)]> env
    else <["SPARK_CONFIG_SCRIPT" := PStr (yarn_config_script cfg)]> env in
  spark_ports ←
    reserve_ports h (spark_session_port_range_start cfg)
      (spark_session_port_range_end cfg)
      (range (spark_session_num_ports cfg * spark_max_sessions cfg)) [];
  mret (<["SPARK_PORTS" := PStr (join "," spark_ports)]> env).

Definition get_env (h : Host) : M (gmap string pyval) :=
  s ← get_self;
  let cfg := config s in
  env ← lift (base_env h s);
  match extra_host_config s, extra_create_kwargs s with
  | Some _, Some _ =>
      _ ← update_self clear_ports;
      _ ← (if negb (use_internal_ip cfg)
           then update_self (bind_port (PInt (port cfg)) (HostIp (host_ip cfg)))
           else mret tt);
      if offload s then cluster_env h s env else mret env
  | _, _ => mret env
  end.

(** ** [start] *)

Definition nl : string := String (ascii_of_nat 10) EmptyString.
Definition dq : string := String (ascii_of_nat 34) EmptyString.
Definition indent (n : nat) : string := repeat_str n " ".

(** [<a href="url" target="_blank">text</a>] *)
Definition link (url text : string) : string :=
  "<a href=" ++ dq ++ url ++ dq ++ " target=" ++ dq ++ "_blank" ++ dq ++ ">"
  ++ text ++ "</a>".

Definition service_portal : string :=
  "https://cern.service-now.com/service-portal/function.do?name=swan".

Definition nxcals_access : string :=
  "https://wikis.cern.ch/display/NXCALS/Data+Access+User+Guide#DataAccessUserGuide-nxcals_access".

(** The messages of the [raise] statements, in the order of the source. *)
Definition msg_stack_missing : string :=
  nl ++ indent 24 ++ "Could not initialize software stack, please "
  ++ link "https://cern.ch/ssb" "check service status" ++ " or "
  ++ link service_portal "report an issue" ++ nl ++ indent 24.

Definition msg_configuration_missing : string :=
  nl ++ indent 24
  ++ "Configuration not available: please select other <b>Software stack</b> and <b>Platform</b>."
  ++ nl ++ indent 24.

Definition msg_k8s_unsupported : string :=
  nl ++ indent 28 ++ "Configuration unsupported: " ++ nl ++ indent 28
  ++ "only <b>Software stack: Bleeding Edge Python2/Python3</b> is supported for Cloud Containers"
  ++ nl ++ indent 28.

Definition msg_k8s_unreachable : string :=
  nl ++ indent 32 ++ "Problem connecting to Cloud Containers cluster. "
  ++ nl ++ indent 32 ++ "Please " ++ link service_portal "report an issue"
  ++ nl ++ indent 32.

Definition msg_nxcals_denied : string :=
  nl ++ indent 32 ++ "Access to the NXCALS cluster is not granted. "
  ++ nl ++ indent 32 ++ "Please " ++ link nxcals_access "request access"
  ++ nl ++ indent 32.

Definition msg_tokens_missing : string :=
  "Configuration unsupported: "
  ++ "only <b>Software stack: Bleeding Edge</b> is supported for Cloud Containers".

Definition hadoop_container_path : string := "/spark".

(** Lines 299-302: credentials for a home on CERNBox. *)
Definition request_home_credentials (h : Host) (username : string) : M unit :=
  s ← get_self;
  if negb (local_home (config s)) && truthy (PStr (auth_script (config s))) then
    _ ← subprocess_call h ["sudo"; auth_script (config s); username];
    emit (Debug ("We are in SwanSpawner. Credentials for " ++ username
                 ++ " were requested."))
  else mret tt.

(** Lines 304-316: the software stack and the platform must be on CVMFS. *)
Definition check_software_stack (lcg_rel platform : pyval) : M unit :=
  s ← get_self;
  root_exists ← path_exists (lcg_view_path (config s));
  if negb root_exists then throw ValueError msg_stack_missing
  else
    view ← lift (a ← str_add (lcg_view_path (config s) ++ "/") lcg_rel;
                 str_add (a ++ "/") platform);
    view_exists ← path_exists view;
    if negb view_exists then throw ValueError msg_configuration_missing
    else mret tt.

(** Lines 379-399: the Hadoop token file and the WebHDFS token. *)
Definition set_hadoop_tokens (hadoop_host_path : string) (cluster : pyval)
    : M unit :=
  hadoop_toks ← path_exists (hadoop_host_path ++ "/hadoop.toks");
  both ← (if (hadoop_toks : bool) then path_exists (hadoop_host_path ++ "/webhdfs.toks")
          else mret false);
  if (both : bool) then
    _ ← update_self (fun s =>
          with_env (<["HADOOP_TOKEN_FILE_LOCATION" :=
                        PStr (hadoop_container_path ++ "/hadoop.toks")]> (env s)) s);
    token ← read_file (hadoop_host_path ++ "/webhdfs.toks");
    update_self (fun s => with_env (<["WEBHDFS_TOKEN" := PStr token]> (env s)) s)
  else if pyval_eqb cluster (PStr "nxcals") then throw ValueError msg_nxcals_denied
  else if pyval_eqb cluster (PStr "k8s") then mret tt
  else throw ValueError msg_tokens_missing.

(** Lines 340-376: authentication and authorisation of the user. *)
Definition authenticate (h : Host) (username hadoop_host_path : string)
    (cluster : pyval) : M unit :=
  s ← get_self;
  if pyval_eqb cluster (PStr "k8s") then
    _ ← subprocess_call h ["sudo"; init_k8s_user (config s); username];
    kubeconfig ← path_exists (hadoop_host_path ++ "/k8s-user.config");
    if (kubeconfig : bool) then
      _ ← update_self (fun s =>
            with_env (<["KUBECONFIG" :=
                          PStr (hadoop_container_path ++ "/k8s-user.config")]> (env s)) s);
      _ ← subprocess_call h ["sudo"; hadoop_auth_script (config s); "analytix"; username];
      update_self (fun s =>
        with_env (<["KRB5CCNAME" := PStr (hadoop_container_path ++ "/krb5cc")]> (env s)) s)
    else throw RuntimeError msg_k8s_unreachable
  else
    name ← lift (match cluster with
                 | PStr name => Return name
                 | _ => raise TypeError "expected str, bytes or os.PathLike object"
                 end);
    _ ← subprocess_call h ["sudo"; hadoop_auth_script (config s); name; username];
    update_self (fun s => with_env (<["KRB5CCNAME" := PStr "/tmp/krb5cc"]> (env s)) s).

(** Lines 320-399: the body of [if self.offload:]. *)
Definition provision_credentials (h : Host) (username : string)
    (cluster lcg_rel : pyval) : M unit :=
  wrong_stack ← lift (if pyval_eqb cluster (PStr "k8s")
                      then (dev ← str_in "dev" lcg_rel; Return (negb dev))
                      else Return false);
  if (wrong_stack : bool) then throw ValueError msg_k8s_unsupported
  else
    let hadoop_host_path := "/spark/" ++ username in
    _ ← update_self (fun s => with_env (delete "WEBHDFS_TOKEN" (env s)) s);
    _ ← update_self (fun s => with_env (delete "HADOOP_TOKEN_FILE_LOCATION" (env s)) s);
    _ ← update_self (fun s => with_env (delete "KUBECONFIG" (env s)) s);
    _ ← authenticate h username hadoop_host_path cluster;
    set_hadoop_tokens hadoop_host_path cluster.

Definition set_cpu (v : pyval) (c : host_config) : host_config :=
  {| port_bindings := port_bindings c; cpu_period := Some 100000;
     cpu_quota := Some v |}.

(** Lines 402-411: the limits of the container. *)
Definition set_resource_limits (cpu_quota mem_limit : pyval) : M unit :=
  s ← get_self;
  _ ← match extra_host_config s with
      | Some c =>
          quota ← lift (int_mul 100000 cpu_quota);
          update_self (with_host_config (Some (set_cpu quota c)))
      | None => update_self (with_cpu_limit cpu_quota)
      end;
  update_self (with_mem_limit mem_limit).

(** *** Names

    A name that [start] does not assign and that the enclosing function does
    not bind is looked up in the globals of the module, then in the built-in
    names. *)

Definition enclosing_names : list string := ["base_class"; "SwanSpawner"].

Definition module_globals : list string :=
  [ "pickle"; "struct"; "re"; "calendar"; "datetime"; "os"; "pwd"; "subprocess";
    "gen"; "Unicode"; "Bool"; "Int"; "List"; "Dict"; "contextlib"; "random";
    "psutil"; "socket"; "SO_REUSEADDR"; "AF_INET"; "SOCK_STREAM"; "SOL_SOCKET";
    "gethostname"; "define_SwanSpawner_from" ].

Definition builtin_names : list string :=
  [ "ArithmeticError"; "AssertionError"; "AttributeError"; "BaseException";
    "BlockingIOError"; "BrokenPipeError"; "BufferError"; "BytesWarning";
    "ChildProcessError"; "ConnectionAbortedError"; "ConnectionError";
    "ConnectionRefusedError"; "ConnectionResetError"; "DeprecationWarning";
    "EOFError"; "Ellipsis"; "EnvironmentError"; "Exception"; "False";
    "FileExistsError"; "FileNotFoundError"; "FloatingPointError";
    "FutureWarning"; "GeneratorExit"; "IOError"; "ImportError"; "ImportWarning";
    "IndentationError"; "IndexError"; "InterruptedError"; "IsADirectoryError";
    "KeyError"; "KeyboardInterrupt"; "LookupError"; "MemoryError";
    "ModuleNotFoundError"; "NameError"; "None"; "NotADirectoryError";
    "NotImplemented"; "NotImplementedError"; "OSError"; "OverflowError";
    "PendingDeprecationWarning"; "PermissionError"; "ProcessLookupError";
    "RecursionError"; "ReferenceError"; "ResourceWarning"; "RuntimeError";
    "RuntimeWarning"; "StopAsyncIteration"; "StopIteration"; "SyntaxError";
    "SyntaxWarning"; "SystemError"; "SystemExit"; "TabError"; "TimeoutError";
    "True"; "TypeError"; "UnboundLocalError"; "UnicodeDecodeError";
    "UnicodeEncodeError"; "UnicodeError"; "UnicodeTranslateError";
    "UnicodeWarning"; "UserWarning"; "ValueError"; "Warning";
    "ZeroDivisionError"; "abs"; "all"; "any"; "ascii"; "bin"; "bool";
    "breakpoint"; "bytearray"; "bytes"; "callable"; "chr"; "classmethod";
    "compile"; "complex"; "copyright"; "credits"; "delattr"; "dict"; "dir";
    "divmod"; "enumerate"; "eval"; "exec"; "exit"; "filter"; "float"; "format";
    "frozenset"; "getattr"; "globals"; "hasattr"; "hash"; "help"; "hex"; "id";
    "input"; "int"; "isinstance"; "issubclass"; "iter"; "len"; "license";
    "list"; "locals"; "map"; "max"; "memoryview"; "min"; "next"; "object";
    "oct"; "open"; "ord"; "pow"; "print"; "property"; "quit"; "range"; "repr";
    "reversed"; "round"; "set"; "setattr"; "slice"; "sorted"; "staticmethod";
    "str"; "sum"; "super"; "tuple"; "type"; "vars"; "zip" ].

(** The value of [name] where the local variables are [locals]. *)
Definition load_name (locals : list (string * pyval)) (name : string)
    : result pyval :=
  match dict_find String.eqb name locals with
  | Some v => Return v
  | None =>
      if str_in_list name (enclosing_names ++ module_globals ++ builtin_names)
      then Return (PObject name)
      else raise NameError ("name '" ++ name ++ "' is not defined")
  end.

(** Lines 299-415: everything in the [try] statement of [start] that comes
    before [return startup]. *)
Definition start_steps (h : Host) (username : string)
    (platform lcg_rel cluster cpu_quota mem_limit : pyval) : M unit :=
  _ ← request_home_credentials h username;
  _ ← check_software_stack lcg_rel platform;
  s ← get_self;
  _ ← (if offload s then provision_credentials h username cluster lcg_rel
       else mret tt);
  _ ← set_resource_limits cpu_quota mem_limit;
  _ ← _send_user_metrics h;
  _send_start_exception_metric h None.

(** The body of the [try] statement of [start]. *)
Definition start_body (h : Host) (username : string)
    (platform lcg_rel cluster cpu_quota mem_limit : pyval) : M pyval :=
  _ ← start_steps h username platform lcg_rel cluster cpu_quota mem_limit;
  lift (load_name [ ("username", PStr username); ("platform", platform);
                    ("lcg_rel", lcg_rel); ("cluster", cluster);
                    ("cpu_quota", cpu_quota); ("mem_limit", mem_limit) ]
          "startup").

Definition start (h : Host) : M pyval :=
  s ← get_self;
  let username := user_name (config s) in
  platform ← lift (getitem (user_options s) platform_field);
  lcg_rel ← lift (getitem (user_options s) lcg_rel_field);
  cluster ← lift (getitem (user_options s) spark_cluster_field);
  cpu_quota ← lift (getitem (user_options s) user_n_cores);
  mem_limit ← lift (getitem (user_options s) user_memory);
  try_except
    (start_body h username platform lcg_rel cluster cpu_quota mem_limit)
    catch_BaseException
    (fun e =>
       _ ← _send_start_exception_metric h (Some e);
       lift (Raise e)).

(** ** [stop] and [poll] *)

Definition stop (h : Host) : M pyval :=
  stop_result ← lift (super_stop h);
  let container_exit_code := PStr "0" in
  _ ← _send_exit_metric h container_exit_code;
  mret stop_result.

Definition poll (h : Host) : M pyval :=
  container_exit_code ← lift (super_poll h);
  _ ← (if negb (pyval_eqb container_exit_code PNone)
       then _send_exit_metric h container_exit_code
       else mret tt);
  mret container_exit_code.

(* ===================================================================== *)
(** * A sample deployment, on which the statements below are run *)
(* ===================================================================== *)

(** An attempt in which every system call succeeds and no connection is
    alive. *)
Definition quiet (r : Z) : Attempt :=
  {| entropy := r; connections := []; failure := fun _ => None;
     ephemeral := 49152 |}.

(** An attempt whose [bind] fails because the address is in use. *)
Definition busy (r : Z) : Attempt :=
  {| entropy := r; connections := [];
     failure := fun s => match s with
                         | Bind => Some (mkExn OSError "Address already in use")
                         | _ => None
                         end;
     ephemeral := 49152 |}.

(** The default values of the traits, for the user [alice]. *)
Definition demo_config (metrics : bool) (extra : gmap string pyval) : Config :=
  {| lcg_view_path := "/cvmfs/sft.cern.ch/lcg/views";
     auth_script := "/srv/jupyterhub/private/eos_token.sh";
     hadoop_auth_script := "/srv/jupyterhub/private/hadoop_token.sh";
     init_k8s_user := "/srv/jupyterhub/private/init_k8s_user.sh";
     local_home := false;
     eos_path_prefix := "/eos/user";
     yarn_config_script := "/cvmfs/sft.cern.ch/lcg/etc/hadoop-confext/hadoop-setconf.sh";
     k8s_config_script := "/cvmfs/sft.cern.ch/lcg/etc/hadoop-confext/k8s-setconf.sh";
     spark_max_sessions := 1;
     spark_session_num_ports := 3;
     spark_session_port_range_start := 5001;
     spark_session_port_range_end := 5300;
     available_cores := ["1"];
     available_memory := ["8"];
     graphite_metric_path := "c5.swan";
     extra_env := extra;
     metrics_on := metrics;
     this_host := "swan001";
     user_name := "alice";
     cookie_name := "jupyter-hub-token-alice";
     user_base_url := "/user/alice/";
     hub_base_url := "/hub/";
     hub_api_url := "http://127.0.0.1:8081/hub/api";
     use_internal_ip := false;
     port := 8888;
     host_ip := "127.0.0.1" |}.

(** What a submitted form is turned into. *)
Definition demo_options (lcg_rel cluster : string) : list (string * pyval) :=
  [ (lcg_rel_field, PStr lcg_rel); (platform_field, PStr "x86_64");
    (user_script_env_field, PStr ""); (spark_cluster_field, PStr cluster);
    (user_n_cores, PInt 1); (user_memory, PStr "8G") ].

Definition demo_formdata (cluster ncores memory : string)
    : gmap string (list string) :=
  list_to_map
    [ (lcg_rel_field, ["LCG-dev3"]); (platform_field, ["x86_64"]);
      (user_script_env_field, [""]); (spark_cluster_field, [cluster]);
      (user_n_cores, [ncores]); (user_memory, [memory]) ].

(** A spawner built on the Docker spawner. *)
Definition demo_spawner (cfg : Config) (options : list (string * pyval))
    (offloading : bool) : Spawner :=
  {| config := cfg; offload := offloading; user_options := options;
     env := ∅;
     extra_host_config :=
       Some {| port_bindings := []; cpu_period := None; cpu_quota := None |};
     extra_create_kwargs := Some {| ports := [] |};
     cpu_limit := PNone; mem_limit := PNone |}.

(** CVMFS with the release [LCG-dev3] and [LCG_96], and the files that the
    helper programs have left for [alice]. *)
Definition demo_fs (spark_files : list string) : gmap string node :=
  list_to_map
    ([ ("/cvmfs/sft.cern.ch/lcg/views", Dir);
       ("/cvmfs/sft.cern.ch/lcg/views/LCG-dev3/x86_64", Dir);
       ("/cvmfs/sft.cern.ch/lcg/views/LCG_96/x86_64", Dir) ]
     ++ map (fun name => ("/spark/alice/" ++ name, File "token")) spark_files).

Definition demo_state (s : Spawner) (spark_files : list string) : State :=
  {| self := s; fs := demo_fs spark_files; log := [] |}.

(** A host whose helper programs exit with status 0 and write nothing, whose
    [k]-th reservation finds the port [5001 + k] free after [retries k] failed
    attempts, and whose upstream spawner passes [self.env] on. *)
Definition demo_host (retries : Z -> Z) (stopped : result pyval) : Host :=
  {| run := fun _ files => (Exited 0, files);
     getpwnam := fun name => if String.eqb name "alice" then Some 1000 else None;
     nodename := "swan001.cern.ch";
     utcnow := 1600000000;
     sockets := fun k i => if i <? retries k then busy k else quiet k;
     carbon := fun _ => None;
     super_get_env := fun e => e;
     super_stop := stopped;
     super_poll := stopped |}.

(** The same host when the helper programs do not answer in 60 seconds. *)
Definition slow_host : Host :=
  {| run := fun argv files =>
              (Failed (mkExn TimeoutExpired "timed out after 60 seconds"), files);
     getpwnam := fun name => if String.eqb name "alice" then Some 1000 else None;
     nodename := "swan001.cern.ch";
     utcnow := 1600000000;
     sockets := fun k i => quiet k;
     carbon := fun _ => None;
     super_get_env := fun e => e;
     super_stop := Return PNone;
     super_poll := Return PNone |}.

(* ===================================================================== *)
(** * Notions used in the statements *)
(* ===================================================================== *)

(** The variables that [get_env] sets for a session that offloads. *)
Definition cluster_entries : list string :=
  [ "SPARK_CLUSTER_NAME"; "SPARK_USER"; "SERVER_HOSTNAME"; "MAX_MEMORY";
    "SPARK_CONFIG_SCRIPT"; "SPARK_PORTS" ].

(** The same host with other answers of the sockets. *)
Definition with_sockets (os : Z -> Z -> Attempt) (h : Host) : Host :=
  {| run := run h; getpwnam := getpwnam h; nodename := nodename h;
     utcnow := utcnow h; sockets := os; carbon := carbon h;
     super_get_env := super_get_env h; super_stop := super_stop h;
     super_poll := super_poll h |}.

(** Two spawner objects that differ at most in what [get_env] writes: the
    port bindings and the list of ports of the Docker spawner. *)
Definition same_inputs (s s' : Spawner) : Prop :=
  config s' = config s /\ offload s' = offload s /\
  user_options s' = user_options s /\ env s' = env s /\
  (is_Some (extra_host_config s') <-> is_Some (extra_host_config s)) /\
  (is_Some (extra_create_kwargs s') <-> is_Some (extra_create_kwargs s)).

(** The exception of [return startup]. *)
Definition startup_undefined : exn :=
  mkExn NameError "name 'startup' is not defined".

(** The error that [_send_exit_metric] logs for a status it cannot read. *)
Definition unknown_exit_code : exn :=
  mkExn Exception_ "unknown exit code format for this Spawner".

(** The metrics that the lifecycle methods log. *)
Definition start_metric (h : Host) (s : Spawner) (outcome : string) : event :=
  Info "StartExceptionMetric: %s"
    (join "." [_get_base_metric_path s; "spawn_exception"; outcome], (utcnow h, 1)).

Definition exit_metric (h : Host) (s : Spawner) (code : string) : event :=
  Info "ExitReturnCodeMetric: %s"
    (join "." [_get_base_metric_path s; "container_exit_code"; code], (utcnow h, 1)).

(** A state after some events have been appended to the log. *)
Definition logged (st : State) (events : list event) : State :=
  {| self := self st; fs := fs st; log := log st ++ events |}.

(* ===================================================================== *)
(** * The rest of the class *)
(* ===================================================================== *)

(** ** [__init__] *)

(** [s.split('.')[0]] *)
Fixpoint before_dot (s : string) : string :=
  match s with
  | EmptyString => EmptyString
  | String c s' => if Ascii.eqb c "." then EmptyString else String c (before_dot s')
  end.

Definition set_this_host (name : string) (c : Config) : Config :=
  {| lcg_view_path := lcg_view_path c; auth_script := auth_script c;
     hadoop_auth_script := hadoop_auth_script c; init_k8s_user := init_k8s_user c;
     local_home := local_home c; eos_path_prefix := eos_path_prefix c;
     yarn_config_script := yarn_config_script c;
     k8s_config_script := k8s_config_script c;
     spark_max_sessions := spark_max_sessions c;
     spark_session_num_ports := spark_session_num_ports c;
     spark_session_port_range_start := spark_session_port_range_start c;
     spark_session_port_range_end := spark_session_port_range_end c;
     available_cores := available_cores c; available_memory := available_memory c;
     graphite_metric_path := graphite_metric_path c; extra_env := extra_env c;
     metrics_on := metrics_on c; this_host := name; user_name := user_name c;
     cookie_name := cookie_name c; user_base_url := user_base_url c;
     hub_base_url := hub_base_url c; hub_api_url := hub_api_url c;
     use_internal_ip := use_internal_ip c; port := port c; host_ip := host_ip c |}.

(** [__init__], on the object that the upstream [__init__] has set up
    and with the answer of [gethostname()]. *)
Definition __init__ (hostname : string) (s : Spawner) : Spawner :=
  {| config := set_this_host (before_dot hostname) (config s);
     offload := false; user_options := user_options s; env := env s;
     extra_host_config := extra_host_config s;
     extra_create_kwargs := extra_create_kwargs s;
     cpu_limit := cpu_limit s; mem_limit := mem_limit s |}.

(** ** [get_volumes] *)

(** A value of [volumes], [read_only_volumes] or [shared_volumes]: the
    path in the container, or a dictionary with the key [bind] and maybe the
    key [mode]. *)
Inductive volume : Set :=
| BindTo (path : string)
| BindSpec (spec : list (string * string)).

(** The body of the loop of [_convert_list]; [fmt] is [_fmt], the
    [format_volume_name] of the upstream spawner. *)
Definition convert_volume (fmt : string -> string) (only_mount : bool)
    (mode : string) (item : string * volume) : result string :=
  let '(k, v) := item in
  let m := mode in
  mv ← match v with
       | BindSpec spec =>
           let m := match dict_find String.eqb "mode" spec with
                    | Some explicit => explicit
                    | None => m
                    end in
           bind ← getitem spec "bind";
           Return (m, bind)
       | BindTo path => Return (m, path)
       end;
  let '(m, v) := mv in
  if only_mount then Return (fmt v)
  else Return (fmt k ++ ":" ++ fmt v ++ ":" ++ m).

Fixpoint _convert_list (fmt : string -> string) (only_mount : bool)
    (volumes : list (string * volume)) (binds : list string) (mode : string)
    : result (list string) :=
  match volumes with
  | [] => Return binds
  | item :: rest =>
      b ← convert_volume fmt only_mount mode item;
      _convert_list fmt only_mount rest (binds ++ [b]) mode
  end.

Definition get_volumes (fmt : string -> string)
    (volumes read_only_volumes shared_volumes : list (string * volume))
    (only_mount : bool) : result (list string) :=
  binds ← _convert_list fmt only_mount volumes [] "rw";
  binds ← _convert_list fmt only_mount read_only_volumes binds "ro";
  _convert_list fmt only_mount shared_volumes binds "shared".

Definition volume_mount_points (fmt : string -> string)
    (volumes read_only_volumes shared_volumes : list (string * volume))
    : result (list string) :=
  get_volumes fmt volumes read_only_volumes shared_volumes true.

Definition volume_binds (fmt : string -> string)
    (volumes read_only_volumes shared_volumes : list (string * volume))
    : result (list string) :=
  get_volumes fmt volumes read_only_volumes shared_volumes false.

(** ** The message of [_send_graphite_metrics] *)

(** [struct.pack("!L", n)]: four bytes, the most significant first;
    [struct.error], whose [__name__] is [error] and which derives from
    [Exception], when [n] does not fit. *)
Definition pack_L (n : Z) : result (list Z) :=
  if (0 <=? n) && (n <? 2 ^ 32)
  then Return [ n / 2 ^ 24 mod 256; n / 2 ^ 16 mod 256; n / 2 ^ 8 mod 256; n mod 256 ]
  else raise (OtherClass "error" true) "argument out of range".

(** Lines 623-625: the message for the [payload] that [pickle.dumps] gives. *)
Definition graphite_message (payload : list Z) : result (list Z) :=
  header ← pack_L (Z.of_nat (length payload));
  Return (header ++ payload)%list.

(** The number that four bytes stand for, the most significant first. *)
Definition unpack_L (header : list Z) : Z :=
  fold_left (fun acc b => 256 * acc + b) header 0.

(** ** Further notions used in the statements *)

(** A host whose clock and names are those of [demo_host], with the
    outcome of the helper programs, of the sockets and of Graphite given. *)
Definition host_with (programs : list string -> gmap string node
                                 -> proc_outcome * gmap string node)
    (os : Z -> Z -> Attempt) (graphite : list metric -> option exn)
    (polled : result pyval) : Host :=
  {| run := programs;
     getpwnam := fun name => if String.eqb name "alice" then Some 1000 else None;
     nodename := "swan001.cern.ch";
     utcnow := 1600000000;
     sockets := os;
     carbon := graphite;
     super_get_env := fun e => e;
     super_stop := polled;
     super_poll := polled |}.

(** The helper for Hadoop when it grants the tokens. *)
Definition granting (argv : list string) (files : gmap string node)
    : proc_outcome * gmap string node :=
  (Exited 0,
   <["/spark/alice/hadoop.toks" := File "hdfs-token"]>
     (<["/spark/alice/webhdfs.toks" := File "webhdfs-token"]> files)).

(** The spawner built on a spawner without the Docker attributes. *)
Definition kube_spawner (cfg : Config) (options : list (string * pyval))
    (offloading : bool) : Spawner :=
  {| config := cfg; offload := offloading; user_options := options;
     env := ∅; extra_host_config := None; extra_create_kwargs := None;
     cpu_limit := PNone; mem_limit := PNone |}.

(** The ports that the reservations of [get_env] return, when all do. *)
Fixpoint reserved_ports (h : Host) (start end_ : Z) (ks : list Z)
    : option (list pyval) :=
  match ks with
  | [] => Some []
  | k :: ks' =>
      match get_reserved_port start end_ default_n_tries (sockets h k) with
      | Return p => option_map (cons p) (reserved_ports h start end_ ks')
      | Raise _ => None
      end
  end.

(** The spawner object after the ports [ps] have been reserved. *)
Definition with_reserved (ps : list pyval) (s : Spawner) : Spawner :=
  fold_left (fun s p => append_port p (bind_port p (HostPort p) s)) ps s.

(** The state [st'] comes from [st] by steps that have left [self.env],
    the configuration and [self.offload] alone and have run no program but
    those of [allowed]. *)
Definition runs_only (allowed : list (list string)) (st st' : State) : Prop :=
  env (self st') = env (self st) /\
  config (self st') = config (self st) /\
  offload (self st') = offload (self st) /\
  exists events,
    log st' = (log st ++ events)%list /\
    forall argv, In (Spawn argv) events -> In argv allowed.

(* ===================================================================== *)
(** * Properties *)
(* ===================================================================== *)

(** Unfolding of the monad and of its primitive operations. *)
Ltac unfold_monad :=
  unfold mbind, mret, M_bind, M_ret, result_bind, result_ret, rbind,
    lift, throw, raise, get_self, update_self, emit, try_except,
    catch_Exception, catch_BaseException in *.

(** ** Port reservation *)

Lemma randint_range a b r p : randint a b r = Return p -> a <= p <= b.
Proof.
  unfold randint. destruct (Z.leb_spec a b) as [Hab|Hab]; [|discriminate].
  intros [= <-]. pose proof (Z.mod_pos_bound r (b - a + 1)). lia.
Qed.

(** An attempt that succeeds on a range of positive ports returns the port
    that it drew. *)
Lemma attempt_port_range start end_ a v :
  1 <= start ->
  attempt_port start end_ a = Return v ->
  exists p, v = PInt p /\ start <= p <= end_.
Proof.
  intros Hs. unfold attempt_port.
  destruct (syscall a NewListener); [|discriminate]. cbn.
  destruct (randint start end_ (entropy a)) as [port|] eqn:Hr; [|discriminate]. cbn.
  apply randint_range in Hr.
  destruct (syscall a NetConnections); [|discriminate]. cbn.
  destruct (negb _); [discriminate|]. cbn.
  destruct (_ && _); [|discriminate].
  destruct (syscall a Bind); [|discriminate]. cbn.
  destruct (syscall a Listen); [|discriminate]. cbn.
  destruct (syscall a NewClient); [|discriminate]. cbn.
  destruct (syscall a Connect); [|discriminate]. cbn.
  destruct (syscall a Accept); [|discriminate]. cbn.
  intros [= <-]. exists port. split; [|lia].
  destruct (Z.eqb_spec port 0); [lia|done].
Qed.

(** The loop, started at index [a] with [len] indices left, of which the
    last one is [n_tries - 1]. *)
Lemma reserve_loop_spec start end_ n_tries os len : forall a,
  (0 < len)%nat ->
  Z.of_nat (a + len) = n_tries ->
  match reserve_loop start end_ n_tries os (map Z.of_nat (seq a len)) with
  | Return v =>
      exists i, Z.of_nat a <= i < n_tries /\ attempt_port start end_ (os i) = Return v
  | Raise e =>
      attempt_port start end_ (os (n_tries - 1)) = Raise e /\
      forall i, Z.of_nat a <= i < n_tries ->
        exists e', attempt_port start end_ (os i) = Raise e'
  end.
Proof.
  induction len as [|len IH]; intros a Hlen Hn; [lia|].
  cbn [seq map reserve_loop].
  destruct (attempt_port start end_ (os (Z.of_nat a))) as [v|e] eqn:Ha.
  - exists (Z.of_nat a). split; [lia|done].
  - destruct (Z.eqb_spec (Z.of_nat a) (n_tries - 1)) as [Heq|Hne].
    + split; [by rewrite <- Heq|].
      intros i Hi. assert (i = Z.of_nat a) as -> by lia. eauto.
    + specialize (IH (S a)).
      destruct len as [|len']; [lia|].
      specialize (IH ltac:(lia) ltac:(lia)).
      destruct (reserve_loop _ _ _ _ _) as [v|e'].
      * destruct IH as (i & Hi & Hv). exists i. split; [lia|done].
      * destruct IH as [Hlast Hall]. split; [done|].
        intros i Hi. destruct (Z.eq_dec i (Z.of_nat a)) as [->|]; [eauto|].
        apply Hall. lia.
Qed.

(** C3 (as amended).  With at least one attempt and a range of positive
    ports, [1 <= start <= end], [get_reserved_port] either returns a port of
    the range (so 5001 for the range from 5001 to 5001) or raises; and it
    raises only when every one of the [n_tries] attempts has raised, the
    exception being that of the last attempt. *)
Theorem get_reserved_port_in_range start end_ n_tries os :
  1 <= n_tries ->
  1 <= start <= end_ ->
  match get_reserved_port start end_ n_tries os with
  | Return (PInt p) => start <= p <= end_
  | Return _ => False
  | Raise e =>
      attempt_port start end_ (os (n_tries - 1)) = Raise e /\
      forall i, 0 <= i < n_tries ->
        exists e', attempt_port start end_ (os i) = Raise e'
  end.
Proof.
  intros Hn [Hs He]. unfold get_reserved_port, range.
  pose proof (reserve_loop_spec start end_ n_tries os (Z.to_nat n_tries) 0
                ltac:(lia) ltac:(lia)) as H.
  destruct (reserve_loop _ _ _ _ _) as [v|e].
  - destruct H as (i & _ & Hv).
    apply attempt_port_range in Hv as (p & -> & Hp); done.
  - done.
Qed.

Lemma get_reserved_port_in_range_witness :
  match get_reserved_port 5001 5001 default_n_tries (fun i => if i <? 2 then busy i else quiet i) with
  | Return (PInt p) => 5001 <= p <= 5001
  | Return _ => False
  | Raise e =>
      attempt_port 5001 5001 (if default_n_tries - 1 <? 2
                              then busy (default_n_tries - 1)
                              else quiet (default_n_tries - 1)) = Raise e /\
      forall i, 0 <= i < default_n_tries ->
        exists e', attempt_port 5001 5001 (if i <? 2 then busy i else quiet i) = Raise e'
  end.
Proof.
  apply (get_reserved_port_in_range 5001 5001 default_n_tries
           (fun i => if i <? 2 then busy i else quiet i));
    unfold default_n_tries; lia.
Defined.

(** C3 (as stated) fails.  With no attempt configured the loop body never
    runs and the call returns [None], neither a port of the range nor an
    error; and on the range from 0 to 0 the port is bound to 0, the kernel
    chooses the port, and the call returns a port outside the range. *)
Lemma get_reserved_port_counterexample :
  let claim start end_ n_tries os :=
    match get_reserved_port start end_ n_tries os with
    | Return (PInt p) => start <= p <= end_
    | Return _ => False
    | Raise _ => True
    end in
  get_reserved_port 5001 5001 0 quiet = Return PNone /\
  ~ claim 5001 5001 0 quiet /\
  get_reserved_port 0 0 default_n_tries quiet = Return (PInt 49152) /\
  ~ claim 0 0 default_n_tries quiet.
Proof.
  cbv zeta.
  assert (H0 : get_reserved_port 5001 5001 0 quiet = Return PNone) by reflexivity.
  assert (H1 : get_reserved_port 0 0 default_n_tries quiet = Return (PInt 49152))
    by reflexivity.
  rewrite H0, H1. repeat split; [tauto|lia].
Qed.

(** When some attempt succeeds the call returns. *)
Lemma get_reserved_port_returns start end_ n_tries os i v :
  1 <= start <= end_ ->
  0 <= i < n_tries ->
  attempt_port start end_ (os i) = Return v ->
  exists p, get_reserved_port start end_ n_tries os = Return (PInt p).
Proof.
  intros Hr Hi Hv.
  pose proof (Hloop := reserve_loop_spec start end_ n_tries os
                (Z.to_nat n_tries) 0 ltac:(lia) ltac:(lia)).
  unfold get_reserved_port, range.
  destruct (reserve_loop _ _ _ _ _) as [w|e].
  - destruct Hloop as (j & _ & Hw).
    apply attempt_port_range in Hw as (p & -> & _); [eauto|lia].
  - destruct Hloop as [_ Hall].
    destruct (Hall i ltac:(lia)) as [e' He']. congruence.
Qed.

(** ** Metrics *)

Lemma exit_code_of_raises code e :
  exit_code_of code = Raise e -> is_Exception (exn_class_of e) = true.
Proof.
  destruct code as [|z|s|n]; cbn; try (by intros [= <-]).
  destruct (isdigit s); [discriminate|].
  destruct (search_ExitCode s); [discriminate|]. by intros [= <-].
Qed.

Lemma send_exit_metric_off h code st :
  metrics_on (config (self st)) = false ->
  _send_exit_metric h code st = (Return tt, st).
Proof. intros Hoff. unfold _send_exit_metric. unfold_monad. by rewrite Hoff. Qed.

Lemma send_exit_metric_on h code st :
  metrics_on (config (self st)) = true ->
  _send_exit_metric h code st =
    (Return tt,
     logged st
       [match exit_code_of code with
        | Return value_cleaned => exit_metric h (self st) value_cleaned
        | Raise ex => Error failed_to_send ex
        end]).
Proof.
  intros Hon. unfold _send_exit_metric. unfold_monad. rewrite Hon.
  destruct (exit_code_of code) as [v|e] eqn:Hcode; [done|].
  by rewrite (exit_code_of_raises _ _ Hcode).
Qed.

Lemma send_start_exception_metric_spec h start_exception st :
  _send_start_exception_metric h start_exception st
  = (Return tt,
     if metrics_on (config (self st))
     then logged st
            [start_metric h (self st)
               match start_exception with
               | Some e => class_name (exn_class_of e)
               | None => "None"
               end]
     else st).
Proof.
  unfold _send_start_exception_metric. unfold_monad.
  by destruct (metrics_on (config (self st))).
Qed.




(** ** [stop] and [poll] *)

(** C8 (as amended).  When the stop of the upstream spawner returns, [stop]
    returns its result and, if the metrics are on, has logged one exit metric
    with code 0 whatever that result is; if the metrics are off nothing is
    logged.  When the upstream stop raises, the exception goes to the caller
    and no metric is logged. *)
Theorem stop_spec h st :
  match super_stop h with
  | Return stop_result =>
      stop h st
      = (Return stop_result,
         if metrics_on (config (self st))
         then logged st [exit_metric h (self st) "0"]
         else st)
  | Raise e => stop h st = (Raise e, st)
  end.
Proof.
  unfold stop. destruct (super_stop h) as [v|e] eqn:Hs.
  - unfold mbind, M_bind, lift at 1.
    destruct (metrics_on (config (self st))) eqn:Hm.
    + by rewrite send_exit_metric_on by done.
    + by rewrite send_exit_metric_off by done.
  - done.
Qed.

(** C8 (as stated) fails.  When the stop of the upstream spawner raises,
    and also when the metrics are off, [stop] logs no exit metric. *)
Lemma stop_counterexample :
  let failed := mkExn RuntimeError "container not found" in
  let st := demo_state (demo_spawner (demo_config true ∅)
                          (demo_options "LCG-dev3" "none") false) [] in
  let st_off := demo_state (demo_spawner (demo_config false ∅)
                              (demo_options "LCG-dev3" "none") false) [] in
  stop (demo_host (fun _ => 0) (Raise failed)) st = (Raise failed, st) /\
  stop (demo_host (fun _ => 0) (Return PNone)) st_off = (Return PNone, st_off) /\
  log st = [] /\ log st_off = [].
Proof. cbv zeta. repeat split. Qed.

(** [poll] sends the exit metric only for a container that has exited. *)
Lemma poll_running h st :
  super_poll h = Return PNone -> poll h st = (Return PNone, st).
Proof. intros H. unfold poll. unfold_monad. by rewrite H. Qed.

Lemma poll_exited h status st :
  super_poll h = Return status ->
  status <> PNone ->
  exists st', poll h st = (Return status, st') /\ self st' = self st /\ fs st' = fs st.
Proof.
  intros H Hs. unfold poll. unfold mbind, M_bind, lift at 1. rewrite H.
  assert (negb (pyval_eqb status PNone) = true) as -> by (by destruct status).
  destruct (metrics_on (config (self st))) eqn:Hm.
  - rewrite send_exit_metric_on by done. eauto.
  - rewrite send_exit_metric_off by done. eauto.
Qed.

(** ** The form *)

Lemma ends_with_G_app s : ends_with_G (s ++ "G") = true.
Proof.
  induction s as [|c s IH]; [done|].
  change (String c s ++ "G") with (String c (s ++ "G")).
  destruct (s ++ "G") as [|c' r] eqn:E; [by destruct s|].
  exact IH.
Qed.

(** What a form that is accepted has been turned into. *)
Lemma options_from_form_inv formdata st options st' :
  options_from_form formdata st = (Return options, st') ->
  exists lcg_rel platform scriptenv cluster cores memory ncores quota,
    form_value formdata lcg_rel_field = Return lcg_rel /\
    form_value formdata platform_field = Return platform /\
    form_value formdata user_script_env_field = Return scriptenv /\
    (if bool_decide (is_Some (formdata !! spark_cluster_field))
     then form_value formdata spark_cluster_field else Return "none")
      = Return cluster /\
    form_value formdata user_n_cores = Return cores /\
    form_value formdata user_memory = Return memory /\
    (if str_in_list cores (available_cores (config (self st)))
     then int_of_str cores
     else first (available_cores (config (self st))) ≫= int_of_str)
      = Return ncores /\
    (if str_in_list memory (available_memory (config (self st)))
     then Return (memory ++ "G")
     else first (available_memory (config (self st))) ≫= (fun d => Return (d ++ "G")))
      = Return quota /\
    options = [ (lcg_rel_field, PStr lcg_rel); (platform_field, PStr platform);
                (user_script_env_field, PStr scriptenv);
                (spark_cluster_field, PStr cluster);
                (user_n_cores, PInt ncores); (user_memory, PStr quota) ] /\
    st' = {| self := with_offload (negb (String.eqb cluster "none")) (self st);
             fs := fs st; log := log st |}.
Proof.
  unfold options_from_form. unfold_monad.
  destruct (form_value formdata lcg_rel_field) as [lcg_rel|] eqn:H1; [|discriminate].
  destruct (form_value formdata platform_field) as [platform|] eqn:H2; [|discriminate].
  destruct (form_value formdata user_script_env_field) as [scriptenv|] eqn:H3; [|discriminate].
  destruct (if bool_decide _ then _ else _) as [cluster|] eqn:H4; [|discriminate].
  destruct (form_value formdata user_n_cores) as [cores|] eqn:H5; [|discriminate].
  destruct (if str_in_list cores _ then _ else _) as [ncores|] eqn:H6; [|discriminate].
  destruct (form_value formdata user_memory) as [memory|] eqn:H7; [|discriminate].
  destruct (if str_in_list memory _ then _ else _) as [quota|] eqn:H8; [|discriminate].
  cbn. intros [= <- <-].
  exists lcg_rel, platform, scriptenv, cluster, cores, memory, ncores, quota.
  repeat split; try done.
Qed.

(** A form that has the five fields is accepted when the lists of options
    have a first element and the options for the cores are numbers. *)
Lemma options_from_form_accepts formdata st lcg_rel platform scriptenv cores memory :
  form_value formdata lcg_rel_field = Return lcg_rel ->
  form_value formdata platform_field = Return platform ->
  form_value formdata user_script_env_field = Return scriptenv ->
  form_value formdata user_n_cores = Return cores ->
  form_value formdata user_memory = Return memory ->
  formdata !! spark_cluster_field <> Some [] ->
  available_cores (config (self st)) <> [] ->
  available_memory (config (self st)) <> [] ->
  (forall c, In c (available_cores (config (self st))) ->
     exists n, int_of_str c = Return n) ->
  exists options st', options_from_form formdata st = (Return options, st').
Proof.
  intros H1 H2 H3 H4 H5 Hcluster Hc Hm Hnum.
  unfold options_from_form. unfold_monad. rewrite H1, H2, H3, H4, H5.
  assert (exists cluster,
    (if bool_decide (is_Some (formdata !! spark_cluster_field))
     then form_value formdata spark_cluster_field else Return "none")
    = Return cluster) as [cluster ->].
  { unfold form_value. destruct (formdata !! spark_cluster_field) as [[|v vs]|];
      [done|by exists v|by exists "none"]. }
  assert (exists n,
    (if str_in_list cores (available_cores (config (self st)))
     then match form_value formdata user_n_cores with
          | Return a => int_of_str a
          | Raise e => Raise e
          end
     else match first (available_cores (config (self st))) with
          | Return a => int_of_str a
          | Raise e => Raise e
          end) = Return n) as [n Hn].
  { rewrite H4. destruct (str_in_list cores _) eqn:Hin.
    - apply Hnum. unfold str_in_list in Hin.
      apply existsb_exists in Hin as (c & Hc' & Heq).
      by apply String.eqb_eq in Heq as ->.
    - destruct (available_cores (config (self st))) as [|d rest]; [done|].
      apply Hnum. by left. }
  rewrite H4 in Hn. rewrite Hn.
  destruct (str_in_list memory _); [by eauto|].
  destruct (available_memory (config (self st))) as [|d rest]; [done|].
  cbn. eauto.
Qed.

(** C10.  In the options of an accepted form, the number of cores is the
    submitted one when it is in [available_cores] and otherwise the first of
    [available_cores], and the memory is the submitted one when it is in
    [available_memory] and otherwise the first of [available_memory]; the
    memory always ends with the unit [G]. *)
Theorem options_from_form_clamps formdata st options st' :
  options_from_form formdata st = (Return options, st') ->
  exists cores memory ncores quota,
    form_value formdata user_n_cores = Return cores /\
    form_value formdata user_memory = Return memory /\
    getitem options user_n_cores = Return (PInt ncores) /\
    getitem options user_memory = Return (PStr quota) /\
    (if str_in_list cores (available_cores (config (self st)))
     then int_of_str cores = Return ncores
     else exists default others,
            available_cores (config (self st)) = default :: others /\
            int_of_str default = Return ncores) /\
    (if str_in_list memory (available_memory (config (self st)))
     then quota = memory ++ "G"
     else exists default others,
            available_memory (config (self st)) = default :: others /\
            quota = default ++ "G") /\
    ends_with_G quota = true.
Proof.
  intros H. apply options_from_form_inv in H
    as (lcg_rel & platform & scriptenv & cluster & cores & memory & ncores & quota
        & _ & _ & _ & _ & Hc & Hm & Hn & Hq & -> & _).
  exists cores, memory, ncores, quota.
  split; [done|]. split; [done|]. split; [done|]. split; [done|].
  assert (Hmem : if str_in_list memory (available_memory (config (self st)))
     then quota = memory ++ "G"
     else exists default others,
            available_memory (config (self st)) = default :: others /\
            quota = default ++ "G").
  { destruct (str_in_list memory _).
    - by injection Hq as <-.
    - destruct (available_memory (config (self st))) as [|d rest]; [discriminate|].
      cbn in Hq. injection Hq as <-. eauto. }
  split; [|split; [done|]].
  - destruct (str_in_list cores _); [done|].
    destruct (available_cores (config (self st))) as [|d rest]; [discriminate|].
    cbn in Hn. eauto.
  - destruct (str_in_list memory _).
    + subst. apply ends_with_G_app.
    + destruct Hmem as (d & r & _ & ->). apply ends_with_G_app.
Qed.

Lemma options_from_form_clamps_witness :
  exists cores memory ncores quota,
    form_value (demo_formdata "none" "64" "2") user_n_cores = Return cores /\
    form_value (demo_formdata "none" "64" "2") user_memory = Return memory /\
    getitem (demo_options "LCG-dev3" "none") user_n_cores = Return (PInt ncores) /\
    getitem (demo_options "LCG-dev3" "none") user_memory = Return (PStr quota) /\
    (if str_in_list cores ["1"]
     then int_of_str cores = Return ncores
     else exists default others,
            ["1"] = default :: others /\ int_of_str default = Return ncores) /\
    (if str_in_list memory ["8"]
     then quota = memory ++ "G"
     else exists default others, ["8"] = default :: others /\ quota = default ++ "G") /\
    ends_with_G quota = true.
Proof.
  apply (options_from_form_clamps (demo_formdata "none" "64" "2")
           (demo_state (demo_spawner (demo_config true ∅) [] true) [])
           (demo_options "LCG-dev3" "none")
           (demo_state (demo_spawner (demo_config true ∅) [] false) [])).
  vm_compute. reflexivity.
Defined.

(** ** [get_env] *)

(** [base_env] leaves the cluster entries as the upstream environment and
    [extra_env] give them. *)
Lemma base_env_cluster_entries h s composed key :
  base_env h s = Return composed ->
  In key cluster_entries ->
  composed !! key = (extra_env (config s) ∪ super_get_env h (env s)) !! key.
Proof.
  unfold base_env. unfold_monad.
  destruct (getpwnam h _) as [uid|]; [|discriminate].
  destruct (if local_home (config s) then _ else _) as [homepath|]; [|discriminate].
  destruct (getitem _ lcg_rel_field) as [v1|]; [|discriminate].
  destruct (getitem _ platform_field) as [v2|]; [|discriminate].
  destruct (getitem _ user_script_env_field) as [v3|]; [|discriminate].
  intros [= <-] Hkey.
  assert (Hfixed : forall m : gmap string pyval,
    (update (list_to_map
       [("ROOT_LCG_VIEW_NAME", v1); ("ROOT_LCG_VIEW_PLATFORM", v2);
        ("USER_ENV_SCRIPT", v3);
        ("ROOT_LCG_VIEW_PATH", PStr (lcg_view_path (config s)));
        ("USER", PStr (user_name (config s)));
        ("USER_ID", PStr (str (PInt uid))); ("HOME", PStr homepath);
        ("JPY_USER", PStr (user_name (config s)));
        ("JPY_COOKIE_NAME", PStr (cookie_name (config s)));
        ("JPY_BASE_URL", PStr (user_base_url (config s)));
        ("JPY_HUB_PREFIX", PStr (hub_base_url (config s)));
        ("JPY_HUB_API_URL", PStr (hub_api_url (config s)))]) m) !! key = m !! key).
  { intros m. unfold update. apply lookup_union_r.
    cbn in Hkey.
    destruct Hkey as [<-|[<-|[<-|[<-|[<-|[<-|[]]]]]]]; reflexivity. }
  destruct (decide (extra_env (config s) = ∅)) as [Hnil|Hne].
  - rewrite Hnil, (left_id_L ∅ (∪)). apply Hfixed.
  - unfold update at 1. rewrite !lookup_union. by rewrite Hfixed.
Qed.

Lemma options_from_form_offload formdata st options st' :
  options_from_form formdata st = (Return options, st') ->
  exists cluster,
    getitem options spark_cluster_field = Return (PStr cluster) /\
    self st' = with_offload (negb (String.eqb cluster "none")) (self st) /\
    fs st' = fs st /\ log st' = log st.
Proof.
  intros H. apply options_from_form_inv in H
    as (lcg_rel & platform & scriptenv & cluster & cores & memory & ncores & quota
        & _ & _ & _ & _ & _ & _ & _ & _ & -> & ->).
  by exists cluster.
Qed.

(** Without offload [get_env] writes nothing to the log and returns what
    [base_env] computes. *)
Lemma get_env_no_offload h st result st' :
  offload (self st) = false ->
  get_env h st = (result, st') ->
  result = base_env h (self st) /\ log st' = log st.
Proof.
  intros Hoff. unfold get_env. unfold_monad.
  destruct (base_env h (self st)) as [composed|e]; [|by intros [= <- <-]].
  destruct (extra_host_config (self st)), (extra_create_kwargs (self st));
    try (by intros [= <- <-]).
  destruct (negb (use_internal_ip (config (self st)))); cbn;
    rewrite Hoff; by intros [= <- <-].
Qed.

(** C7 (as amended).  For a session whose form selects the cluster [none],
    [offload] is false, [get_env] does not call [get_reserved_port] (it logs
    nothing, so no [Reserve]), and it sets none of the cluster entries: each
    of them is in the composed environment exactly as [extra_env] or the
    upstream environment supplies it, and thus absent when neither does. *)
Theorem get_env_without_offload h formdata st options st1 :
  options_from_form formdata st = (Return options, st1) ->
  getitem options spark_cluster_field = Return (PStr "none") ->
  let session := {| self := with_user_options options (self st1);
                    fs := fs st1; log := log st1 |} in
  offload (self session) = false /\
  forall result st2, get_env h session = (result, st2) ->
    log st2 = log session /\
    forall composed, result = Return composed ->
      forall key, In key cluster_entries ->
        composed !! key
        = (extra_env (config (self st)) ∪ super_get_env h (env (self st))) !! key.
Proof.
  intros Hform Hnone session.
  destruct (options_from_form_offload _ _ _ _ Hform) as (cluster & Hc & Hself & _ & _).
  rewrite Hc in Hnone. injection Hnone as ->.
  assert (Hoff : offload (self session) = false) by (by cbn; rewrite Hself).
  split; [done|]. intros result st2 Henv.
  destruct (get_env_no_offload _ _ _ _ Hoff Henv) as [-> Hlog].
  split; [done|]. intros composed Hbase key Hkey.
  rewrite (base_env_cluster_entries _ _ _ _ Hbase Hkey).
  cbn. by rewrite Hself.
Qed.

Lemma get_env_without_offload_witness :
  let h := demo_host (fun _ => 0) (Return PNone) in
  let st := demo_state (demo_spawner (demo_config true ∅) [] true) [] in
  let session := demo_state (demo_spawner (demo_config true ∅)
                               (demo_options "LCG-dev3" "none") false) [] in
  offload (self session) = false /\
  forall result st2, get_env h session = (result, st2) ->
    log st2 = log session /\
    forall composed, result = Return composed ->
      forall key, In key cluster_entries ->
        composed !! key
        = (extra_env (config (self st)) ∪ super_get_env h (env (self st))) !! key.
Proof.
  exact (get_env_without_offload (demo_host (fun _ => 0) (Return PNone))
           (demo_formdata "none" "1" "8")
           (demo_state (demo_spawner (demo_config true ∅) [] true) [])
           (demo_options "LCG-dev3" "none")
           (demo_state (demo_spawner (demo_config true ∅) [] false) [])
           eq_refl eq_refl).
Defined.

(** C7 (as stated) fails.  With [SPARK_PORTS] in [extra_env], the
    environment composed for a session whose cluster is [none] has the entry
    [SPARK_PORTS]. *)
Lemma get_env_counterexample :
  let h := demo_host (fun _ => 0) (Return PNone) in
  let extra : gmap string pyval := {[ "SPARK_PORTS" := PStr "5001" ]} in
  let st := demo_state (demo_spawner (demo_config true extra) [] false) [] in
  let session := demo_state (demo_spawner (demo_config true extra)
                               (demo_options "LCG-dev3" "none") false) [] in
  options_from_form (demo_formdata "none" "1" "8") st
    = (Return (demo_options "LCG-dev3" "none"), st) /\
  exists composed,
    fst (get_env h session) = Return composed /\
    composed !! "SPARK_PORTS" = Some (PStr "5001").
Proof.
  cbv zeta. split; [vm_compute; reflexivity|].
  eexists. split; [vm_compute; reflexivity|]. vm_compute. reflexivity.
Qed.

(** *** Two calls in a row *)

Lemma same_inputs_refl s : same_inputs s s.
Proof. by repeat split. Qed.

Lemma same_inputs_trans s1 s2 s3 :
  same_inputs s1 s2 -> same_inputs s2 s3 -> same_inputs s1 s3.
Proof.
  intros (A1 & A2 & A3 & A4 & A5 & A6) (B1 & B2 & B3 & B4 & B5 & B6).
  repeat split; try congruence; tauto.
Qed.

Lemma same_inputs_bind_port k v s : same_inputs s (bind_port k v s).
Proof.
  repeat split; try done; cbn; destruct (extra_host_config s); cbn; eauto;
    by intros [? [=]].
Qed.

Lemma same_inputs_append_port p s : same_inputs s (append_port p s).
Proof.
  repeat split; try done; cbn; destruct (extra_create_kwargs s); cbn; eauto;
    by intros [? [=]].
Qed.

Lemma same_inputs_clear_ports s : same_inputs s (clear_ports s).
Proof.
  repeat split; try done; cbn;
    [destruct (extra_host_config s)|destruct (extra_host_config s)
    |destruct (extra_create_kwargs s)|destruct (extra_create_kwargs s)];
    cbn; eauto; by intros [? [=]].
Qed.

Create HintDb swan.
#[local] Hint Resolve same_inputs_refl same_inputs_bind_port
  same_inputs_append_port same_inputs_clear_ports : swan.

Lemma reserve_ports_same_inputs h a b ks : forall acc st,
  same_inputs (self st) (self (snd (reserve_ports h a b ks acc st))).
Proof.
  induction ks as [|k ks IH]; intros acc st; [auto with swan|].
  cbn [reserve_ports]. unfold_monad. cbn.
  destruct (get_reserved_port a b default_n_tries (sockets h k)) as [p|e].
  - cbn. eapply same_inputs_trans; [|apply IH]. cbn.
    eapply same_inputs_trans; [apply same_inputs_bind_port|apply same_inputs_append_port].
  - destruct (is_Exception _); auto with swan.
Qed.

(** The ports that [reserve_ports] returns depend on the outcome of the
    reservations only. *)
Lemma reserve_ports_result h h' a b ks : forall acc st st',
  (forall k, In k ks ->
     get_reserved_port a b default_n_tries (sockets h' k)
     = get_reserved_port a b default_n_tries (sockets h k)) ->
  fst (reserve_ports h' a b ks acc st') = fst (reserve_ports h a b ks acc st).
Proof.
  induction ks as [|k ks IH]; intros acc st st' Hsame; [done|].
  cbn [reserve_ports]. unfold_monad. cbn.
  rewrite (Hsame k) by (by left).
  destruct (get_reserved_port a b default_n_tries (sockets h k)) as [p|e].
  - cbn. apply IH. intros k' Hk'. apply Hsame. by right.
  - by destruct (is_Exception _).
Qed.

Lemma cluster_env_same_inputs h s composed st :
  same_inputs (self st) (self (snd (cluster_env h s composed st))).
Proof.
  unfold cluster_env. unfold_monad.
  destruct (getitem (user_options s) spark_cluster_field); [|auto with swan].
  destruct (getitem (user_options s) user_memory); [|auto with swan].
  match goal with
  | |- context [reserve_ports ?h ?a ?b ?ks ?acc ?st] =>
      pose proof (reserve_ports_same_inputs h a b ks acc st) as H;
      destruct (reserve_ports h a b ks acc st) as [[ports|e] st']
  end; exact H.
Qed.

(** [get_env] writes the port bindings and the list of ports only. *)
Lemma get_env_same_inputs h st :
  same_inputs (self st) (self (snd (get_env h st))).
Proof.
  unfold get_env. unfold_monad.
  destruct (base_env h (self st)) as [composed|e]; [|auto with swan].
  destruct (extra_host_config (self st)) eqn:Hh, (extra_create_kwargs (self st)) eqn:Hk;
    try apply same_inputs_refl.
  destruct (negb (use_internal_ip (config (self st)))); cbn;
    destruct (offload (self st)).
  - eapply same_inputs_trans; [|apply cluster_env_same_inputs]. cbn.
    eapply same_inputs_trans; [apply same_inputs_clear_ports|apply same_inputs_bind_port].
  - cbn. eapply same_inputs_trans; [apply same_inputs_clear_ports|apply same_inputs_bind_port].
  - eapply same_inputs_trans; [|apply cluster_env_same_inputs]. cbn.
    auto with swan.
  - cbn. auto with swan.
Qed.

Lemma base_env_same_inputs h os s s' :
  same_inputs s s' -> base_env (with_sockets os h) s' = base_env h s.
Proof.
  intros (Hc & Ho & Hu & He & _ & _). unfold base_env. cbn.
  by rewrite Hc, Hu, He.
Qed.

Lemma cluster_env_result h os s s' composed st st' :
  config s' = config s ->
  user_options s' = user_options s ->
  (forall k, In k (range (spark_session_num_ports (config s) * spark_max_sessions (config s))) ->
     get_reserved_port (spark_session_port_range_start (config s))
       (spark_session_port_range_end (config s)) default_n_tries (os k)
     = get_reserved_port (spark_session_port_range_start (config s))
         (spark_session_port_range_end (config s)) default_n_tries (sockets h k)) ->
  fst (cluster_env (with_sockets os h) s' composed st') = fst (cluster_env h s composed st).
Proof.
  intros Hc Hu Hsame. unfold cluster_env. unfold_monad.
  cbn [nodename with_sockets]. rewrite Hc, Hu.
  destruct (getitem (user_options s) spark_cluster_field); [|done].
  destruct (getitem (user_options s) user_memory); [|done].
  match goal with
  | |- context [reserve_ports h ?a ?b ?ks ?acc st] =>
      pose proof (reserve_ports_result h (with_sockets os h) a b ks acc st st' Hsame) as H;
      destruct (reserve_ports h a b ks acc st) as [[ports|e] st1];
      destruct (reserve_ports (with_sockets os h) a b ks acc st') as [[ports'|e'] st1']
  end; cbn in H; try discriminate; by injection H as ->.
Qed.

(** The result of [get_env] depends on the spawner object through the
    inputs only, and on the sockets through the outcome of the
    reservations only. *)
Lemma get_env_result h os st st' :
  same_inputs (self st) (self st') ->
  (forall k, In k (range (spark_session_num_ports (config (self st))
                          * spark_max_sessions (config (self st)))) ->
     get_reserved_port (spark_session_port_range_start (config (self st)))
       (spark_session_port_range_end (config (self st))) default_n_tries (os k)
     = get_reserved_port (spark_session_port_range_start (config (self st)))
         (spark_session_port_range_end (config (self st))) default_n_tries (sockets h k)) ->
  fst (get_env (with_sockets os h) st') = fst (get_env h st).
Proof.
  intros Hin Hsame. unfold get_env. unfold_monad.
  rewrite (base_env_same_inputs h os _ _ Hin).
  destruct Hin as (Hc & Ho & Hu & He & Hh & Hk).
  destruct (base_env h (self st)) as [composed|e]; [|done].
  destruct (extra_host_config (self st)) as [hc|] eqn:E1,
           (extra_host_config (self st')) as [hc'|] eqn:E1'.
  all: try (exfalso; destruct Hh as [H1 H2];
         first [by destruct H1 as [? [=]]; eauto|by destruct H2 as [? [=]]; eauto]).
  all: destruct (extra_create_kwargs (self st)) as [ck|] eqn:E2,
             (extra_create_kwargs (self st')) as [ck'|] eqn:E2'.
  all: try (exfalso; destruct Hk as [H1 H2];
           first [by destruct H1 as [? [=]]; eauto|by destruct H2 as [? [=]]; eauto]).
  all: try done.
  rewrite Hc, Ho.
  destruct (negb (use_internal_ip (config (self st)))); cbn;
    destruct (offload (self st)); try done;
    by apply cluster_env_result.
Qed.

(** C6.  Two calls of [get_env] in a row, the second on the spawner object
    as the first has left it, return the same result (the same environment,
    with the same [SPARK_PORTS], or the same exception) when the session,
    [self.env] and the host are the same and the reservations of the second
    call have the outcome of those of the first. *)
Theorem get_env_idempotent h os st :
  (forall k,
     0 <= k < spark_session_num_ports (config (self st))
             * spark_max_sessions (config (self st)) ->
     get_reserved_port (spark_session_port_range_start (config (self st)))
       (spark_session_port_range_end (config (self st))) default_n_tries (os k)
     = get_reserved_port (spark_session_port_range_start (config (self st)))
         (spark_session_port_range_end (config (self st))) default_n_tries (sockets h k)) ->
  fst (get_env (with_sockets os h) (snd (get_env h st))) = fst (get_env h st).
Proof.
  intros Hports. apply get_env_result; [apply get_env_same_inputs|].
  intros k Hk. apply Hports.
  unfold range in Hk. apply in_map_iff in Hk as (n & <- & Hn).
  apply in_seq in Hn. lia.
Qed.

Lemma get_env_idempotent_witness :
  let h := demo_host (fun _ => 0) (Return PNone) in
  let os := sockets (demo_host (fun k => k + 1) (Return PNone)) in
  let st := demo_state (demo_spawner (demo_config true ∅)
                          (demo_options "LCG-dev3" "k8s") true) [] in
  fst (get_env (with_sockets os h) (snd (get_env h st))) = fst (get_env h st) /\
  exists composed,
    fst (get_env h st) = Return composed /\
    composed !! "SPARK_PORTS" = Some (PStr "5001,5002,5003").
Proof.
  cbv zeta. split.
  - apply (get_env_idempotent (demo_host (fun _ => 0) (Return PNone))
             (sockets (demo_host (fun k => k + 1) (Return PNone)))
             (demo_state (demo_spawner (demo_config true ∅)
                            (demo_options "LCG-dev3" "k8s") true) [])).
    intros k Hk.
    assert (k = 0 \/ k = 1 \/ k = 2) as [->|[->| ->]]
      by (change (0 <= k < 3 * 1) in Hk; lia);
      vm_compute; reflexivity.
  - eexists. split; vm_compute; reflexivity.
Defined.

(** ** [start]: the credentials *)

(** Without both token files the last step raises, unless the cluster is
    [k8s]. *)
Lemma set_hadoop_tokens_missing hadoop_host_path cluster st :
  fs st !! (hadoop_host_path ++ "/hadoop.toks") = None \/
  fs st !! (hadoop_host_path ++ "/webhdfs.toks") = None ->
  set_hadoop_tokens hadoop_host_path cluster st
  = (if pyval_eqb cluster (PStr "nxcals")
     then Raise (mkExn ValueError msg_nxcals_denied)
     else if pyval_eqb cluster (PStr "k8s") then Return tt
     else Raise (mkExn ValueError msg_tokens_missing), st).
Proof.
  intros Habsent. unfold set_hadoop_tokens, path_exists. unfold_monad.
  case_bool_decide as Hh; [case_bool_decide as Hw|].
  - destruct Habsent as [E|E]; rewrite E in *; [by destruct Hh|by destruct Hw].
  - destruct (pyval_eqb cluster (PStr "nxcals")); [done|].
    by destruct (pyval_eqb cluster (PStr "k8s")).
  - destruct (pyval_eqb cluster (PStr "nxcals")); [done|].
    by destruct (pyval_eqb cluster (PStr "k8s")).
Qed.

(** C2.  When neither [hadoop.toks] nor [webhdfs.toks] is in the directory
    of the user, the step that sets the tokens raises, for a cluster other
    than [k8s]: for [nxcals] the [ValueError] whose message says that access
    is not granted and carries the link to request access (the
    AccessDeniedError of the specification), for any other cluster the
    [ValueError] "Configuration unsupported" (its
    UnsupportedConfigurationError).  The state is left as it was. *)
Theorem set_hadoop_tokens_absent hadoop_host_path cluster st :
  fs st !! (hadoop_host_path ++ "/hadoop.toks") = None ->
  fs st !! (hadoop_host_path ++ "/webhdfs.toks") = None ->
  cluster <> "k8s" ->
  set_hadoop_tokens hadoop_host_path (PStr cluster) st
  = (Raise (mkExn ValueError
              (if String.eqb cluster "nxcals" then msg_nxcals_denied
               else msg_tokens_missing)), st) /\
  contains (link nxcals_access "request access") msg_nxcals_denied = true /\
  contains "Configuration unsupported" msg_tokens_missing = true /\
  msg_nxcals_denied <> msg_tokens_missing.
Proof.
  intros Hh _ Hk. split; [|split; [reflexivity|split; [reflexivity|discriminate]]].
  rewrite set_hadoop_tokens_missing by (by left). cbn [pyval_eqb].
  destruct (String.eqb cluster "nxcals"); [done|].
  destruct (String.eqb_spec cluster "k8s"); done.
Qed.

Lemma set_hadoop_tokens_absent_witness :
  let st := demo_state (demo_spawner (demo_config true ∅)
                          (demo_options "LCG_96" "nxcals") true) [] in
  set_hadoop_tokens "/spark/alice" (PStr "nxcals") st
  = (Raise (mkExn ValueError msg_nxcals_denied), st).
Proof.
  exact (proj1 (set_hadoop_tokens_absent "/spark/alice" "nxcals"
                  (demo_state (demo_spawner (demo_config true ∅)
                                 (demo_options "LCG_96" "nxcals") true) [])
                  eq_refl eq_refl ltac:(discriminate))).
Defined.

(** The same step at the end of the provisioning for a YARN cluster: when
    the helper program returns and has not left both token files, the body of
    [if self.offload:] raises the error of the step, whatever the release;
    [self.env] has the Kerberos cache and no token. *)
Lemma provision_yarn_without_tokens h username cluster lcg_rel st code fs1 :
  cluster <> "k8s" ->
  run h ["sudo"; hadoop_auth_script (config (self st)); cluster; username] (fs st)
    = (Exited code, fs1) ->
  fs1 !! (("/spark/" ++ username) ++ "/hadoop.toks") = None \/
  fs1 !! (("/spark/" ++ username) ++ "/webhdfs.toks") = None ->
  exists st',
    provision_credentials h username (PStr cluster) lcg_rel st
      = (Raise (mkExn ValueError
                  (if String.eqb cluster "nxcals" then msg_nxcals_denied
                   else msg_tokens_missing)), st') /\
    env (self st') !! "KRB5CCNAME" = Some (PStr "/tmp/krb5cc") /\
    env (self st') !! "HADOOP_TOKEN_FILE_LOCATION" = None /\
    env (self st') !! "WEBHDFS_TOKEN" = None /\
    log st' = (log st ++ [Spawn ["sudo"; hadoop_auth_script (config (self st));
                                 cluster; username]])%list.
Proof.
  intros Hk Hrun Habsent.
  assert (Hneq : String.eqb cluster "k8s" = false)
    by (by destruct (String.eqb_spec cluster "k8s")).
  unfold provision_credentials.
  unfold mbind at 1, M_bind, lift at 1. cbn [pyval_eqb]. rewrite Hneq.
  unfold mbind at 1 2 3 4, M_bind. unfold update_self at 1 2 3.
  unfold authenticate. unfold mbind at 1, M_bind, get_self at 1.
  cbn [pyval_eqb self config with_env]. rewrite Hneq.
  unfold mbind at 1 2, M_bind, lift at 1. unfold subprocess_call at 1.
  cbn [fs self config with_env]. rewrite Hrun.
  unfold update_self at 1.
  rewrite set_hadoop_tokens_missing by done.
  cbn [pyval_eqb]. rewrite Hneq.
  eexists. split; [by destruct (String.eqb cluster "nxcals")|].
  cbn [self env with_env fs log]. repeat split; by simplify_map_eq.
Qed.

(** The gate: no program is run and nothing is written. *)
Lemma provision_k8s_requires_dev h username lcg_rel st :
  contains "dev" lcg_rel = false ->
  provision_credentials h username (PStr "k8s") (PStr lcg_rel) st
  = (Raise (mkExn ValueError msg_k8s_unsupported), st).
Proof.
  intros Hdev. unfold provision_credentials.
  unfold mbind at 1, M_bind, lift at 1. cbn. by rewrite Hdev.
Qed.

(** The helper for the home directory is the only program that
    [request_home_credentials] runs; the spawner object is not touched. *)
Lemma request_home_credentials_spec h username st :
  exists r events,
    request_home_credentials h username st
      = (r, {| self := self st;
               fs := fs (snd (request_home_credentials h username st));
               log := (log st ++ events)%list |}) /\
    forall argv, In (Spawn argv) events ->
      argv = ["sudo"; auth_script (config (self st)); username].
Proof.
  unfold request_home_credentials, subprocess_call. unfold_monad.
  destruct (_ && _).
  - destruct (run h _ (fs st)) as [[code|e] files].
    + eexists _, [_; _]. cbn. rewrite <- app_assoc. split; [reflexivity|].
      intros argv [[= <-]|[[=]|[]]]. done.
    + eexists _, [_]. cbn. split; [reflexivity|].
      intros argv [[= <-]|[]]. done.
  - exists (Return tt), []. cbn. rewrite app_nil_r. split; [by destruct st|].
    by intros argv [].
Qed.

Lemma check_software_stack_state lcg_rel platform st :
  snd (check_software_stack lcg_rel platform st) = st.
Proof.
  unfold check_software_stack, path_exists. unfold_monad.
  destruct (negb _); [done|].
  destruct (str_add _ lcg_rel) as [a|]; [|done]. cbn.
  destruct (str_add _ platform) as [b|]; [|done].
  by destruct (negb _).
Qed.

(** Whatever [start_steps] raises is raised by [start] unchanged, after the
    metric of the failure. *)
Lemma start_reraises h st platform lcg_rel cluster cpu_quota mem_limit e st1 :
  getitem (user_options (self st)) platform_field = Return platform ->
  getitem (user_options (self st)) lcg_rel_field = Return lcg_rel ->
  getitem (user_options (self st)) spark_cluster_field = Return cluster ->
  getitem (user_options (self st)) user_n_cores = Return cpu_quota ->
  getitem (user_options (self st)) user_memory = Return mem_limit ->
  start_steps h (user_name (config (self st)))
    platform lcg_rel cluster cpu_quota mem_limit st = (Raise e, st1) ->
  start h st
  = (Raise e,
     if metrics_on (config (self st1))
     then logged st1 [start_metric h (self st1) (class_name (exn_class_of e))]
     else st1).
Proof.
  intros H1 H2 H3 H4 H5 Hsteps.
  unfold start. unfold mbind at 1 2 3 4 5 6, M_bind.
  unfold get_self at 1, lift at 1 2 3 4 5. rewrite H1, H2, H3, H4, H5.
  unfold try_except, start_body. unfold mbind at 1, M_bind. rewrite Hsteps.
  cbv [catch_BaseException]. unfold mbind, M_bind.
  by rewrite send_start_exception_metric_spec.
Qed.

(** The gate seen from [start]: once the home credentials are requested and
    the software stack is found, [start] raises the error of the gate. *)
Lemma start_k8s_gate_error h st lcg_rel platform cpu_quota mem_limit s1 :
  offload (self st) = true ->
  getitem (user_options (self st)) spark_cluster_field = Return (PStr "k8s") ->
  getitem (user_options (self st)) lcg_rel_field = Return (PStr lcg_rel) ->
  getitem (user_options (self st)) platform_field = Return platform ->
  getitem (user_options (self st)) user_n_cores = Return cpu_quota ->
  getitem (user_options (self st)) user_memory = Return mem_limit ->
  contains "dev" lcg_rel = false ->
  request_home_credentials h (user_name (config (self st))) st = (Return tt, s1) ->
  fst (check_software_stack (PStr lcg_rel) platform s1) = Return tt ->
  fst (start h st) = Raise (mkExn ValueError msg_k8s_unsupported).
Proof.
  intros Hoff Hc Hl Hp Hq Hm Hdev Hreq Hcheck.
  destruct (request_home_credentials_spec h (user_name (config (self st))) st)
    as (r & events & Hreq' & _).
  rewrite Hreq in Hreq'. injection Hreq' as <- Hs1.
  erewrite start_reraises; [done|done..|].
  unfold start_steps. unfold mbind at 1, M_bind. rewrite Hreq.
  unfold mbind at 1, M_bind.
  pose proof (check_software_stack_state (PStr lcg_rel) platform s1) as Hst.
  destruct (check_software_stack (PStr lcg_rel) platform s1) as [[[]|e] s2];
    cbn in Hst, Hcheck; subst s2; [|discriminate].
  unfold mbind at 1, M_bind, get_self at 1. rewrite Hs1. cbn [self]. rewrite Hoff.
  unfold mbind at 1, M_bind. by rewrite provision_k8s_requires_dev by done.
Qed.

(** C4.  For a session that offloads to [k8s] with a release whose name
    does not contain [dev], the body of [if self.offload:] raises the
    [ValueError] "Configuration unsupported" (the
    UnsupportedConfigurationError of the specification) from any state and
    leaves the state as it was: no program has been run.  And [start] as a
    whole raises, the only program it may have run being the helper for the
    home directory, never [init_k8s_user] nor [hadoop_auth_script]. *)
Theorem start_k8s_requires_dev h st lcg_rel platform cpu_quota mem_limit :
  offload (self st) = true ->
  getitem (user_options (self st)) spark_cluster_field = Return (PStr "k8s") ->
  getitem (user_options (self st)) lcg_rel_field = Return (PStr lcg_rel) ->
  getitem (user_options (self st)) platform_field = Return platform ->
  getitem (user_options (self st)) user_n_cores = Return cpu_quota ->
  getitem (user_options (self st)) user_memory = Return mem_limit ->
  contains "dev" lcg_rel = false ->
  (forall st0,
     provision_credentials h (user_name (config (self st)))
       (PStr "k8s") (PStr lcg_rel) st0
     = (Raise (mkExn ValueError msg_k8s_unsupported), st0)) /\
  exists e st' events,
    start h st = (Raise e, st') /\
    log st' = (log st ++ events)%list /\
    forall argv, In (Spawn argv) events ->
      argv = ["sudo"; auth_script (config (self st)); user_name (config (self st))].
Proof.
  intros Hoff Hc Hl Hp Hq Hm Hdev.
  split; [intros st0; by apply provision_k8s_requires_dev|].
  set (username := user_name (config (self st))).
  destruct (request_home_credentials_spec h username st) as (r & events & Hreq & Hspawn).
  set (s1 := {| self := self st;
                fs := fs (snd (request_home_credentials h username st));
                log := (log st ++ events)%list |}) in *.
  assert (Hsteps : exists e,
    start_steps h username platform (PStr lcg_rel) (PStr "k8s") cpu_quota mem_limit st
      = (Raise e, s1)).
  { unfold start_steps. unfold mbind at 1, M_bind. rewrite Hreq.
    destruct r as [[]|e]; [|by exists e].
    unfold mbind at 1, M_bind.
    pose proof (check_software_stack_state (PStr lcg_rel) platform s1) as Hst.
    destruct (check_software_stack (PStr lcg_rel) platform s1) as [[[]|e] s2];
      cbn in Hst; subst s2; [|by exists e].
    unfold mbind at 1, M_bind, get_self at 1. cbn [self s1]. rewrite Hoff.
    unfold mbind at 1, M_bind. rewrite provision_k8s_requires_dev by done.
    eauto. }
  destruct Hsteps as (e & Hsteps).
  rewrite (start_reraises _ _ _ _ _ _ _ _ _ Hp Hl Hc Hq Hm Hsteps).
  destruct (metrics_on (config (self s1))).
  - eexists e, _, (events ++ [_])%list.
    split; [reflexivity|]. split; [cbn; by rewrite app_assoc|].
    intros argv Hin. apply in_app_or in Hin as [Hin|[[=]|[]]]. by apply Hspawn.
  - by exists e, s1, events.
Qed.

Lemma start_k8s_requires_dev_witness :
  let h := demo_host (fun _ => 0) (Return PNone) in
  let st := demo_state (demo_spawner (demo_config true ∅)
                          (demo_options "LCG_96" "k8s") true) ["k8s-user.config"] in
  provision_credentials h "alice" (PStr "k8s") (PStr "LCG_96") st
  = (Raise (mkExn ValueError msg_k8s_unsupported), st).
Proof.
  exact (proj1 (start_k8s_requires_dev (demo_host (fun _ => 0) (Return PNone))
                  (demo_state (demo_spawner (demo_config true ∅)
                                 (demo_options "LCG_96" "k8s") true) ["k8s-user.config"])
                  "LCG_96" (PStr "x86_64") (PInt 1) (PStr "8G")
                  eq_refl eq_refl eq_refl eq_refl eq_refl eq_refl eq_refl)
               (demo_state (demo_spawner (demo_config true ∅)
                              (demo_options "LCG_96" "k8s") true) ["k8s-user.config"])).
Defined.

(** C5 (as amended).  For the cluster [k8s] and a release whose name
    contains [dev], when the two helper programs return, the first leaving
    the configuration of the user for the cluster and the second leaving
    neither token file, the body of [if self.offload:] returns, and [self.env]
    then has neither [HADOOP_TOKEN_FILE_LOCATION] nor [WEBHDFS_TOKEN]; it has
    [KUBECONFIG]. *)
Theorem provision_k8s_without_tokens h username lcg_rel st code1 fs1 code2 fs2 :
  contains "dev" lcg_rel = true ->
  run h ["sudo"; init_k8s_user (config (self st)); username] (fs st)
    = (Exited code1, fs1) ->
  is_Some (fs1 !! (("/spark/" ++ username) ++ "/k8s-user.config")) ->
  run h ["sudo"; hadoop_auth_script (config (self st)); "analytix"; username] fs1
    = (Exited code2, fs2) ->
  fs2 !! (("/spark/" ++ username) ++ "/hadoop.toks") = None ->
  fs2 !! (("/spark/" ++ username) ++ "/webhdfs.toks") = None ->
  exists st',
    provision_credentials h username (PStr "k8s") (PStr lcg_rel) st
      = (Return tt, st') /\
    env (self st') !! "HADOOP_TOKEN_FILE_LOCATION" = None /\
    env (self st') !! "WEBHDFS_TOKEN" = None /\
    env (self st') !! "KUBECONFIG" = Some (PStr "/spark/k8s-user.config") /\
    fs st' = fs2 /\
    log st' = (log st ++ [Spawn ["sudo"; init_k8s_user (config (self st)); username];
                          Spawn ["sudo"; hadoop_auth_script (config (self st));
                                 "analytix"; username]])%list.
Proof.
  intros Hdev Hrun1 Hkube Hrun2 Hh Hw.
  unfold provision_credentials.
  unfold mbind at 1, M_bind, lift at 1.
  cbn [pyval_eqb String.eqb Ascii.eqb Bool.eqb str_in].
  cbn [mbind result_bind rbind]. rewrite Hdev. cbn [negb].
  unfold mbind at 1 2 3 4, M_bind. unfold update_self at 1 2 3.
  unfold authenticate. unfold mbind at 1, M_bind, get_self at 1.
  cbn [pyval_eqb String.eqb Ascii.eqb Bool.eqb self config with_env].
  unfold mbind at 1 2, M_bind. unfold subprocess_call at 1.
  cbn [fs self config with_env]. rewrite Hrun1.
  unfold path_exists at 1. cbn [fs]. rewrite bool_decide_eq_true_2 by done.
  unfold mbind at 1 2, M_bind. unfold update_self at 1.
  unfold subprocess_call at 1. cbn [fs self config with_env]. rewrite Hrun2.
  unfold update_self at 1.
  rewrite set_hadoop_tokens_missing by (by left).
  cbn [pyval_eqb String.eqb Ascii.eqb Bool.eqb].
  eexists. split; [reflexivity|]. cbn [self env with_env fs log].
  repeat split.
  - by simplify_map_eq.
  - by simplify_map_eq.
  - by simplify_map_eq.
  - by rewrite <- app_assoc.
Qed.

Lemma provision_k8s_without_tokens_witness :
  let h := demo_host (fun _ => 0) (Return PNone) in
  let st := demo_state (demo_spawner (demo_config true ∅)
                          (demo_options "LCG-dev3" "k8s") true) ["k8s-user.config"] in
  exists st',
    provision_credentials h "alice" (PStr "k8s") (PStr "LCG-dev3") st
      = (Return tt, st') /\
    env (self st') !! "HADOOP_TOKEN_FILE_LOCATION" = None /\
    env (self st') !! "WEBHDFS_TOKEN" = None /\
    env (self st') !! "KUBECONFIG" = Some (PStr "/spark/k8s-user.config") /\
    fs st' = fs st /\
    log st' = [Spawn ["sudo"; init_k8s_user (config (self st)); "alice"];
               Spawn ["sudo"; hadoop_auth_script (config (self st)); "analytix"; "alice"]].
Proof.
  exact (provision_k8s_without_tokens (demo_host (fun _ => 0) (Return PNone))
           "alice" "LCG-dev3"
           (demo_state (demo_spawner (demo_config true ∅)
                          (demo_options "LCG-dev3" "k8s") true) ["k8s-user.config"])
           0 (demo_fs ["k8s-user.config"]) 0 (demo_fs ["k8s-user.config"])
           eq_refl eq_refl (ex_intro _ (File "token") eq_refl) eq_refl eq_refl eq_refl).
Defined.

(** C5 (as stated) fails.  The configuration of the user for the cluster
    is there and the token files are not, and yet the body of
    [if self.offload:] raises: for the release [LCG_96], at the gate; and for
    the release [LCG-dev3] when the helper program does not answer in time. *)
Lemma provision_k8s_counterexample :
  let st := demo_state (demo_spawner (demo_config true ∅)
                          (demo_options "LCG_96" "k8s") true) ["k8s-user.config"] in
  is_Some (fs st !! "/spark/alice/k8s-user.config") /\
  fs st !! "/spark/alice/hadoop.toks" = None /\
  fs st !! "/spark/alice/webhdfs.toks" = None /\
  fst (provision_credentials (demo_host (fun _ => 0) (Return PNone))
         "alice" (PStr "k8s") (PStr "LCG_96") st)
    = Raise (mkExn ValueError msg_k8s_unsupported) /\
  fst (provision_credentials slow_host "alice" (PStr "k8s") (PStr "LCG-dev3") st)
    = Raise (mkExn TimeoutExpired "timed out after 60 seconds").
Proof.
  cbv zeta. split; [by eexists|]. repeat split.
Qed.

(** ** [start]: the return *)

(** No scope of [start] binds the name [startup]. *)
Lemma load_startup locals :
  dict_find String.eqb "startup" locals = None ->
  load_name locals "startup" = Raise startup_undefined.
Proof. intros H. unfold load_name. rewrite H. reflexivity. Qed.

(** The last of the steps is the metric of the success. *)
Lemma start_steps_end h username platform lcg_rel cluster cpu_quota mem_limit st st1 :
  start_steps h username platform lcg_rel cluster cpu_quota mem_limit st
    = (Return tt, st1) ->
  exists st0, _send_start_exception_metric h None st0 = (Return tt, st1).
Proof.
  unfold start_steps.
  unfold mbind at 1 2 3 4 5 6, M_bind.
  destruct (request_home_credentials h username st) as [[[]|] s1]; [|discriminate].
  destruct (check_software_stack lcg_rel platform s1) as [[[]|] s2]; [|discriminate].
  unfold get_self at 1. cbn beta iota.
  destruct (offload (self s2)).
  - destruct (provision_credentials h username cluster lcg_rel s2) as [[[]|] s3];
      [|discriminate].
    destruct (set_resource_limits cpu_quota mem_limit s3) as [[[]|] s4]; [|discriminate].
    destruct (_send_user_metrics h s4) as [[[]|] s5]; [|discriminate].
    intros H. by exists s5.
  - unfold mret at 1, M_ret.
    destruct (set_resource_limits cpu_quota mem_limit s2) as [[[]|] s4]; [|discriminate].
    destruct (_send_user_metrics h s4) as [[[]|] s5]; [|discriminate].
    intros H. by exists s5.
Qed.

(** C1 (the code departs from it).  When the options of the session are
    there and every step of [start] before [return startup] succeeds (home
    credentials, software stack, credentials of the cluster, limits, metrics),
    the metric of the success [spawn_exception.None] is the last thing done by
    these steps, if the metrics are on; then [return startup] raises
    [NameError], since no scope binds [startup], and [start] raises this
    [NameError] after the metric [spawn_exception.NameError]: it does not
    complete. *)
Theorem start_raises_NameError h st platform lcg_rel cluster cpu_quota mem_limit st1 :
  getitem (user_options (self st)) platform_field = Return platform ->
  getitem (user_options (self st)) lcg_rel_field = Return lcg_rel ->
  getitem (user_options (self st)) spark_cluster_field = Return cluster ->
  getitem (user_options (self st)) user_n_cores = Return cpu_quota ->
  getitem (user_options (self st)) user_memory = Return mem_limit ->
  start_steps h (user_name (config (self st)))
    platform lcg_rel cluster cpu_quota mem_limit st = (Return tt, st1) ->
  exists st0,
    st1 = (if metrics_on (config (self st0))
           then logged st0 [start_metric h (self st0) "None"]
           else st0) /\
    start h st
    = (Raise (mkExn NameError "name 'startup' is not defined"),
       if metrics_on (config (self st0))
       then logged st1 [start_metric h (self st0) "NameError"]
       else st1).
Proof.
  intros H1 H2 H3 H4 H5 Hsteps.
  destruct (start_steps_end _ _ _ _ _ _ _ _ _ Hsteps) as [st0 Hlast].
  exists st0. rewrite send_start_exception_metric_spec in Hlast.
  injection Hlast as Hst1. split; [done|].
  unfold start. unfold mbind at 1 2 3 4 5 6, M_bind.
  unfold get_self at 1, lift at 1 2 3 4 5. rewrite H1, H2, H3, H4, H5.
  unfold try_except, start_body. unfold mbind at 1, M_bind. rewrite Hsteps.
  rewrite load_startup by reflexivity.
  unfold lift at 1. cbv [catch_BaseException]. unfold mbind, M_bind.
  rewrite send_start_exception_metric_spec. unfold lift.
  rewrite <- Hst1.
  destruct (metrics_on (config (self st0))) eqn:Hm; cbn [self logged];
    rewrite ?Hm; reflexivity.
Qed.

Lemma start_raises_NameError_witness :
  let h := demo_host (fun _ => 0) (Return PNone) in
  let st := demo_state (demo_spawner (demo_config true ∅)
                          (demo_options "LCG-dev3" "none") false) [] in
  fst (start h st) = Raise (mkExn NameError "name 'startup' is not defined").
Proof.
  cbv zeta.
  destruct (start_raises_NameError (demo_host (fun _ => 0) (Return PNone))
              (demo_state (demo_spawner (demo_config true ∅)
                             (demo_options "LCG-dev3" "none") false) [])
              (PStr "x86_64") (PStr "LCG-dev3") (PStr "none") (PInt 1) (PStr "8G")
              (snd (start_steps (demo_host (fun _ => 0) (Return PNone)) "alice"
                      (PStr "x86_64") (PStr "LCG-dev3") (PStr "none") (PInt 1)
                      (PStr "8G")
                      (demo_state (demo_spawner (demo_config true ∅)
                                     (demo_options "LCG-dev3" "none") false) [])))
              eq_refl eq_refl eq_refl eq_refl eq_refl
              ltac:(vm_compute; reflexivity)) as (st0 & _ & ->).
  reflexivity.
Defined.

(** [start] never returns: it raises what its steps raise, or else the
    [NameError] of [return startup]. *)
Lemma start_never_returns h st :
  exists e st', start h st = (Raise e, st').
Proof.
  unfold start. unfold mbind at 1 2 3 4 5 6, M_bind.
  unfold get_self at 1, lift at 1 2 3 4 5.
  destruct (getitem _ platform_field) as [platform|]; [|eauto].
  destruct (getitem _ lcg_rel_field) as [lcg_rel|]; [|eauto].
  destruct (getitem _ spark_cluster_field) as [cluster|]; [|eauto].
  destruct (getitem _ user_n_cores) as [cpu_quota|]; [|eauto].
  destruct (getitem _ user_memory) as [mem_limit|]; [|eauto].
  unfold try_except, start_body. unfold mbind at 1, M_bind.
  destruct (start_steps _ _ _ _ _ _ _ _) as [[[]|e] st1].
  - rewrite load_startup by reflexivity.
    unfold lift at 1. cbv [catch_BaseException]. unfold mbind, M_bind.
    rewrite send_start_exception_metric_spec. unfold lift. eauto.
  - cbv [catch_BaseException]. unfold mbind, M_bind.
    rewrite send_start_exception_metric_spec. unfold lift. eauto.
Qed.

(** ** The sample deployment *)

(** A session without offload: the steps succeed, the metrics of the form
    and of the success are sent, and [start] raises [NameError]. *)
Example start_without_offload :
  let h := demo_host (fun _ => 0) (Return PNone) in
  let st := demo_state (demo_spawner (demo_config true ∅)
                          (demo_options "LCG-dev3" "none") false) [] in
  fst (start h st) = Raise startup_undefined /\
  last (log (snd (start h st))) = Some (start_metric h (self st) "NameError") /\
  In (start_metric h (self st) "None") (log (snd (start h st))).
Proof. cbv zeta. split; [|split]; vm_compute; tauto. Qed.

(** A session for [nxcals] without the token files: [start] raises the
    error of the missing access after the helper has run, and has reserved no
    port. *)
Example start_nxcals_denied :
  let h := demo_host (fun _ => 0) (Return PNone) in
  let st := demo_state (demo_spawner (demo_config true ∅)
                          (demo_options "LCG_96" "nxcals") true) [] in
  fst (start h st) = Raise (mkExn ValueError msg_nxcals_denied) /\
  log (snd (start h st))
  = [ Spawn ["sudo"; "/srv/jupyterhub/private/eos_token.sh"; "alice"];
      Debug "We are in SwanSpawner. Credentials for alice were requested.";
      Spawn ["sudo"; "/srv/jupyterhub/private/hadoop_token.sh"; "nxcals"; "alice"];
      start_metric h (self st) "ValueError" ].
Proof. cbv zeta. split; vm_compute; reflexivity. Qed.

(** A session for [k8s] with the release [LCG-dev3]: [get_env] reserves
    three ports and binds them. *)
Example get_env_k8s :
  let h := demo_host (fun k => k) (Return PNone) in
  let st := demo_state (demo_spawner (demo_config true ∅)
                          (demo_options "LCG-dev3" "k8s") true) [] in
  (exists composed,
     fst (get_env h st) = Return composed /\
     composed !! "SPARK_PORTS" = Some (PStr "5001,5002,5003") /\
     composed !! "SPARK_CONFIG_SCRIPT"
       = Some (PStr "/cvmfs/sft.cern.ch/lcg/etc/hadoop-confext/k8s-setconf.sh") /\
     composed !! "HOME" = Some (PStr "/eos/user/a/alice")) /\
  option_map port_bindings (extra_host_config (self (snd (get_env h st))))
  = Some [ (PInt 8888, HostIp "127.0.0.1"); (PInt 5001, HostPort (PInt 5001));
           (PInt 5002, HostPort (PInt 5002)); (PInt 5003, HostPort (PInt 5003)) ] /\
  log (snd (get_env h st)) = [Reserve 5001 5300; Reserve 5001 5300; Reserve 5001 5300].
Proof.
  cbv zeta. split; [|split; vm_compute; reflexivity].
  exists (match fst (get_env (demo_host (fun k => k) (Return PNone))
                       (demo_state (demo_spawner (demo_config true ∅)
                                      (demo_options "LCG-dev3" "k8s") true) [])) with
          | Return composed => composed
          | Raise _ => ∅
          end).
  split; [|split; [|split]; vm_compute; reflexivity].
  assert (Hreturns :
    match fst (get_env (demo_host (fun k => k) (Return PNone))
                 (demo_state (demo_spawner (demo_config true ∅)
                                (demo_options "LCG-dev3" "k8s") true) [])) with
    | Return _ => True
    | Raise _ => False
    end) by (lazy; exact I).
  destruct (fst (get_env _ _)) as [composed|e]; [reflexivity|destruct Hreturns].
Qed.

(** The form of the sample deployment. *)
Example options_from_sample_form :
  let st := demo_state (demo_spawner (demo_config true ∅) [] false) [] in
  options_from_form (demo_formdata "k8s" "64" "2") st
  = (Return (demo_options "LCG-dev3" "k8s"),
     demo_state (demo_spawner (demo_config true ∅) [] true) []).
Proof. vm_compute. reflexivity. Qed.

(* ===================================================================== *)
(** * Further properties of the code *)
(* ===================================================================== *)

(** ** [get_reserved_port] *)

(** An attempt returns a port that no live connection has as its local
    port. *)
Lemma attempt_port_free start end_ a v :
  1 <= start ->
  attempt_port start end_ a = Return v ->
  exists p, v = PInt p /\ Forall (fun conn => snd conn <> p) (connections a).
Proof.
  intros Hs. unfold attempt_port.
  destruct (syscall a NewListener); [|discriminate]. cbn.
  destruct (randint start end_ (entropy a)) as [port|] eqn:Hr; [|discriminate]. cbn.
  apply randint_range in Hr.
  destruct (syscall a NetConnections); [|discriminate]. cbn.
  destruct (find _ (connections a)) as [conn|] eqn:Hfind; [discriminate|]. cbn.
  destruct (_ && _); [|discriminate].
  destruct (syscall a Bind); [|discriminate]. cbn.
  destruct (syscall a Listen); [|discriminate]. cbn.
  destruct (syscall a NewClient); [|discriminate]. cbn.
  destruct (syscall a Connect); [|discriminate]. cbn.
  destruct (syscall a Accept); [|discriminate]. cbn.
  intros [= <-]. exists port.
  assert ((port =? 0) = false) as -> by lia. split; [done|].
  apply List.Forall_forall. intros conn Hin.
  pose proof (find_none _ _ Hfind conn Hin) as Hne. cbn in Hne. lia.
Qed.

(** The loop returns what the first attempt that does not raise returns. *)
Lemma reserve_loop_first start end_ n_tries os len : forall a v,
  reserve_loop start end_ n_tries os (map Z.of_nat (seq a len)) = Return v ->
  v = PNone \/
  exists i, Z.of_nat a <= i < Z.of_nat (a + len) /\
    attempt_port start end_ (os i) = Return v /\
    forall j, Z.of_nat a <= j < i -> exists e, attempt_port start end_ (os j) = Raise e.
Proof.
  induction len as [|len IH]; intros a v; cbn [seq map reserve_loop].
  - intros [= <-]. by left.
  - destruct (attempt_port start end_ (os (Z.of_nat a))) as [w|e] eqn:Ha.
    + intros [= <-]. right. exists (Z.of_nat a). split; [lia|]. split; [done|]. lia.
    + destruct (Z.of_nat a =? n_tries - 1); [discriminate|].
      intros Hrest. destruct (IH (S a) v Hrest) as [->|(i & Hi & Hv & Hbefore)];
        [by left|].
      right. exists i. split; [lia|]. split; [done|].
      intros j Hj. destruct (Z.eq_dec j (Z.of_nat a)) as [->|]; [eauto|].
      apply Hbefore. lia.
Qed.

(** X1.  A port that [get_reserved_port] returns, on a range of positive
    ports, is the port of the first attempt that did not raise; it lies in the
    range, and it was not the local port of any connection that this attempt
    saw. *)
Theorem get_reserved_port_first_free start end_ n_tries os p :
  1 <= start ->
  get_reserved_port start end_ n_tries os = Return (PInt p) ->
  exists i,
    0 <= i < n_tries /\
    attempt_port start end_ (os i) = Return (PInt p) /\
    (forall j, 0 <= j < i -> exists e, attempt_port start end_ (os j) = Raise e) /\
    start <= p <= end_ /\
    Forall (fun conn => snd conn <> p) (connections (os i)).
Proof.
  intros Hs Hret. unfold get_reserved_port, range in Hret.
  apply reserve_loop_first in Hret as [[=]|(i & Hi & Hv & Hbefore)].
  exists i. split; [lia|]. split; [done|]. split; [intros j Hj; apply Hbefore; lia|].
  destruct (attempt_port_range _ _ _ _ Hs Hv) as (q & [= <-] & Hq).
  destruct (attempt_port_free _ _ _ _ Hs Hv) as (q & [= <-] & Hfree). done.
Qed.

Lemma get_reserved_port_first_free_witness :
  let os := fun i => if i <? 2 then busy i else quiet i in
  exists i,
    0 <= i < default_n_tries /\
    attempt_port 5001 5300 (os i) = Return (PInt 5003) /\
    (forall j, 0 <= j < i -> exists e, attempt_port 5001 5300 (os j) = Raise e) /\
    5001 <= 5003 <= 5300 /\
    Forall (fun conn => snd conn <> 5003) (connections (os i)).
Proof.
  exact (get_reserved_port_first_free 5001 5300 default_n_tries
           (fun i => if i <? 2 then busy i else quiet i) 5003
           ltac:(lia) eq_refl).
Defined.

(** An attempt on a range that is empty, or that has no port between 0
    and 65535, raises. *)
Lemma attempt_port_bad_range start end_ a :
  end_ < start \/ 65535 < start \/ end_ < 0 ->
  exists e, attempt_port start end_ a = Raise e.
Proof.
  intros Hbad. unfold attempt_port.
  destruct (syscall a NewListener); [|eauto]. cbn.
  destruct (randint start end_ (entropy a)) as [port|] eqn:Hr; [|eauto]. cbn.
  pose proof (randint_range _ _ _ _ Hr) as Hp.
  destruct (syscall a NetConnections); [|eauto]. cbn.
  destruct (negb _); [eauto|]. cbn.
  assert ((0 <=? port) && (port <=? 65535) = false) as -> by lia.
  cbn. eauto.
Qed.

(** X2.  On a range that is empty ([end < start]) or that has no port
    between 0 and 65535, [get_reserved_port] with at least one attempt never
    returns: it raises what its last attempt raises; for an empty range this
    is the [ValueError] of [random.randint] whenever the socket of that
    attempt could be created. *)
Theorem get_reserved_port_bad_range start end_ n_tries os :
  1 <= n_tries ->
  end_ < start \/ 65535 < start \/ end_ < 0 ->
  exists e,
    get_reserved_port start end_ n_tries os = Raise e /\
    attempt_port start end_ (os (n_tries - 1)) = Raise e /\
    (end_ < start -> failure (os (n_tries - 1)) NewListener = None ->
     exn_class_of e = ValueError).
Proof.
  intros Hn Hbad. unfold get_reserved_port, range.
  pose proof (reserve_loop_spec start end_ n_tries os (Z.to_nat n_tries) 0
                ltac:(lia) ltac:(lia)) as H.
  destruct (reserve_loop _ _ _ _ _) as [v|e].
  - destruct H as (i & _ & Hv).
    destruct (attempt_port_bad_range start end_ (os i) Hbad) as [e He]. congruence.
  - destruct H as [Hlast _]. exists e. split; [done|]. split; [done|].
    intros Hempty Hsock. unfold attempt_port, syscall in Hlast. rewrite Hsock in Hlast.
    unfold randint in Hlast. assert ((start <=? end_) = false) as Hle by lia.
    rewrite Hle in Hlast. cbn in Hlast. by injection Hlast as <-.
Qed.

Lemma get_reserved_port_bad_range_witness :
  exists e,
    get_reserved_port 5300 5001 default_n_tries quiet = Raise e /\
    attempt_port 5300 5001 (quiet (default_n_tries - 1)) = Raise e /\
    (5001 < 5300 -> failure (quiet (default_n_tries - 1)) NewListener = None ->
     exn_class_of e = ValueError).
Proof.
  apply (get_reserved_port_bad_range 5300 5001 default_n_tries quiet);
    [unfold default_n_tries; lia|left; lia].
Defined.

(** ** The exit status *)

Lemma all_digits_isdigit d : all_digits d = true -> all_isdigit d = true.
Proof.
  induction d as [|c d IH]; [done|]. cbn [all_digits all_isdigit].
  intros [Hc Hd]%andb_prop. unfold isdigit_char. by rewrite Hc, (IH Hd).
Qed.

Lemma span_digits_digits s : all_digits (fst (span_digits s)) = true.
Proof.
  induction s as [|c s IH]; [done|]. cbn.
  destruct (is_digit c) eqn:Hc; [|done].
  destruct (span_digits s) as [d r]. cbn in *. by rewrite Hc.
Qed.

Lemma search_ExitCode_digits s d :
  search_ExitCode s = Some d -> d <> "" /\ all_digits d = true.
Proof.
  induction s as [|c s IH].
  - cbn. discriminate.
  - cbn [search_ExitCode].
    destruct (strip_prefix "ExitCode=" (String c s)) as [rest|].
    + pose proof (span_digits_digits rest) as Hd.
      destruct (fst (span_digits rest)) as [|c' d'] eqn:Hspan.
      * exact IH.
      * intros [= <-]. by split.
    + exact IH.
Qed.

(** X3.  Whatever [_send_exit_metric] puts in the path of the metric as the
    exit code is a string, not empty, that [isdigit] accepts: the status
    itself when [isdigit] accepts it, which it does also for the superscript
    digits, and else the decimal digits, [0] to [9], after the first
    [ExitCode=] that such digits follow.  A status that is no string gives no
    exit code. *)
Theorem exit_code_is_numeric code value_cleaned :
  exit_code_of code = Return value_cleaned ->
  isdigit value_cleaned = true /\
  exists status,
    code = PStr status /\
    (isdigit status = true /\ value_cleaned = status \/
     isdigit status = false /\ search_ExitCode status = Some value_cleaned /\
     all_digits value_cleaned = true).
Proof.
  destruct code as [|z|s|n]; cbn; try discriminate.
  destruct (isdigit s) eqn:Hd.
  - intros [= <-]. split; [done|]. exists s. split; [done|]. by left.
  - destruct (search_ExitCode s) as [g|] eqn:Hs; [|discriminate].
    intros [= <-]. destruct (search_ExitCode_digits _ _ Hs) as [Hne Hall].
    split.
    + unfold isdigit. rewrite (all_digits_isdigit _ Hall).
      by destruct g.
    + exists s. split; [done|]. by right.
Qed.

Lemma exit_code_is_numeric_witness :
  isdigit "137" = true /\
  exists status,
    PStr "ExitCode=137, Error=''" = PStr status /\
    (isdigit status = true /\ "137" = status \/
     isdigit status = false /\ search_ExitCode status = Some "137" /\
     all_digits "137" = true).
Proof.
  exact (exit_code_is_numeric (PStr "ExitCode=137, Error=''") "137" eq_refl).
Defined.

Lemma span_digits_app d rest :
  all_digits d = true ->
  match rest with
  | EmptyString => True
  | String c _ => is_digit c = false
  end ->
  span_digits (d ++ rest) = (d, rest).
Proof.
  intros Hd Hrest. induction d as [|c d IH].
  - change ("" ++ rest) with rest. destruct rest as [|c r]; [done|].
    cbn [span_digits]. by rewrite Hrest.
  - cbn [all_digits] in Hd. apply andb_prop in Hd as [Hc Hd].
    change (String c d ++ rest) with (String c (d ++ rest)).
    cbn [span_digits]. by rewrite Hc, (IH Hd).
Qed.

(** X4.  The status of a container of the Docker spawner, [ExitCode=]
    followed by one or more decimal digits, [0] to [9], and then by anything
    that does not start with such a digit, gives these digits as the exit
    code. *)
Theorem exit_code_of_docker_status digits rest :
  digits <> "" ->
  all_digits digits = true ->
  match rest with
  | EmptyString => True
  | String c _ => is_digit c = false
  end ->
  exit_code_of (PStr ("ExitCode=" ++ digits ++ rest)) = Return digits.
Proof.
  intros Hne Hall Hrest.
  unfold exit_code_of.
  assert (isdigit ("ExitCode=" ++ digits ++ rest) = false) as -> by reflexivity.
  change ("ExitCode=" ++ digits ++ rest) with (String "E" ("xitCode=" ++ digits ++ rest)).
  cbn [search_ExitCode].
  assert (strip_prefix "ExitCode=" (String "E" ("xitCode=" ++ digits ++ rest))
          = Some (digits ++ rest)) as -> by reflexivity.
  rewrite span_digits_app by done. cbn [fst].
  destruct digits; [done|done].
Qed.

Lemma exit_code_of_docker_status_witness :
  exit_code_of (PStr ("ExitCode=" ++ "137" ++ ", Error='', FinishedAt=2019"))
  = Return "137".
Proof.
  apply (exit_code_of_docker_status "137" ", Error='', FinishedAt=2019");
    [discriminate|reflexivity|reflexivity].
Defined.

(** The superscript two is a digit for [isdigit] and no digit for [\d]:
    a status made of it is the exit code as it is; after [ExitCode=137] it is
    not part of the exit code; and after [ExitCode=] it gives no exit code. *)
Example exit_code_of_superscript :
  let two := String (ascii_of_nat 178) EmptyString in
  exit_code_of (PStr two) = Return two /\
  exit_code_of (PStr ("ExitCode=137" ++ two)) = Return "137" /\
  exit_code_of (PStr ("ExitCode=" ++ two)) = Raise unknown_exit_code.
Proof. cbv zeta. split; [|split]; reflexivity. Qed.

(** ** [poll] *)

(** X5.  [poll] returns what the upstream [poll] returns, or raises what it
    raises, and touches neither the spawner object nor the files.  For a
    container that still runs ([None]) nothing is logged; for any other status
    one entry is logged when the metrics are on, the exit metric if the status
    can be read and else the error, and nothing when they are off. *)
Theorem poll_spec h st :
  match super_poll h with
  | Raise e => poll h st = (Raise e, st)
  | Return PNone => poll h st = (Return PNone, st)
  | Return status =>
      poll h st
      = (Return status,
         if metrics_on (config (self st))
         then logged st
                [match exit_code_of status with
                 | Return value_cleaned => exit_metric h (self st) value_cleaned
                 | Raise ex => Error failed_to_send ex
                 end]
         else st)
  end.
Proof.
  unfold poll. unfold mbind, M_bind, lift.
  destruct (super_poll h) as [status|e]; [|done].
  destruct status as [|z|s|n]; [reflexivity|..]; cbn [negb pyval_eqb];
    (destruct (metrics_on (config (self st))) eqn:Hm;
     [by rewrite send_exit_metric_on by done
     |by rewrite send_exit_metric_off by done]).
Qed.

(** X6.  An exit status that is an integer, as the docstring of
    [_send_exit_metric] asks for, is never recorded: [poll] returns it, and
    with the metrics on the only trace is the logged [AttributeError] of
    [isdigit]. *)
Theorem poll_integer_status h st n :
  super_poll h = Return (PInt n) ->
  metrics_on (config (self st)) = true ->
  exists ex,
    exn_class_of ex = AttributeError /\
    poll h st = (Return (PInt n), logged st [Error failed_to_send ex]).
Proof.
  intros Hpoll Hon. eexists. split; [|unfold poll; unfold mbind, M_bind, lift;
    rewrite Hpoll; cbn [negb pyval_eqb]; by rewrite send_exit_metric_on by done].
  reflexivity.
Qed.

Lemma poll_integer_status_witness :
  let h := demo_host (fun _ => 0) (Return (PInt 1)) in
  let st := demo_state (demo_spawner (demo_config true ∅)
                          (demo_options "LCG-dev3" "none") false) [] in
  exists ex,
    exn_class_of ex = AttributeError /\
    poll h st = (Return (PInt 1), logged st [Error failed_to_send ex]).
Proof.
  exact (poll_integer_status (demo_host (fun _ => 0) (Return (PInt 1)))
           (demo_state (demo_spawner (demo_config true ∅)
                          (demo_options "LCG-dev3" "none") false) [])
           1 eq_refl eq_refl).
Defined.

(** ** [_send_user_metrics] *)

(** X7.  [_send_user_metrics] changes nothing but the log.  With the
    metrics on it sends one batch with one metric for each option, in the
    order of the options; when Graphite fails with an [Exception] it logs the
    error and returns; only an exception that is no [Exception] reaches the
    caller.  With the metrics off it does nothing. *)
Theorem send_user_metrics_spec h st :
  let metrics := map (user_metric (_get_base_metric_path (self st)) (utcnow h))
                   (user_options (self st)) in
  length metrics = length (user_options (self st)) /\
  _send_user_metrics h st
  = if metrics_on (config (self st)) then
      match carbon h metrics with
      | None => (Return tt, logged st [CarbonSend metrics])
      | Some e =>
          if is_Exception (exn_class_of e)
          then (Return tt, logged st [Error failed_to_send e])
          else (Raise e, st)
      end
    else (Return tt, st).
Proof.
  cbv zeta. split; [apply length_map|].
  unfold _send_user_metrics, _send_graphite_metrics. unfold_monad.
  destruct (metrics_on (config (self st))); [|done].
  unfold _get_date_seconds.
  destruct (carbon h _) as [e|]; [|done].
  by destruct (is_Exception _).
Qed.



(** ** [options_from_form] *)

(** X9.  [options_from_form] returns for every form that has a first value
    for the release, the platform, the script, the cores and the memory and
    no empty list for the cluster, provided that the two lists of options
    are not empty and that the options for the cores are numbers.  The
    options have the six keys, and neither the files nor the log change. *)
Theorem options_from_form_returns formdata st lcg_rel platform scriptenv cores memory :
  form_value formdata lcg_rel_field = Return lcg_rel ->
  form_value formdata platform_field = Return platform ->
  form_value formdata user_script_env_field = Return scriptenv ->
  form_value formdata user_n_cores = Return cores ->
  form_value formdata user_memory = Return memory ->
  formdata !! spark_cluster_field <> Some [] ->
  available_cores (config (self st)) <> [] ->
  available_memory (config (self st)) <> [] ->
  (forall c, In c (available_cores (config (self st))) ->
     exists n, int_of_str c = Return n) ->
  exists options st',
    options_from_form formdata st = (Return options, st') /\
    map fst options = [ lcg_rel_field; platform_field; user_script_env_field;
                        spark_cluster_field; user_n_cores; user_memory ] /\
    getitem options lcg_rel_field = Return (PStr lcg_rel) /\
    getitem options platform_field = Return (PStr platform) /\
    getitem options user_script_env_field = Return (PStr scriptenv) /\
    fs st' = fs st /\ log st' = log st.
Proof.
  intros H1 H2 H3 H4 H5 Hcluster Hc Hm Hnum.
  destruct (options_from_form_accepts formdata st lcg_rel platform scriptenv
              cores memory H1 H2 H3 H4 H5 Hcluster Hc Hm Hnum)
    as (options & st' & Hret).
  exists options, st'. split; [done|].
  apply options_from_form_inv in Hret
    as (lcg_rel' & platform' & scriptenv' & cluster & cores' & memory' & ncores
        & quota & E1 & E2 & E3 & _ & _ & _ & _ & _ & -> & ->).
  rewrite H1 in E1. rewrite H2 in E2. rewrite H3 in E3.
  injection E1 as <-. injection E2 as <-. injection E3 as <-.
  repeat split.
Qed.

Lemma options_from_form_returns_witness :
  exists options st',
    options_from_form (demo_formdata "k8s" "64" "2")
      (demo_state (demo_spawner (demo_config true ∅) [] false) [])
    = (Return options, st') /\
    map fst options = [ lcg_rel_field; platform_field; user_script_env_field;
                        spark_cluster_field; user_n_cores; user_memory ] /\
    getitem options lcg_rel_field = Return (PStr "LCG-dev3") /\
    getitem options platform_field = Return (PStr "x86_64") /\
    getitem options user_script_env_field = Return (PStr "") /\
    fs st' = fs (demo_state (demo_spawner (demo_config true ∅) [] false) []) /\
    log st' = log (demo_state (demo_spawner (demo_config true ∅) [] false) []).
Proof.
  apply (options_from_form_returns (demo_formdata "k8s" "64" "2")
           (demo_state (demo_spawner (demo_config true ∅) [] false) [])
           "LCG-dev3" "x86_64" "" "64" "2");
    try reflexivity; try discriminate.
  intros c [<-|[]]. by exists 1.
Defined.

(** X10.  An accepted form sets [self.offload] to whether the selected
    cluster differs from [none], whatever the flag was before, and changes
    nothing else; a form without the field of the cluster selects [none]. *)
Theorem options_from_form_sets_offload formdata st options st' :
  options_from_form formdata st = (Return options, st') ->
  exists cluster,
    getitem options spark_cluster_field = Return (PStr cluster) /\
    (formdata !! spark_cluster_field = None -> cluster = "none") /\
    (offload (self st') = true <-> cluster <> "none") /\
    st' = {| self := with_offload (offload (self st')) (self st);
             fs := fs st; log := log st |}.
Proof.
  intros H. apply options_from_form_inv in H
    as (lcg_rel & platform & scriptenv & cluster & cores & memory & ncores & quota
        & _ & _ & _ & Hcluster & _ & _ & _ & _ & -> & ->).
  exists cluster. split; [done|]. split; [|split; [|done]].
  - intros Hnone. rewrite Hnone in Hcluster.
    rewrite bool_decide_eq_false_2 in Hcluster by (by intros [? [=]]).
    by injection Hcluster.
  - cbn. destruct (String.eqb_spec cluster "none"); cbn; split; congruence.
Qed.

Lemma options_from_form_sets_offload_witness :
  exists cluster,
    getitem (demo_options "LCG-dev3" "k8s") spark_cluster_field = Return (PStr cluster) /\
    (demo_formdata "k8s" "64" "2" !! spark_cluster_field = None -> cluster = "none") /\
    (offload (self (demo_state (demo_spawner (demo_config true ∅) [] true) [])) = true
     <-> cluster <> "none") /\
    demo_state (demo_spawner (demo_config true ∅) [] true) []
    = {| self := with_offload
                   (offload (self (demo_state (demo_spawner (demo_config true ∅) [] true) [])))
                   (self (demo_state (demo_spawner (demo_config true ∅) [] false) []));
         fs := fs (demo_state (demo_spawner (demo_config true ∅) [] false) []);
         log := log (demo_state (demo_spawner (demo_config true ∅) [] false) []) |}.
Proof.
  apply (options_from_form_sets_offload (demo_formdata "k8s" "64" "2")
           (demo_state (demo_spawner (demo_config true ∅) [] false) [])
           (demo_options "LCG-dev3" "k8s")
           (demo_state (demo_spawner (demo_config true ∅) [] true) [])).
  vm_compute. reflexivity.
Defined.

Lemma form_value_error formdata field e :
  form_value formdata field = Raise e ->
  e = mkExn KeyError field \/ e = mkExn IndexError "list index out of range".
Proof.
  unfold form_value. destruct (formdata !! field) as [[|v vs]|]; cbn;
    intros [= <-]; auto.
Qed.

Lemma int_of_str_error s e :
  int_of_str s = Raise e -> exn_class_of e = ValueError.
Proof.
  unfold int_of_str.
  repeat (match goal with
          | |- context [match ?x with _ => _ end] => destruct x
          end; try discriminate);
    by intros [= <-].
Qed.

(** X11.  A form that is not accepted leaves the spawner object, and so
    [self.offload], as it was; the exception is a [KeyError] for a field that
    is missing, an [IndexError] for a field or a list of options that is
    empty, or the [ValueError] of [int] for a number of cores that is no
    number. *)
Theorem options_from_form_rejects formdata st e st' :
  options_from_form formdata st = (Raise e, st') ->
  st' = st /\
  (exn_class_of e = KeyError \/ exn_class_of e = IndexError
   \/ exn_class_of e = ValueError).
Proof.
  unfold options_from_form. unfold_monad.
  destruct (form_value formdata lcg_rel_field) as [lcg_rel|e1] eqn:H1;
    [|intros [= <- <-]; split; [done|];
      destruct (form_value_error _ _ _ H1) as [->| ->]; auto].
  destruct (form_value formdata platform_field) as [platform|e1] eqn:H2;
    [|intros [= <- <-]; split; [done|];
      destruct (form_value_error _ _ _ H2) as [->| ->]; auto].
  destruct (form_value formdata user_script_env_field) as [scriptenv|e1] eqn:H3;
    [|intros [= <- <-]; split; [done|];
      destruct (form_value_error _ _ _ H3) as [->| ->]; auto].
  destruct (if bool_decide _ then _ else _) as [cluster|e1] eqn:H4.
  2:{ intros [= <- <-]. split; [done|].
      destruct (bool_decide _); [|discriminate].
      destruct (form_value_error _ _ _ H4) as [->| ->]; auto. }
  destruct (form_value formdata user_n_cores) as [cores|e1] eqn:H5;
    [|intros [= <- <-]; split; [done|];
      destruct (form_value_error _ _ _ H5) as [->| ->]; auto].
  destruct (if str_in_list cores _ then _ else _) as [ncores|e1] eqn:H6.
  2:{ intros [= <- <-]. split; [done|].
      destruct (str_in_list cores _).
      - right; right. by eapply int_of_str_error.
      - destruct (available_cores (config (self st))) as [|d rest]; cbn in H6.
        + injection H6 as <-. auto.
        + right; right. by eapply int_of_str_error. }
  destruct (form_value formdata user_memory) as [memory|e1] eqn:H7;
    [|intros [= <- <-]; split; [done|];
      destruct (form_value_error _ _ _ H7) as [->| ->]; auto].
  destruct (if str_in_list memory _ then _ else _) as [quota|e1] eqn:H8.
  2:{ intros [= <- <-]. split; [done|].
      destruct (str_in_list memory _); [discriminate|].
      destruct (available_memory (config (self st))) as [|d rest]; cbn in H8;
        [|discriminate].
      injection H8 as <-. auto. }
  cbn. discriminate.
Qed.

Lemma options_from_form_rejects_witness :
  let st := demo_state (demo_spawner (demo_config true ∅) [] true) [] in
  st = st /\
  (exn_class_of (mkExn KeyError "LCG-rel") = KeyError
   \/ exn_class_of (mkExn KeyError "LCG-rel") = IndexError
   \/ exn_class_of (mkExn KeyError "LCG-rel") = ValueError).
Proof.
  exact (options_from_form_rejects ∅
           (demo_state (demo_spawner (demo_config true ∅) [] true) [])
           (mkExn KeyError "LCG-rel")
           (demo_state (demo_spawner (demo_config true ∅) [] true) [])
           eq_refl).
Defined.

(** ** [start] *)

(** X12.  [start] reads the five options before its [try] statement: when
    one of them is missing it raises the [KeyError] of a missing option and
    changes nothing; no metric of the failure is logged and no program is
    run. *)
Theorem start_missing_option h st key :
  In key [platform_field; lcg_rel_field; spark_cluster_field; user_n_cores;
          user_memory] ->
  dict_find String.eqb key (user_options (self st)) = None ->
  exists missing,
    In missing [platform_field; lcg_rel_field; spark_cluster_field; user_n_cores;
                user_memory] /\
    dict_find String.eqb missing (user_options (self st)) = None /\
    start h st = (Raise (mkExn KeyError missing), st).
Proof.
  intros Hkey Hnone. unfold start. unfold mbind at 1 2 3 4 5 6, M_bind.
  unfold get_self at 1, lift at 1 2 3 4 5. unfold getitem.
  destruct (dict_find String.eqb platform_field _) eqn:E1;
    [|exists platform_field; cbn; auto].
  destruct (dict_find String.eqb lcg_rel_field _) eqn:E2;
    [|exists lcg_rel_field; cbn; auto].
  destruct (dict_find String.eqb spark_cluster_field _) eqn:E3;
    [|exists spark_cluster_field; cbn; auto].
  destruct (dict_find String.eqb user_n_cores _) eqn:E4;
    [|exists user_n_cores; cbn; auto 6].
  destruct (dict_find String.eqb user_memory _) eqn:E5;
    [|exists user_memory; cbn; auto 7].
  exfalso. cbn in Hkey.
  destruct Hkey as [<-|[<-|[<-|[<-|[<-|[]]]]]]; congruence.
Qed.

Lemma start_missing_option_witness :
  let h := demo_host (fun _ => 0) (Return PNone) in
  let st := demo_state (demo_spawner (demo_config true ∅)
                          [(lcg_rel_field, PStr "LCG-dev3")] false) [] in
  exists missing,
    In missing [platform_field; lcg_rel_field; spark_cluster_field; user_n_cores;
                user_memory] /\
    dict_find String.eqb missing (user_options (self st)) = None /\
    start h st = (Raise (mkExn KeyError missing), st).
Proof.
  apply (start_missing_option (demo_host (fun _ => 0) (Return PNone))
           (demo_state (demo_spawner (demo_config true ∅)
                          [(lcg_rel_field, PStr "LCG-dev3")] false) [])
           user_memory); [cbn; auto 7|reflexivity].
Defined.

(** [check_software_stack] looks for two directories and changes nothing. *)
Lemma check_software_stack_spec lcg_rel platform st :
  check_software_stack (PStr lcg_rel) (PStr platform) st
  = (match fs st !! lcg_view_path (config (self st)) with
     | None => Raise (mkExn ValueError msg_stack_missing)
     | Some _ =>
         match fs st !! ((((lcg_view_path (config (self st)) ++ "/") ++ lcg_rel)
                          ++ "/") ++ platform) with
         | None => Raise (mkExn ValueError msg_configuration_missing)
         | Some _ => Return tt
         end
     end, st).
Proof.
  unfold check_software_stack, path_exists. unfold_monad. cbn [str_add].
  destruct (fs st !! lcg_view_path (config (self st))) as [n|].
  - rewrite bool_decide_eq_true_2 by eauto. cbn [negb].
    destruct (fs st !! _) as [m|].
    + by rewrite bool_decide_eq_true_2 by eauto.
    + by rewrite bool_decide_eq_false_2 by (by intros [? [=]]).
  - by rewrite bool_decide_eq_false_2 by (by intros [? [=]]).
Qed.

(** X13.  Once the home credentials have been requested, [start] looks for
    the directory of the views and in it for the directory of the release and
    the platform.  When one of them is missing, [start] raises [ValueError],
    with the message "Could not initialize software stack" for the first and
    "Configuration not available" for the second; it stops there: the
    spawner object is as before the call, and the only addition to the log is
    the metric of the failure, if the metrics are on. *)
Theorem start_software_stack_missing h st platform lcg_rel cluster cpu_quota mem_limit st1 :
  getitem (user_options (self st)) platform_field = Return (PStr platform) ->
  getitem (user_options (self st)) lcg_rel_field = Return (PStr lcg_rel) ->
  getitem (user_options (self st)) spark_cluster_field = Return cluster ->
  getitem (user_options (self st)) user_n_cores = Return cpu_quota ->
  getitem (user_options (self st)) user_memory = Return mem_limit ->
  request_home_credentials h (user_name (config (self st))) st = (Return tt, st1) ->
  fs st1 !! lcg_view_path (config (self st)) = None \/
  fs st1 !! ((((lcg_view_path (config (self st)) ++ "/") ++ lcg_rel) ++ "/")
             ++ platform) = None ->
  self st1 = self st /\
  start h st
  = (Raise (mkExn ValueError
              (if bool_decide (is_Some (fs st1 !! lcg_view_path (config (self st))))
               then msg_configuration_missing else msg_stack_missing)),
     if metrics_on (config (self st))
     then logged st1 [start_metric h (self st) "ValueError"]
     else st1).
Proof.
  intros H1 H2 H3 H4 H5 Hhome Hmissing.
  assert (Hself : self st1 = self st).
  { destruct (request_home_credentials_spec h (user_name (config (self st))) st)
      as (r & events & Heq & _).
    rewrite Hhome in Heq. by injection Heq as _ ->. }
  split; [done|].
  assert (Hsteps :
    start_steps h (user_name (config (self st))) (PStr platform) (PStr lcg_rel)
      cluster cpu_quota mem_limit st
    = (Raise (mkExn ValueError
                (if bool_decide (is_Some (fs st1 !! lcg_view_path (config (self st))))
                 then msg_configuration_missing else msg_stack_missing)), st1)).
  { unfold start_steps. unfold mbind at 1 2, M_bind. rewrite Hhome.
    rewrite check_software_stack_spec, Hself.
    destruct (fs st1 !! lcg_view_path (config (self st))) as [n|] eqn:Hviews.
    - destruct Hmissing as [[=]| ->]. by rewrite bool_decide_eq_true_2 by eauto.
    - by rewrite bool_decide_eq_false_2 by (by intros [? [=]]). }
  rewrite (start_reraises _ _ _ _ _ _ _ _ _ H1 H2 H3 H4 H5 Hsteps).
  by rewrite Hself.
Qed.

Lemma start_software_stack_missing_witness :
  let h := demo_host (fun _ => 0) (Return PNone) in
  let st := demo_state (demo_spawner (demo_config true ∅)
                          (demo_options "LCG_97" "none") false) [] in
  let st1 := logged st
               [ Spawn ["sudo"; "/srv/jupyterhub/private/eos_token.sh"; "alice"];
                 Debug "We are in SwanSpawner. Credentials for alice were requested." ] in
  self st1 = self st /\
  start h st
  = (Raise (mkExn ValueError msg_configuration_missing),
     logged st1 [start_metric h (self st) "ValueError"]).
Proof.
  exact (start_software_stack_missing (demo_host (fun _ => 0) (Return PNone))
           (demo_state (demo_spawner (demo_config true ∅)
                          (demo_options "LCG_97" "none") false) [])
           "x86_64" "LCG_97" (PStr "none") (PInt 1) (PStr "8G")
           (logged (demo_state (demo_spawner (demo_config true ∅)
                                  (demo_options "LCG_97" "none") false) [])
              [ Spawn ["sudo"; "/srv/jupyterhub/private/eos_token.sh"; "alice"];
                Debug "We are in SwanSpawner. Credentials for alice were requested." ])
           eq_refl eq_refl eq_refl eq_refl eq_refl eq_refl (or_intror eq_refl)).
Defined.

(** X14.  An exception of a step of [start] reaches the caller unchanged.
    Before that the metric of the failure, named after the class of the
    exception by its own [__name__], is logged if the metrics are on; nothing
    else is done after the step that failed. *)
Theorem start_reports_failure h st platform lcg_rel cluster cpu_quota mem_limit e st1 :
  getitem (user_options (self st)) platform_field = Return platform ->
  getitem (user_options (self st)) lcg_rel_field = Return lcg_rel ->
  getitem (user_options (self st)) spark_cluster_field = Return cluster ->
  getitem (user_options (self st)) user_n_cores = Return cpu_quota ->
  getitem (user_options (self st)) user_memory = Return mem_limit ->
  start_steps h (user_name (config (self st)))
    platform lcg_rel cluster cpu_quota mem_limit st = (Raise e, st1) ->
  exists st2,
    start h st = (Raise e, st2) /\
    self st2 = self st1 /\ fs st2 = fs st1 /\
    log st2 = (log st1 ++ if metrics_on (config (self st1))
                          then [start_metric h (self st1) (class_name (exn_class_of e))]
                          else [])%list.
Proof.
  intros H1 H2 H3 H4 H5 Hsteps.
  rewrite (start_reraises _ _ _ _ _ _ _ _ _ H1 H2 H3 H4 H5 Hsteps).
  destruct (metrics_on (config (self st1))).
  - by eexists.
  - exists st1. by rewrite app_nil_r.
Qed.

Lemma start_reports_failure_witness :
  let h := demo_host (fun _ => 0) (Return PNone) in
  let st := demo_state (demo_spawner (demo_config true ∅)
                          (demo_options "LCG_97" "none") false) [] in
  exists st2,
    start h st = (Raise (mkExn ValueError msg_configuration_missing), st2) /\
    self st2 = self st /\ fs st2 = fs st /\
    log st2
    = [ Spawn ["sudo"; "/srv/jupyterhub/private/eos_token.sh"; "alice"];
        Debug "We are in SwanSpawner. Credentials for alice were requested.";
        start_metric h (self st) "ValueError" ].
Proof.
  exact (start_reports_failure (demo_host (fun _ => 0) (Return PNone))
           (demo_state (demo_spawner (demo_config true ∅)
                          (demo_options "LCG_97" "none") false) [])
           (PStr "x86_64") (PStr "LCG_97") (PStr "none") (PInt 1) (PStr "8G")
           (mkExn ValueError msg_configuration_missing)
           (logged (demo_state (demo_spawner (demo_config true ∅)
                                  (demo_options "LCG_97" "none") false) [])
              [ Spawn ["sudo"; "/srv/jupyterhub/private/eos_token.sh"; "alice"];
                Debug "We are in SwanSpawner. Credentials for alice were requested." ])
           eq_refl eq_refl eq_refl eq_refl eq_refl eq_refl).
Defined.

(** A session for a YARN cluster whose [webhdfs.toks] is a directory:
    [start] raises the [IsADirectoryError] of the read, and the metric of the
    failure has the name of this class. *)
Example start_token_is_directory :
  let h := demo_host (fun _ => 0) (Return PNone) in
  let st := {| self := demo_spawner (demo_config true ∅)
                         (demo_options "LCG_96" "analytix") true;
               fs := <["/spark/alice/webhdfs.toks" := Dir]> (demo_fs ["hadoop.toks"]);
               log := [] |} in
  fst (start h st)
  = Raise (mkExn IsADirectoryError "Is a directory: /spark/alice/webhdfs.toks") /\
  last (log (snd (start h st))) = Some (start_metric h (self st) "IsADirectoryError").
Proof. cbv zeta. split; vm_compute; reflexivity. Qed.

(** ** [start]: the credentials of the cluster *)

(** X15.  For a cluster other than [k8s], when the helper for Hadoop
    returns, whatever its exit status, and both token files are then in the
    directory of the user, the body of [if self.offload:] returns: the helper
    is the only program run, and [self.env] has the Kerberos cache in [/tmp],
    the location of the token file in the container, the text of
    [webhdfs.toks] as the WebHDFS token, and no [KUBECONFIG]; every other
    variable is as before. *)
Theorem provision_yarn_with_tokens h username cluster lcg_rel st code fs1 token :
  cluster <> "k8s" ->
  run h ["sudo"; hadoop_auth_script (config (self st)); cluster; username] (fs st)
    = (Exited code, fs1) ->
  is_Some (fs1 !! (("/spark/" ++ username) ++ "/hadoop.toks")) ->
  fs1 !! (("/spark/" ++ username) ++ "/webhdfs.toks") = Some (File token) ->
  exists st',
    provision_credentials h username (PStr cluster) lcg_rel st = (Return tt, st') /\
    fs st' = fs1 /\
    log st' = (log st ++ [Spawn ["sudo"; hadoop_auth_script (config (self st));
                                 cluster; username]])%list /\
    env (self st') !! "KRB5CCNAME" = Some (PStr "/tmp/krb5cc") /\
    env (self st') !! "HADOOP_TOKEN_FILE_LOCATION" = Some (PStr "/spark/hadoop.toks") /\
    env (self st') !! "WEBHDFS_TOKEN" = Some (PStr token) /\
    env (self st') !! "KUBECONFIG" = None /\
    forall key,
      ~ In key ["KRB5CCNAME"; "HADOOP_TOKEN_FILE_LOCATION"; "WEBHDFS_TOKEN"; "KUBECONFIG"] ->
      env (self st') !! key = env (self st) !! key.
Proof.
  intros Hk Hrun Hh Hw.
  assert (Hneq : String.eqb cluster "k8s" = false)
    by (by destruct (String.eqb_spec cluster "k8s")).
  unfold provision_credentials.
  unfold mbind at 1, M_bind, lift at 1. cbn [pyval_eqb]. rewrite Hneq.
  unfold mbind at 1 2 3 4, M_bind. unfold update_self at 1 2 3.
  unfold authenticate. unfold mbind at 1, M_bind, get_self at 1.
  cbn [pyval_eqb self config with_env]. rewrite Hneq.
  unfold mbind at 1 2, M_bind, lift at 1. unfold subprocess_call at 1.
  cbn [fs self config with_env]. rewrite Hrun.
  unfold update_self at 1.
  unfold set_hadoop_tokens, path_exists, read_file. unfold_monad.
  cbn [fs self env with_env log].
  rewrite bool_decide_eq_true_2 by done.
  cbn [fs]. rewrite bool_decide_eq_true_2 by (rewrite Hw; eauto).
  cbn [fs]. rewrite Hw.
  eexists. split; [reflexivity|]. cbn [self env with_env fs log].
  repeat split; try (by simplify_map_eq).
  intros key Hkey. cbn in Hkey.
  rewrite !lookup_insert_ne, !lookup_delete_ne by tauto. done.
Qed.

Lemma provision_yarn_with_tokens_witness :
  let h := host_with granting (fun k _ => quiet k) (fun _ => None) (Return PNone) in
  let st := demo_state (demo_spawner (demo_config true ∅)
                          (demo_options "LCG_96" "analytix") true) [] in
  exists st',
    provision_credentials h "alice" (PStr "analytix") (PStr "LCG_96") st
      = (Return tt, st') /\
    fs st' = snd (granting [] (fs st)) /\
    log st' = [Spawn ["sudo"; "/srv/jupyterhub/private/hadoop_token.sh";
                      "analytix"; "alice"]] /\
    env (self st') !! "KRB5CCNAME" = Some (PStr "/tmp/krb5cc") /\
    env (self st') !! "HADOOP_TOKEN_FILE_LOCATION" = Some (PStr "/spark/hadoop.toks") /\
    env (self st') !! "WEBHDFS_TOKEN" = Some (PStr "webhdfs-token") /\
    env (self st') !! "KUBECONFIG" = None /\
    forall key,
      ~ In key ["KRB5CCNAME"; "HADOOP_TOKEN_FILE_LOCATION"; "WEBHDFS_TOKEN"; "KUBECONFIG"] ->
      env (self st') !! key = env (self st) !! key.
Proof.
  apply (provision_yarn_with_tokens
           (host_with granting (fun k _ => quiet k) (fun _ => None) (Return PNone))
           "alice" "analytix" (PStr "LCG_96")
           (demo_state (demo_spawner (demo_config true ∅)
                          (demo_options "LCG_96" "analytix") true) [])
           0 (snd (granting [] (demo_fs []))) "webhdfs-token");
    [discriminate|reflexivity|by eexists|reflexivity].
Defined.

(** X16.  For the cluster [k8s] and a release whose name contains [dev],
    when the helper that sets up the user in the cluster returns and the
    configuration of the user is not in their directory, the body of
    [if self.offload:] raises the [RuntimeError] "Problem connecting to Cloud
    Containers cluster".  The helper for Hadoop has not been run, and of
    [self.env] only the three variables cleared at the beginning have
    changed: they are gone. *)
Theorem provision_k8s_unreachable h username lcg_rel st code fs1 :
  contains "dev" lcg_rel = true ->
  run h ["sudo"; init_k8s_user (config (self st)); username] (fs st)
    = (Exited code, fs1) ->
  fs1 !! (("/spark/" ++ username) ++ "/k8s-user.config") = None ->
  exists st',
    provision_credentials h username (PStr "k8s") (PStr lcg_rel) st
      = (Raise (mkExn RuntimeError msg_k8s_unreachable), st') /\
    fs st' = fs1 /\
    log st' = (log st ++ [Spawn ["sudo"; init_k8s_user (config (self st)); username]])%list /\
    env (self st')
    = delete "KUBECONFIG"
        (delete "HADOOP_TOKEN_FILE_LOCATION" (delete "WEBHDFS_TOKEN" (env (self st)))).
Proof.
  intros Hdev Hrun Hconfig.
  unfold provision_credentials.
  unfold mbind at 1, M_bind, lift at 1. cbn [pyval_eqb String.eqb Ascii.eqb Bool.eqb].
  cbn [str_in]. unfold mbind at 1, result_bind, rbind. rewrite Hdev. cbn [negb].
  unfold mbind at 1 2 3 4, M_bind. unfold update_self at 1 2 3.
  unfold authenticate. unfold mbind at 1, M_bind, get_self at 1.
  cbn [pyval_eqb String.eqb Ascii.eqb Bool.eqb self config with_env].
  unfold mbind at 1 2, M_bind. unfold subprocess_call at 1.
  cbn [fs self config with_env]. rewrite Hrun.
  unfold path_exists at 1. cbn [fs].
  rewrite bool_decide_eq_false_2 by (rewrite Hconfig; by intros [? [=]]).
  eexists. split; [reflexivity|]. done.
Qed.

Lemma provision_k8s_unreachable_witness :
  let h := demo_host (fun _ => 0) (Return PNone) in
  let st := demo_state (demo_spawner (demo_config true ∅)
                          (demo_options "LCG-dev3" "k8s") true) [] in
  exists st',
    provision_credentials h "alice" (PStr "k8s") (PStr "LCG-dev3") st
      = (Raise (mkExn RuntimeError msg_k8s_unreachable), st') /\
    fs st' = fs st /\
    log st' = [Spawn ["sudo"; "/srv/jupyterhub/private/init_k8s_user.sh"; "alice"]] /\
    env (self st')
    = delete "KUBECONFIG"
        (delete "HADOOP_TOKEN_FILE_LOCATION" (delete "WEBHDFS_TOKEN" (env (self st)))).
Proof.
  exact (provision_k8s_unreachable (demo_host (fun _ => 0) (Return PNone))
           "alice" "LCG-dev3"
           (demo_state (demo_spawner (demo_config true ∅)
                          (demo_options "LCG-dev3" "k8s") true) [])
           0 (demo_fs []) eq_refl eq_refl eq_refl).
Defined.

(** X17.  When the body of [if self.offload:] returns, [self.env] has
    the credentials of this run: for [k8s] the configuration of the user and
    the Kerberos cache in the directory of the container, for any other
    cluster the Kerberos cache in [/tmp] and no [KUBECONFIG]; and it has
    either both the location of the token file and the WebHDFS token, the
    latter being the text of [webhdfs.toks], or neither, which only [k8s]
    allows. *)
Theorem provision_credentials_returns h username cluster lcg_rel st st' :
  provision_credentials h username (PStr cluster) lcg_rel st = (Return tt, st') ->
  (if String.eqb cluster "k8s"
   then env (self st') !! "KUBECONFIG" = Some (PStr "/spark/k8s-user.config") /\
        env (self st') !! "KRB5CCNAME" = Some (PStr "/spark/krb5cc")
   else env (self st') !! "KUBECONFIG" = None /\
        env (self st') !! "KRB5CCNAME" = Some (PStr "/tmp/krb5cc")) /\
  ((exists token,
      fs st' !! (("/spark/" ++ username) ++ "/webhdfs.toks") = Some (File token) /\
      is_Some (fs st' !! (("/spark/" ++ username) ++ "/hadoop.toks")) /\
      env (self st') !! "WEBHDFS_TOKEN" = Some (PStr token) /\
      env (self st') !! "HADOOP_TOKEN_FILE_LOCATION" = Some (PStr "/spark/hadoop.toks"))
   \/ (cluster = "k8s" /\
       env (self st') !! "WEBHDFS_TOKEN" = None /\
       env (self st') !! "HADOOP_TOKEN_FILE_LOCATION" = None)).
Proof.
  unfold provision_credentials, authenticate, set_hadoop_tokens, subprocess_call,
    path_exists, read_file.
  unfold_monad. cbn [pyval_eqb].
  destruct (String.eqb_spec cluster "k8s") as [->|Hk].
  - cbn [String.eqb Ascii.eqb Bool.eqb].
    destruct (str_in "dev" lcg_rel) as [[]|]; cbn [negb]; try discriminate.
    cbn [self fs log env with_env config].
    destruct (run h _ (fs st)) as [[code1|e1] fs1]; [|discriminate].
    cbn [self fs log env with_env config].
    case_bool_decide as Hconfig; [|discriminate].
    cbn [self fs log env with_env config].
    destruct (run h _ fs1) as [[code2|e2] fs2]; [|discriminate].
    cbn [self fs log env with_env config].
    case_bool_decide as Hh; [case_bool_decide as Hw|];
      cbn [self fs log env with_env config].
    + destruct (fs2 !! (("/spark/" ++ username) ++ "/webhdfs.toks")) as [[|token|e0]|] eqn:Htoken; try discriminate.
      cbv beta iota. intros [= <-]. cbn [self fs log env with_env].
      split; [by simplify_map_eq|]. left. exists token. by simplify_map_eq.
    + intros [= <-]. cbn [self fs log env with_env].
      split; [by simplify_map_eq|]. right. by simplify_map_eq.
    + intros [= <-]. cbn [self fs log env with_env].
      split; [by simplify_map_eq|]. right. by simplify_map_eq.
  - cbn [self fs log env with_env config].
    destruct (run h _ (fs st)) as [[code1|e1] fs1]; [|discriminate].
    cbn [self fs log env with_env config].
    case_bool_decide as Hh; [case_bool_decide as Hw|];
      cbn [self fs log env with_env config].
    + destruct (fs1 !! (("/spark/" ++ username) ++ "/webhdfs.toks")) as [[|token|e0]|] eqn:Htoken; try discriminate.
      cbv beta iota. intros [= <-]. cbn [self fs log env with_env].
      split; [by simplify_map_eq|]. left. exists token. by simplify_map_eq.
    + by destruct (String.eqb cluster "nxcals").
    + by destruct (String.eqb cluster "nxcals").
Qed.

Lemma provision_credentials_returns_witness :
  let h := host_with granting (fun k _ => quiet k) (fun _ => None) (Return PNone) in
  let st := demo_state (demo_spawner (demo_config true ∅)
                          (demo_options "LCG-dev3" "k8s") true) ["k8s-user.config"] in
  let st' := snd (provision_credentials h "alice" (PStr "k8s") (PStr "LCG-dev3") st) in
  (env (self st') !! "KUBECONFIG" = Some (PStr "/spark/k8s-user.config") /\
   env (self st') !! "KRB5CCNAME" = Some (PStr "/spark/krb5cc")) /\
  ((exists token,
      fs st' !! "/spark/alice/webhdfs.toks" = Some (File token) /\
      is_Some (fs st' !! "/spark/alice/hadoop.toks") /\
      env (self st') !! "WEBHDFS_TOKEN" = Some (PStr token) /\
      env (self st') !! "HADOOP_TOKEN_FILE_LOCATION" = Some (PStr "/spark/hadoop.toks"))
   \/ ("k8s" = "k8s" /\
       env (self st') !! "WEBHDFS_TOKEN" = None /\
       env (self st') !! "HADOOP_TOKEN_FILE_LOCATION" = None)).
Proof.
  cbv zeta.
  apply (provision_credentials_returns
           (host_with granting (fun k _ => quiet k) (fun _ => None) (Return PNone))
           "alice" "k8s" (PStr "LCG-dev3")
           (demo_state (demo_spawner (demo_config true ∅)
                          (demo_options "LCG-dev3" "k8s") true) ["k8s-user.config"])).
  vm_compute. reflexivity.
Defined.

(** X18.  When the body of [if self.offload:] raises, either it has
    stopped at its first test, for [k8s], and has changed nothing, or
    [self.env] has no WebHDFS token, not even that of an earlier session;
    [KUBECONFIG] is then absent or the one set by this run for [k8s], and the
    location of the token file is absent unless both token files are there
    and the exception, whatever its class, is the one that reading
    [webhdfs.toks] raises. *)
Theorem provision_failure_clears_tokens h username cluster lcg_rel st e st' :
  provision_credentials h username cluster lcg_rel st = (Raise e, st') ->
  (st' = st /\ cluster = PStr "k8s" /\
   (e = mkExn ValueError msg_k8s_unsupported \/ exn_class_of e = TypeError))
  \/ (env (self st') !! "WEBHDFS_TOKEN" = None /\
      (env (self st') !! "KUBECONFIG" = None \/
       cluster = PStr "k8s" /\
       env (self st') !! "KUBECONFIG" = Some (PStr "/spark/k8s-user.config")) /\
      (env (self st') !! "HADOOP_TOKEN_FILE_LOCATION" = None \/
       fst (read_file (("/spark/" ++ username) ++ "/webhdfs.toks") st') = Raise e /\
       is_Some (fs st' !! (("/spark/" ++ username) ++ "/hadoop.toks")) /\
       env (self st') !! "HADOOP_TOKEN_FILE_LOCATION" = Some (PStr "/spark/hadoop.toks"))).
Proof.
  unfold provision_credentials, authenticate, set_hadoop_tokens, subprocess_call,
    path_exists.
  unfold_monad.
  destruct (pyval_eqb cluster (PStr "k8s")) eqn:Hk.
  - assert (cluster = PStr "k8s") as ->.
    { destruct cluster as [|z|s|n]; try discriminate.
      cbn in Hk. by apply String.eqb_eq in Hk as ->. }
    clear Hk. cbn [pyval_eqb String.eqb Ascii.eqb Bool.eqb].
    destruct (str_in "dev" lcg_rel) as [[]|e0] eqn:Hdev; cbn [negb].
    + cbn [self fs log env with_env config].
      destruct (run h _ (fs st)) as [[code1|e1] fs1].
      2:{ intros [= <- <-]. right. cbn [self fs log env with_env].
          split; [by simplify_map_eq|]. split; left; by simplify_map_eq. }
      cbn [self fs log env with_env config].
      case_bool_decide as Hconfig; cbn [self fs log env with_env config].
      2:{ intros [= <- <-]. right. cbn [self fs log env with_env].
          split; [by simplify_map_eq|]. split; left; by simplify_map_eq. }
      destruct (run h _ fs1) as [[code2|e2] fs2].
      2:{ intros [= <- <-]. right. cbn [self fs log env with_env].
          split; [by simplify_map_eq|].
          split; [right|left]; by simplify_map_eq. }
      cbn [self fs log env with_env config].
      case_bool_decide as Hh; [case_bool_decide as Hw|];
        cbn [self fs log env with_env config]; try discriminate.
      unfold read_file at 1. cbn [self fs log env with_env config].
      destruct (fs2 !! (("/spark/" ++ username) ++ "/webhdfs.toks"))
        as [[|token|e0]|] eqn:Htoken; cbv beta iota; try discriminate;
        intros [= <- <-]; right; cbn [self fs log env with_env];
        (split; [by simplify_map_eq|]);
        (split; [right; by simplify_map_eq|]);
        right; (split; [unfold read_file; cbn [fs]; by rewrite Htoken|]);
        (split; [done|by simplify_map_eq]).
    + intros [= <- <-]. left. auto.
    + intros [= <- <-]. left. split; [done|]. split; [done|]. right.
      destruct lcg_rel; inversion Hdev; reflexivity.
  - cbn [self fs log env with_env config].
    destruct cluster as [|z|name|n]; cbn [self fs log env with_env config];
      try (intros [= <- <-]; right; cbn [self fs log env with_env];
           split; [by simplify_map_eq|]; split; left; by simplify_map_eq).
    destruct (run h _ (fs st)) as [[code1|e1] fs1].
    2:{ intros [= <- <-]. right. cbn [self fs log env with_env].
        split; [by simplify_map_eq|]. split; left; by simplify_map_eq. }
    cbn [self fs log env with_env config].
    case_bool_decide as Hh; [case_bool_decide as Hw|];
      cbn [self fs log env with_env config].
    + unfold read_file at 1. cbn [self fs log env with_env config].
      destruct (fs1 !! (("/spark/" ++ username) ++ "/webhdfs.toks"))
        as [[|token|e0]|] eqn:Htoken; cbv beta iota; try discriminate;
        intros [= <- <-]; right; cbn [self fs log env with_env];
        (split; [by simplify_map_eq|]);
        (split; [left; by simplify_map_eq|]);
        right; (split; [unfold read_file; cbn [fs]; by rewrite Htoken|]);
        (split; [done|by simplify_map_eq]).
    + destruct (pyval_eqb (PStr name) (PStr "nxcals"));
        intros [= <- <-]; right; cbn [self fs log env with_env];
        (split; [by simplify_map_eq|]); split; left; by simplify_map_eq.
    + destruct (pyval_eqb (PStr name) (PStr "nxcals"));
        intros [= <- <-]; right; cbn [self fs log env with_env];
        (split; [by simplify_map_eq|]); split; left; by simplify_map_eq.
Qed.

Lemma provision_failure_clears_tokens_witness :
  let st := {| self := with_env {[ "WEBHDFS_TOKEN" := PStr "stale" ]}
                         (demo_spawner (demo_config true ∅)
                            (demo_options "LCG_96" "analytix") true);
               fs := <["/spark/alice/webhdfs.toks" :=
                         Unreadable (mkExn (OtherClass "UnicodeDecodeError" true)
                                       "'utf-8' codec can't decode byte")]>
                       (demo_fs ["hadoop.toks"]);
               log := [] |} in
  let e := mkExn (OtherClass "UnicodeDecodeError" true)
             "'utf-8' codec can't decode byte" in
  let st' := snd (provision_credentials (demo_host (fun _ => 0) (Return PNone))
                    "alice" (PStr "analytix") (PStr "LCG_96") st) in
  (st' = st /\ PStr "analytix" = PStr "k8s" /\
   (e = mkExn ValueError msg_k8s_unsupported \/ exn_class_of e = TypeError))
  \/ (env (self st') !! "WEBHDFS_TOKEN" = None /\
      (env (self st') !! "KUBECONFIG" = None \/
       PStr "analytix" = PStr "k8s" /\
       env (self st') !! "KUBECONFIG" = Some (PStr "/spark/k8s-user.config")) /\
      (env (self st') !! "HADOOP_TOKEN_FILE_LOCATION" = None \/
       fst (read_file (("/spark/" ++ "alice") ++ "/webhdfs.toks") st') = Raise e /\
       is_Some (fs st' !! (("/spark/" ++ "alice") ++ "/hadoop.toks")) /\
       env (self st') !! "HADOOP_TOKEN_FILE_LOCATION" = Some (PStr "/spark/hadoop.toks"))).
Proof.
  cbv zeta.
  apply (provision_failure_clears_tokens (demo_host (fun _ => 0) (Return PNone))
           "alice" (PStr "analytix") (PStr "LCG_96")
           {| self := with_env {[ "WEBHDFS_TOKEN" := PStr "stale" ]}
                        (demo_spawner (demo_config true ∅)
                           (demo_options "LCG_96" "analytix") true);
              fs := <["/spark/alice/webhdfs.toks" :=
                        Unreadable (mkExn (OtherClass "UnicodeDecodeError" true)
                                      "'utf-8' codec can't decode byte")]>
                      (demo_fs ["hadoop.toks"]);
              log := [] |}).
  vm_compute. reflexivity.
Defined.

(** ** [get_env]: the ports *)

Lemma pyval_eqb_eq a b : pyval_eqb a b = true <-> a = b.
Proof.
  destruct a, b; cbn; try (split; [discriminate|congruence]); try done.
  - rewrite Z.eqb_eq. split; congruence.
  - rewrite String.eqb_eq. split; congruence.
  - rewrite String.eqb_eq. split; congruence.
Qed.

Lemma pyval_eqb_refl a : pyval_eqb a a = true.
Proof. by apply pyval_eqb_eq. Qed.

Lemma pyval_eqb_ne a b : a <> b -> pyval_eqb a b = false.
Proof.
  intros Hne. destruct (pyval_eqb a b) eqn:E; [|done].
  by apply pyval_eqb_eq in E.
Qed.

Lemma dict_find_set_eq {V} k (v : V) d :
  dict_find pyval_eqb k (dict_set pyval_eqb k v d) = Some v.
Proof.
  induction d as [|[k' v'] d IH]; cbn.
  - by rewrite pyval_eqb_refl.
  - destruct (pyval_eqb k' k) eqn:E; cbn; by rewrite E.
Qed.

Lemma dict_find_set_ne {V} k k0 (v : V) d :
  k <> k0 ->
  dict_find pyval_eqb k0 (dict_set pyval_eqb k v d) = dict_find pyval_eqb k0 d.
Proof.
  intros Hne. induction d as [|[k' v'] d IH]; cbn.
  - by rewrite pyval_eqb_ne.
  - destruct (pyval_eqb k' k) eqn:E; cbn.
    + apply pyval_eqb_eq in E as ->. by rewrite pyval_eqb_ne.
    + by rewrite IH.
Qed.

(** The bindings after the ports [ps] have been bound to themselves. *)
Lemma bind_ports_find ps : forall d,
  let d' := fold_left (fun d p => dict_set pyval_eqb p (HostPort p) d) ps d in
  (forall p, In p ps -> dict_find pyval_eqb p d' = Some (HostPort p)) /\
  (forall k, ~ In k ps -> dict_find pyval_eqb k d' = dict_find pyval_eqb k d).
Proof.
  induction ps as [|q ps IH] using rev_ind; intros d; cbn zeta.
  - split; [by intros p []|done].
  - rewrite fold_left_app. cbn [fold_left].
    destruct (IH d) as [Hin Hout]. split.
    + intros p Hp. destruct (decide (q = p)) as [->|Hne].
      * apply dict_find_set_eq.
      * rewrite dict_find_set_ne by done. apply Hin.
        apply in_app_or in Hp as [Hp|[Hp|[]]]; [done|congruence].
    + intros k Hk. rewrite dict_find_set_ne.
      * apply Hout. intros Hin'. apply Hk. apply in_or_app. by left.
      * intros ->. apply Hk. apply in_or_app. right. by left.
Qed.

Lemma with_reserved_snoc ps q s :
  with_reserved (ps ++ [q]) s
  = append_port q (bind_port q (HostPort q) (with_reserved ps s)).
Proof. unfold with_reserved. by rewrite fold_left_app. Qed.

Lemma with_reserved_ports ps s :
  extra_create_kwargs (with_reserved ps s)
  = option_map (fun c => {| ports := ports c ++ ps |}) (extra_create_kwargs s).
Proof.
  induction ps as [|q ps IH] using rev_ind.
  - cbn. destruct (extra_create_kwargs s) as [[l]|]; cbn; [|done].
    by rewrite app_nil_r.
  - rewrite with_reserved_snoc. cbn. rewrite IH.
    destruct (extra_create_kwargs s) as [[l]|]; cbn; [|done].
    by rewrite app_assoc.
Qed.

Lemma with_reserved_bindings ps s :
  extra_host_config (with_reserved ps s)
  = option_map
      (fun c => set_port_bindings
                  (fold_left (fun d p => dict_set pyval_eqb p (HostPort p) d) ps
                     (port_bindings c)) c)
      (extra_host_config s).
Proof.
  induction ps as [|q ps IH] using rev_ind.
  - cbn. by destruct (extra_host_config s) as [[b p c]|].
  - rewrite with_reserved_snoc. cbn. rewrite IH.
    destruct (extra_host_config s) as [[b p c]|]; cbn; [|done].
    by rewrite fold_left_app.
Qed.

Lemma with_reserved_same ps s :
  config (with_reserved ps s) = config s /\
  offload (with_reserved ps s) = offload s /\
  user_options (with_reserved ps s) = user_options s /\
  env (with_reserved ps s) = env s /\
  cpu_limit (with_reserved ps s) = cpu_limit s /\
  mem_limit (with_reserved ps s) = mem_limit s.
Proof.
  induction ps as [|q ps IH] using rev_ind; [done|].
  rewrite with_reserved_snoc. exact IH.
Qed.

Lemma reserved_ports_length h a b ks : forall ps,
  reserved_ports h a b ks = Some ps -> length ps = length ks.
Proof.
  induction ks as [|k ks IH]; intros ps; cbn.
  - by intros [= <-].
  - destruct (get_reserved_port _ _ _ _) as [p|]; [|discriminate].
    destruct (reserved_ports h a b ks) as [ps'|]; [|discriminate].
    intros [= <-]. cbn. by rewrite (IH ps').
Qed.

(** The loop of [get_env] when every reservation returns. *)
Lemma reserve_ports_returns h a b ks : forall acc st spark_ports st',
  reserve_ports h a b ks acc st = (Return spark_ports, st') ->
  exists ps,
    reserved_ports h a b ks = Some ps /\
    spark_ports = (acc ++ map str ps)%list /\
    st' = {| self := with_reserved ps (self st); fs := fs st;
             log := log st ++ repeat (Reserve a b) (length ps) |}.
Proof.
  induction ks as [|k ks IH]; intros acc st spark_ports st'.
  - cbn. intros [= <- <-]. exists []. cbn. rewrite !app_nil_r. by destruct st.
  - cbn [reserve_ports reserved_ports]. unfold_monad. cbn.
    destruct (get_reserved_port a b default_n_tries (sockets h k)) as [p|e].
    + cbn. intros Hrest. apply IH in Hrest as (ps & -> & -> & ->).
      exists (p :: ps). cbn. rewrite <- !app_assoc. done.
    + destruct (is_Exception _); discriminate.
Qed.

(** The loop of [get_env] when a reservation raises. *)
Lemma reserve_ports_raises h a b ks : forall acc st e st',
  reserve_ports h a b ks acc st = (Raise e, st') ->
  exists before k after ex ps,
    ks = (before ++ k :: after)%list /\
    reserved_ports h a b before = Some ps /\
    get_reserved_port a b default_n_tries (sockets h k) = Raise ex /\
    e = (if is_Exception (exn_class_of ex)
         then mkExn RuntimeError allocation_failed else ex) /\
    st' = {| self := with_reserved ps (self st); fs := fs st;
             log := log st ++ repeat (Reserve a b) (length ps)
                    ++ Reserve a b
                    :: (if is_Exception (exn_class_of ex)
                        then [Error "Error while allocating ports for Spark: %s" ex]
                        else []) |}.
Proof.
  induction ks as [|k ks IH]; intros acc st e st'; [discriminate|].
  cbn [reserve_ports]. unfold_monad. cbn.
  destruct (get_reserved_port a b default_n_tries (sockets h k)) as [p|ex] eqn:Hk.
  - cbn. intros Hrest.
    apply IH in Hrest as (before & k' & after & ex & ps & -> & Hps & Hex & -> & ->).
    exists (k :: before), k', after, ex, (p :: ps). cbn. rewrite Hk, Hps. cbn.
    rewrite <- !app_assoc. done.
  - intros Hraise. exists [], k, ks, ex, []. cbn.
    destruct (is_Exception (exn_class_of ex)); cbn in Hraise;
      injection Hraise as <- <-; repeat split; try done.
    by rewrite <- app_assoc.
Qed.

(** What [get_env] does on the Docker spawner for a session that offloads,
    once the base environment is composed. *)
Lemma get_env_offload h st hc kw composed :
  offload (self st) = true ->
  extra_host_config (self st) = Some hc ->
  extra_create_kwargs (self st) = Some kw ->
  base_env h (self st) = Return composed ->
  get_env h st
  = cluster_env h (self st) composed
      {| self := (if use_internal_ip (config (self st)) then fun s => s
                  else bind_port (PInt (port (config (self st))))
                         (HostIp (host_ip (config (self st)))))
                   (clear_ports (self st));
         fs := fs st; log := log st |}.
Proof.
  intros Hoff Hhc Hkw Hbase. unfold get_env. unfold_monad.
  rewrite Hbase, Hhc, Hkw, Hoff.
  by destruct (use_internal_ip (config (self st))).
Qed.

(** A spawner without the attributes of the Docker spawner. *)
Lemma get_env_no_docker h st :
  extra_host_config (self st) = None \/ extra_create_kwargs (self st) = None ->
  get_env h st = (base_env h (self st), st).
Proof.
  intros Hnone. unfold get_env. unfold_monad.
  destruct (base_env h (self st)) as [composed|e]; [|done].
  by destruct Hnone as [-> | ->]; [|destruct (extra_host_config (self st))].
Qed.

(** X19.  On a spawner that lacks [extra_host_config] or
    [extra_create_kwargs], [get_env] returns the base environment and touches
    nothing, even for a session that offloads: no port is reserved, and the
    cluster entries are only what [extra_env] or the upstream environment
    supply. *)
Theorem get_env_without_docker h st :
  extra_host_config (self st) = None \/ extra_create_kwargs (self st) = None ->
  get_env h st = (base_env h (self st), st) /\
  forall composed key,
    fst (get_env h st) = Return composed ->
    In key cluster_entries ->
    composed !! key
    = (extra_env (config (self st)) ∪ super_get_env h (env (self st))) !! key.
Proof.
  intros Hnone. pose proof (get_env_no_docker h st Hnone) as Heq.
  split; [done|]. rewrite Heq. cbn [fst]. intros composed key Hbase Hkey.
  by apply base_env_cluster_entries.
Qed.

Lemma get_env_without_docker_witness :
  let h := demo_host (fun _ => 0) (Return PNone) in
  let st := {| self := kube_spawner (demo_config true ∅)
                         (demo_options "LCG-dev3" "k8s") true;
               fs := demo_fs []; log := [] |} in
  get_env h st = (base_env h (self st), st) /\
  forall composed key,
    fst (get_env h st) = Return composed ->
    In key cluster_entries ->
    composed !! key
    = (extra_env (config (self st)) ∪ super_get_env h (env (self st))) !! key.
Proof.
  exact (get_env_without_docker (demo_host (fun _ => 0) (Return PNone))
           {| self := kube_spawner (demo_config true ∅)
                        (demo_options "LCG-dev3" "k8s") true;
              fs := demo_fs []; log := [] |}
           (or_introl eq_refl)).
Defined.

(** X20.  When [get_env] returns for a session that offloads, on the
    Docker spawner, it has made one reservation for each of the
    [spark_session_num_ports * spark_max_sessions] ports and all have
    returned.  [SPARK_PORTS] is the list of these ports, joined by commas;
    [extra_create_kwargs] has exactly these ports, in the same order; every
    one of them is bound to itself in [extra_host_config]; the bindings of an
    earlier call are gone, the only other binding being that of the port of
    the notebook; and the log has one entry for each reservation. *)
Theorem get_env_offload_ports h st hc kw composed st' :
  offload (self st) = true ->
  extra_host_config (self st) = Some hc ->
  extra_create_kwargs (self st) = Some kw ->
  get_env h st = (Return composed, st') ->
  exists ps hc',
    reserved_ports h (spark_session_port_range_start (config (self st)))
      (spark_session_port_range_end (config (self st)))
      (range (spark_session_num_ports (config (self st))
              * spark_max_sessions (config (self st)))) = Some ps /\
    length ps = Z.to_nat (spark_session_num_ports (config (self st))
                          * spark_max_sessions (config (self st))) /\
    composed !! "SPARK_PORTS" = Some (PStr (join "," (map str ps))) /\
    extra_create_kwargs (self st') = Some {| ports := ps |} /\
    extra_host_config (self st') = Some hc' /\
    (forall p, In p ps ->
       dict_find pyval_eqb p (port_bindings hc') = Some (HostPort p)) /\
    (forall k, ~ In k ps ->
       dict_find pyval_eqb k (port_bindings hc')
       = if negb (use_internal_ip (config (self st)))
            && pyval_eqb (PInt (port (config (self st)))) k
         then Some (HostIp (host_ip (config (self st)))) else None) /\
    log st' = (log st ++ repeat (Reserve (spark_session_port_range_start (config (self st)))
                                   (spark_session_port_range_end (config (self st))))
                           (length ps))%list.
Proof.
  intros Hoff Hhc Hkw.
  destruct (base_env h (self st)) as [env0|e0] eqn:Hbase.
  2:{ unfold get_env. unfold_monad. by rewrite Hbase. }
  rewrite (get_env_offload h st hc kw env0 Hoff Hhc Hkw Hbase).
  unfold cluster_env. unfold mbind at 1 2 3, M_bind. unfold lift at 1 2.
  destruct (getitem _ spark_cluster_field) as [cluster|]; [|discriminate].
  destruct (getitem _ user_memory) as [memory|]; [|discriminate].
  destruct (reserve_ports _ _ _ _ _ _) as [[spark_ports|e] st1] eqn:Hloop;
    [|discriminate].
  apply reserve_ports_returns in Hloop as (ps & Hps & -> & ->).
  unfold mret, M_ret. intros [= <- <-].
  cbn [self fs log app].
  assert (Hlen : length ps
                 = Z.to_nat (spark_session_num_ports (config (self st))
                             * spark_max_sessions (config (self st)))).
  { rewrite (reserved_ports_length _ _ _ _ _ Hps). unfold range.
    by rewrite length_map, length_seq. }
  rewrite with_reserved_ports, with_reserved_bindings.
  destruct (use_internal_ip (config (self st))) eqn:Hip; cbn; rewrite Hhc, Hkw; cbn.
  - destruct (bind_ports_find ps []) as [Hin Hout].
    eexists ps, _. split; [exact Hps|]. split; [exact Hlen|].
    split; [by rewrite lookup_insert|]. split; [done|]. split; [reflexivity|].
    cbn. split; [exact Hin|]. split; [|done].
    intros k Hk. by rewrite (Hout k Hk).
  - destruct (bind_ports_find ps
                [(PInt (port (config (self st))),
                  HostIp (host_ip (config (self st))))]) as [Hin Hout].
    eexists ps, _. split; [exact Hps|]. split; [exact Hlen|].
    split; [by rewrite lookup_insert|]. split; [done|]. split; [reflexivity|].
    cbn. split; [exact Hin|]. split; [|done].
    intros k Hk. rewrite (Hout k Hk). cbn.
    by destruct (pyval_eqb (PInt (port (config (self st)))) k).
Qed.

Lemma get_env_offload_ports_witness :
  let h := demo_host (fun _ => 0) (Return PNone) in
  let st := demo_state (demo_spawner (demo_config true ∅)
                          (demo_options "LCG-dev3" "k8s") true) [] in
  let composed := match fst (get_env h st) with
                  | Return composed => composed
                  | Raise _ => ∅
                  end in
  let st' := snd (get_env h st) in
  exists ps hc',
    reserved_ports h 5001 5300 (range (3 * 1)) = Some ps /\
    length ps = 3%nat /\
    composed !! "SPARK_PORTS" = Some (PStr (join "," (map str ps))) /\
    extra_create_kwargs (self st') = Some {| ports := ps |} /\
    extra_host_config (self st') = Some hc' /\
    (forall p, In p ps ->
       dict_find pyval_eqb p (port_bindings hc') = Some (HostPort p)) /\
    (forall k, ~ In k ps ->
       dict_find pyval_eqb k (port_bindings hc')
       = if negb false && pyval_eqb (PInt 8888) k
         then Some (HostIp "127.0.0.1") else None) /\
    log st' = ([] ++ repeat (Reserve 5001 5300) (length ps))%list.
Proof.
  cbv zeta.
  assert (Hreturns :
    match fst (get_env (demo_host (fun _ => 0) (Return PNone))
                 (demo_state (demo_spawner (demo_config true ∅)
                                (demo_options "LCG-dev3" "k8s") true) [])) with
    | Return _ => True
    | Raise _ => False
    end) by (lazy; exact I).
  apply (get_env_offload_ports (demo_host (fun _ => 0) (Return PNone))
           (demo_state (demo_spawner (demo_config true ∅)
                          (demo_options "LCG-dev3" "k8s") true) [])
           {| port_bindings := []; cpu_period := None; cpu_quota := None |}
           {| ports := [] |});
    [reflexivity|reflexivity|reflexivity|].
  destruct (get_env _ _) as [[composed|e] st']; [reflexivity|destruct Hreturns].
Defined.

(** X21.  When a reservation of [get_env] raises, [get_env] raises: the
    [RuntimeError] "Error while allocating ports for Spark. Please try again."
    in place of an [Exception], which it logs, and the exception itself when
    it is no [Exception], which it does not log.  No further reservation is
    made, and the ports reserved before stay in [extra_create_kwargs]. *)
Theorem get_env_allocation_failed h st hc kw composed cluster memory e st' :
  offload (self st) = true ->
  extra_host_config (self st) = Some hc ->
  extra_create_kwargs (self st) = Some kw ->
  base_env h (self st) = Return composed ->
  getitem (user_options (self st)) spark_cluster_field = Return cluster ->
  getitem (user_options (self st)) user_memory = Return memory ->
  get_env h st = (Raise e, st') ->
  exists before k after ex ps,
    range (spark_session_num_ports (config (self st))
           * spark_max_sessions (config (self st))) = (before ++ k :: after)%list /\
    reserved_ports h (spark_session_port_range_start (config (self st)))
      (spark_session_port_range_end (config (self st))) before = Some ps /\
    get_reserved_port (spark_session_port_range_start (config (self st)))
      (spark_session_port_range_end (config (self st))) default_n_tries (sockets h k)
    = Raise ex /\
    e = (if is_Exception (exn_class_of ex)
         then mkExn RuntimeError allocation_failed else ex) /\
    extra_create_kwargs (self st') = Some {| ports := ps |} /\
    log st'
    = (log st
       ++ repeat (Reserve (spark_session_port_range_start (config (self st)))
                    (spark_session_port_range_end (config (self st)))) (length ps)
       ++ Reserve (spark_session_port_range_start (config (self st)))
            (spark_session_port_range_end (config (self st)))
       :: (if is_Exception (exn_class_of ex)
           then [Error "Error while allocating ports for Spark: %s" ex]
           else []))%list.
Proof.
  intros Hoff Hhc Hkw Hbase Hcluster Hmemory.
  rewrite (get_env_offload h st hc kw composed Hoff Hhc Hkw Hbase).
  unfold cluster_env. unfold mbind at 1 2 3, M_bind. unfold lift at 1 2.
  rewrite Hcluster, Hmemory.
  destruct (reserve_ports _ _ _ _ _ _) as [[spark_ports|e1] st1] eqn:Hloop;
    [discriminate|].
  intros [= <- <-].
  apply reserve_ports_raises in Hloop
    as (before & k & after & ex & ps & Hks & Hps & Hex & -> & ->).
  exists before, k, after, ex, ps.
  split; [done|]. split; [done|]. split; [done|]. split; [done|].
  split; [|done]. cbn [self]. rewrite with_reserved_ports.
  destruct (use_internal_ip (config (self st))); cbn; by rewrite Hkw.
Qed.

Lemma get_env_allocation_failed_witness :
  let h := demo_host (fun k => if k =? 1 then 10 else 0) (Return PNone) in
  let st := demo_state (demo_spawner (demo_config true ∅)
                          (demo_options "LCG-dev3" "k8s") true) [] in
  let e := match fst (get_env h st) with
           | Return _ => mkExn RuntimeError ""
           | Raise e => e
           end in
  let st' := snd (get_env h st) in
  exists before k after ex ps,
    range (3 * 1) = (before ++ k :: after)%list /\
    reserved_ports h 5001 5300 before = Some ps /\
    get_reserved_port 5001 5300 default_n_tries (sockets h k) = Raise ex /\
    e = (if is_Exception (exn_class_of ex)
         then mkExn RuntimeError allocation_failed else ex) /\
    extra_create_kwargs (self st') = Some {| ports := ps |} /\
    log st'
    = ([] ++ repeat (Reserve 5001 5300) (length ps)
       ++ Reserve 5001 5300
       :: (if is_Exception (exn_class_of ex)
           then [Error "Error while allocating ports for Spark: %s" ex]
           else []))%list.
Proof.
  cbv zeta.
  assert (Hraises :
    match fst (get_env (demo_host (fun k => if k =? 1 then 10 else 0) (Return PNone))
                 (demo_state (demo_spawner (demo_config true ∅)
                                (demo_options "LCG-dev3" "k8s") true) [])) with
    | Return _ => False
    | Raise _ => True
    end) by (lazy; exact I).
  assert (Hbase :
    match base_env (demo_host (fun k => if k =? 1 then 10 else 0) (Return PNone))
            (demo_spawner (demo_config true ∅) (demo_options "LCG-dev3" "k8s") true) with
    | Return _ => True
    | Raise _ => False
    end) by (lazy; exact I).
  destruct (base_env _ _) as [composed|] eqn:Hcomposed; [|destruct Hbase].
  apply (get_env_allocation_failed
           (demo_host (fun k => if k =? 1 then 10 else 0) (Return PNone))
           (demo_state (demo_spawner (demo_config true ∅)
                          (demo_options "LCG-dev3" "k8s") true) [])
           {| port_bindings := []; cpu_period := None; cpu_quota := None |}
           {| ports := [] |} composed (PStr "k8s") (PStr "8G"));
    [reflexivity|reflexivity|reflexivity|exact Hcomposed|reflexivity|reflexivity|].
  destruct (get_env _ _) as [[c|e] st']; [destruct Hraises|reflexivity].
Defined.

Lemma base_env_extra_env h s composed key value :
  base_env h s = Return composed ->
  extra_env (config s) !! key = Some value ->
  composed !! key = Some value.
Proof.
  unfold base_env. unfold_monad.
  destruct (getpwnam h _) as [uid|]; [|discriminate].
  destruct (if local_home (config s) then _ else _) as [homepath|]; [|discriminate].
  destruct (getitem _ lcg_rel_field) as [v1|]; [|discriminate].
  destruct (getitem _ platform_field) as [v2|]; [|discriminate].
  destruct (getitem _ user_script_env_field) as [v3|]; [|discriminate].
  intros [= <-] Hkey.
  destruct (decide (extra_env (config s) = ∅)) as [Hnil|Hne].
  - by rewrite Hnil in Hkey.
  - unfold update at 1. by apply lookup_union_Some_l.
Qed.

Lemma cluster_env_other h s composed st result st' key :
  cluster_env h s composed st = (Return result, st') ->
  ~ In key cluster_entries ->
  result !! key = composed !! key.
Proof.
  unfold cluster_env. unfold mbind at 1 2 3, M_bind. unfold lift at 1 2.
  destruct (getitem _ spark_cluster_field) as [cluster|]; [|discriminate].
  destruct (getitem _ user_memory) as [memory|]; [|discriminate].
  destruct (reserve_ports _ _ _ _ _ _) as [[spark_ports|e] st1]; [|discriminate].
  unfold mret, M_ret. intros [= <- <-] Hkey. cbn in Hkey.
  destruct (pyval_eqb cluster (PStr "k8s"));
    rewrite !lookup_insert_ne by tauto; done.
Qed.

(** X22.  A variable of [extra_env] other than the six cluster entries is
    in the environment that [get_env] returns with the value that [extra_env]
    gives it: [extra_env] overrides the upstream environment and the variables
    that [get_env] computes, such as [HOME] and [USER]. *)
Theorem get_env_extra_env h st composed st' key value :
  get_env h st = (Return composed, st') ->
  extra_env (config (self st)) !! key = Some value ->
  ~ In key cluster_entries ->
  composed !! key = Some value.
Proof.
  intros Henv Hextra Hkey.
  destruct (base_env h (self st)) as [env0|e0] eqn:Hbase.
  2:{ unfold get_env in Henv. unfold_monad. by rewrite Hbase in Henv. }
  pose proof (base_env_extra_env _ _ _ _ _ Hbase Hextra) as Hbase_key.
  destruct (extra_host_config (self st)) as [hc|] eqn:Hhc.
  2:{ rewrite get_env_no_docker, Hbase in Henv by (by left).
      by injection Henv as <- <-. }
  destruct (extra_create_kwargs (self st)) as [kw|] eqn:Hkw.
  2:{ rewrite get_env_no_docker, Hbase in Henv by (by right).
      by injection Henv as <- <-. }
  destruct (offload (self st)) eqn:Hoff.
  - rewrite (get_env_offload h st hc kw env0 Hoff Hhc Hkw Hbase) in Henv.
    by rewrite (cluster_env_other _ _ _ _ _ _ _ Henv Hkey).
  - destruct (get_env_no_offload _ _ _ _ Hoff Henv) as [Hres _].
    rewrite Hbase in Hres. by injection Hres as ->.
Qed.

Lemma get_env_extra_env_witness :
  let h := demo_host (fun _ => 0) (Return PNone) in
  let extra : gmap string pyval := {[ "HOME" := PStr "/home/alice" ]} in
  let st := demo_state (demo_spawner (demo_config true extra)
                          (demo_options "LCG-dev3" "k8s") true) [] in
  let composed := match fst (get_env h st) with
                  | Return composed => composed
                  | Raise _ => ∅
                  end in
  composed !! "HOME" = Some (PStr "/home/alice").
Proof.
  cbv zeta.
  assert (Hreturns :
    match fst (get_env (demo_host (fun _ => 0) (Return PNone))
                 (demo_state (demo_spawner
                                (demo_config true {[ "HOME" := PStr "/home/alice" ]})
                                (demo_options "LCG-dev3" "k8s") true) [])) with
    | Return _ => True
    | Raise _ => False
    end) by (lazy; exact I).
  apply (get_env_extra_env (demo_host (fun _ => 0) (Return PNone))
           (demo_state (demo_spawner
                          (demo_config true {[ "HOME" := PStr "/home/alice" ]})
                          (demo_options "LCG-dev3" "k8s") true) [])
           _
           (snd (get_env (demo_host (fun _ => 0) (Return PNone))
                   (demo_state (demo_spawner
                                  (demo_config true {[ "HOME" := PStr "/home/alice" ]})
                                  (demo_options "LCG-dev3" "k8s") true) [])))
           "HOME" (PStr "/home/alice")).
  - destruct (get_env _ _) as [[composed|e] st']; [reflexivity|destruct Hreturns].
  - reflexivity.
  - cbn. intros [H|[H|[H|[H|[H|[H|[]]]]]]]; discriminate.
Defined.

(** ** [get_volumes] *)

Lemma convert_list_spec fmt only_mount mode volumes : forall binds,
  match _convert_list fmt only_mount volumes binds mode with
  | Return out =>
      exists new,
        out = (binds ++ new)%list /\
        Forall2 (fun item b => convert_volume fmt only_mount mode item = Return b)
          volumes new
  | Raise e =>
      exists item,
        In item volumes /\ convert_volume fmt only_mount mode item = Raise e
  end.
Proof.
  induction volumes as [|item rest IH]; intros binds; cbn [_convert_list].
  - exists []. by rewrite app_nil_r.
  - unfold mbind, result_bind, rbind.
    destruct (convert_volume fmt only_mount mode item) as [b|e] eqn:Hitem.
    + specialize (IH (binds ++ [b])%list).
      destruct (_convert_list fmt only_mount rest (binds ++ [b]) mode) as [out|e].
      * destruct IH as (new & -> & Hnew). exists (b :: new).
        rewrite <- app_assoc. split; [done|]. by constructor.
      * destruct IH as (item' & Hin & Hraise). exists item'. split; [by right|done].
    + exists item. split; [by left|done].
Qed.


(** X23.  The list that [get_volumes] returns has one entry for each
    volume: first those of [volumes], converted with the mode [rw], then those
    of [read_only_volumes], with [ro], then those of [shared_volumes], with
    [shared], each group in the order of its dictionary. *)
Theorem get_volumes_order fmt volumes read_only_volumes shared_volumes only_mount binds :
  get_volumes fmt volumes read_only_volumes shared_volumes only_mount = Return binds ->
  exists rw ro shared,
    binds = (rw ++ ro ++ shared)%list /\
    Forall2 (fun item b => convert_volume fmt only_mount "rw" item = Return b)
      volumes rw /\
    Forall2 (fun item b => convert_volume fmt only_mount "ro" item = Return b)
      read_only_volumes ro /\
    Forall2 (fun item b => convert_volume fmt only_mount "shared" item = Return b)
      shared_volumes shared.
Proof.
  unfold get_volumes. unfold mbind, result_bind, rbind.
  pose proof (convert_list_spec fmt only_mount "rw" volumes []) as H1.
  destruct (_convert_list fmt only_mount volumes [] "rw") as [b1|]; [|discriminate].
  destruct H1 as (rw & -> & Hrw). cbn [app].
  pose proof (convert_list_spec fmt only_mount "ro" read_only_volumes rw) as H2.
  destruct (_convert_list fmt only_mount read_only_volumes rw "ro") as [b2|];
    [|discriminate].
  destruct H2 as (ro & -> & Hro).
  pose proof (convert_list_spec fmt only_mount "shared" shared_volumes (rw ++ ro)) as H3.
  destruct (_convert_list fmt only_mount shared_volumes (rw ++ ro) "shared") as [b3|];
    [|discriminate].
  destruct H3 as (shared & -> & Hshared).
  intros [= <-]. exists rw, ro, shared. by rewrite <- app_assoc.
Qed.

Lemma get_volumes_order_witness :
  let fmt := fun v : string => v in
  exists rw ro shared,
    [ "/srv/data:/data:rw"; "/cvmfs:/cvmfs:ro"; "/eos:/eos:shared" ]
    = (rw ++ ro ++ shared)%list /\
    Forall2 (fun item b => convert_volume fmt false "rw" item = Return b)
      [("/srv/data", BindTo "/data")] rw /\
    Forall2 (fun item b => convert_volume fmt false "ro" item = Return b)
      [("/cvmfs", BindTo "/cvmfs")] ro /\
    Forall2 (fun item b => convert_volume fmt false "shared" item = Return b)
      [("/eos", BindSpec [("bind", "/eos")])] shared.
Proof.
  exact (get_volumes_order (fun v => v) [("/srv/data", BindTo "/data")]
           [("/cvmfs", BindTo "/cvmfs")] [("/eos", BindSpec [("bind", "/eos")])]
           false _ eq_refl).
Defined.


Lemma convert_volume_mount fmt mode item b :
  convert_volume fmt false mode item = Return b ->
  exists point source m,
    convert_volume fmt true mode item = Return point /\
    b = source ++ ":" ++ point ++ ":" ++ m.
Proof.
  destruct item as [k [path|spec]]; unfold convert_volume, getitem;
    unfold mbind, result_bind, rbind.
  - intros [= <-]. by eexists _, _, _.
  - destruct (dict_find String.eqb "bind" spec) as [target|]; [|discriminate].
    intros [= <-]. by eexists _, _, _.
Qed.

(** X25.  When [volume_binds] returns, [volume_mount_points] returns a
    list of the same length, and each bind is
    [<source>:<mount point>:<mode>] for the mount point at the same position:
    the container sees the shared volumes at the mount points that the
    upstream spawner is told about. *)
Theorem volume_binds_mount_points fmt volumes read_only_volumes shared_volumes binds :
  volume_binds fmt volumes read_only_volumes shared_volumes = Return binds ->
  exists points,
    volume_mount_points fmt volumes read_only_volumes shared_volumes = Return points /\
    Forall2 (fun b point => exists source mode, b = source ++ ":" ++ point ++ ":" ++ mode)
      binds points.
Proof.
  assert (Hlist : forall mode l out,
    Forall2 (fun item b => convert_volume fmt false mode item = Return b) l out ->
    forall acc, exists points,
      _convert_list fmt true l acc mode = Return (acc ++ points)%list /\
      Forall2 (fun b point => exists source m, b = source ++ ":" ++ point ++ ":" ++ m)
        out points).
  { intros mode l out Hall.
    induction Hall as [|item b l out Hitem _ IH]; intros acc.
    - exists []. by rewrite app_nil_r.
    - apply convert_volume_mount in Hitem as (point & source & m & Hpoint & ->).
      destruct (IH (acc ++ [point])%list) as (points & Hrest & Hrel).
      exists (point :: points). cbn [_convert_list].
      unfold mbind, result_bind, rbind. rewrite Hpoint, Hrest, <- app_assoc.
      split; [done|]. constructor; [by eexists _, _|done]. }
  unfold volume_binds, volume_mount_points, get_volumes.
  unfold mbind, result_bind, rbind.
  pose proof (convert_list_spec fmt false "rw" volumes []) as H1.
  destruct (_convert_list fmt false volumes [] "rw") as [b1|]; [|discriminate].
  destruct H1 as (rw & -> & Hrw). cbn [app].
  pose proof (convert_list_spec fmt false "ro" read_only_volumes rw) as H2.
  destruct (_convert_list fmt false read_only_volumes rw "ro") as [b2|];
    [|discriminate].
  destruct H2 as (ro & -> & Hro).
  pose proof (convert_list_spec fmt false "shared" shared_volumes (rw ++ ro)) as H3.
  destruct (_convert_list fmt false shared_volumes (rw ++ ro) "shared") as [b3|];
    [|discriminate].
  destruct H3 as (shared & -> & Hshared).
  intros [= <-].
  destruct (Hlist _ _ _ Hrw []) as (p1 & -> & R1). cbn [app].
  destruct (Hlist _ _ _ Hro p1) as (p2 & -> & R2).
  destruct (Hlist _ _ _ Hshared (p1 ++ p2)%list) as (p3 & -> & R3).
  eexists. split; [reflexivity|].
  apply Forall2_app; [by apply Forall2_app|done].
Qed.

Lemma volume_binds_mount_points_witness :
  let fmt := fun v : string => v in
  exists points,
    volume_mount_points fmt [("/srv/data", BindTo "/data")]
      [("/cvmfs", BindTo "/cvmfs")] [("/eos", BindSpec [("bind", "/eos")])]
    = Return points /\
    Forall2 (fun b point => exists source mode, b = source ++ ":" ++ point ++ ":" ++ mode)
      [ "/srv/data:/data:rw"; "/cvmfs:/cvmfs:ro"; "/eos:/eos:shared" ] points.
Proof.
  exact (volume_binds_mount_points (fun v => v) [("/srv/data", BindTo "/data")]
           [("/cvmfs", BindTo "/cvmfs")] [("/eos", BindSpec [("bind", "/eos")])]
           _ eq_refl).
Defined.

(** ** The message for Graphite *)

Lemma unpack_pack_L n :
  0 <= n < 2 ^ 32 ->
  unpack_L [ n / 2 ^ 24 mod 256; n / 2 ^ 16 mod 256; n / 2 ^ 8 mod 256; n mod 256 ] = n.
Proof.
  intros Hn. unfold unpack_L. cbn [fold_left].
  change (2 ^ 24) with (256 * (256 * 256)). change (2 ^ 16) with (256 * 256).
  change (2 ^ 8) with 256. change (2 ^ 32) with (256 * (256 * (256 * 256))) in Hn.
  rewrite <- !Z.div_div by lia.
  pose proof (Z.div_mod n 256 ltac:(lia)) as H0.
  pose proof (Z.div_mod (n / 256) 256 ltac:(lia)) as H1.
  pose proof (Z.div_mod (n / 256 / 256) 256 ltac:(lia)) as H2.
  assert (n / 256 / 256 / 256 < 256).
  { repeat (apply Z.div_lt_upper_bound; [lia|]). lia. }
  assert (0 <= n / 256 / 256 / 256) by (repeat apply Z.div_pos; lia).
  rewrite (Z.mod_small (n / 256 / 256 / 256)) by lia.
  lia.
Qed.

(** X26.  The message that [_send_graphite_metrics] builds is the
    payload after a header of four bytes, which read as a number, the most
    significant byte first, give the length of the payload; so the receiver
    can split a stream of messages.  Only a payload of 2^32 bytes or more has
    no message: [struct.pack] raises, an [Exception]. *)
Theorem graphite_message_frame payload :
  match graphite_message payload with
  | Return message =>
      Z.of_nat (length payload) < 2 ^ 32 /\
      length message = (4 + length payload)%nat /\
      Forall (fun b => 0 <= b < 256) (firstn 4 message) /\
      unpack_L (firstn 4 message) = Z.of_nat (length payload) /\
      skipn 4 message = payload
  | Raise e =>
      2 ^ 32 <= Z.of_nat (length payload) /\
      is_Exception (exn_class_of e) = true
  end.
Proof.
  unfold graphite_message, pack_L. unfold mbind, result_bind, rbind.
  destruct (Z.ltb_spec (Z.of_nat (length payload)) (2 ^ 32)) as [Hlt|Hge].
  - assert ((0 <=? Z.of_nat (length payload)) = true) as -> by lia.
    cbn [andb app length firstn skipn].
    split; [done|]. split; [done|]. split.
    + repeat constructor; apply Z.mod_pos_bound; lia.
    + split; [|done]. apply unpack_pack_L. lia.
  - rewrite andb_false_r. cbn. done.
Qed.

(** ** [__init__] *)

Lemma before_dot_no_dot s : contains "." (before_dot s) = false.
Proof.
  induction s as [|c s IH]; [done|]. cbn [before_dot].
  destruct (Ascii.eqb_spec c ".") as [->|Hc]; [done|].
  cbn [contains strip_prefix].
  destruct (Ascii.eqb_spec "."%char c) as [<-|_]; [done|exact IH].
Qed.

Lemma before_dot_prefix s :
  exists rest,
    s = before_dot s ++ rest /\ (rest = "" \/ exists domain, rest = "." ++ domain).
Proof.
  induction s as [|c s (rest & IH & Hrest)].
  - exists "". by split; [|left].
  - cbn [before_dot]. destruct (Ascii.eqb_spec c ".") as [->|Hc].
    + exists (String "." s). split; [done|]. right. by exists s.
    + exists rest. split; [|done].
      change (String c (before_dot s) ++ rest) with (String c (before_dot s ++ rest)).
      by f_equal.
Qed.

(** X27.  A spawner that [__init__] has set up does not offload, and its
    [this_host] is the name of the host up to its first dot: it has no dot, so
    that it is one component of the path of the metrics, which is the
    configured path and this name. *)
Theorem init_this_host hostname s :
  offload (__init__ hostname s) = false /\
  contains "." (this_host (config (__init__ hostname s))) = false /\
  (exists rest,
     hostname = this_host (config (__init__ hostname s)) ++ rest /\
     (rest = "" \/ exists domain, rest = "." ++ domain)) /\
  _get_base_metric_path (__init__ hostname s)
  = graphite_metric_path (config s) ++ "." ++ this_host (config (__init__ hostname s)).
Proof.
  split; [done|]. split; [apply before_dot_no_dot|].
  split; [apply before_dot_prefix|done].
Qed.

(** ** The limits *)

(** X28.  The limits that [start] sets from the options of an accepted
    form: the memory is the text of the option, which ends with [G]; the
    number of cores is an integer [n], and it becomes the CPU quota
    [100000 * n] with the period 100000 on the Docker spawner, and the CPU
    limit [n] on a spawner without [extra_host_config].  Setting the limits
    never fails for these options. *)
Theorem limits_from_form formdata st0 options st1 :
  options_from_form formdata st0 = (Return options, st1) ->
  exists n quota,
    getitem options user_n_cores = Return (PInt n) /\
    getitem options user_memory = Return (PStr quota) /\
    ends_with_G quota = true /\
    forall st, exists st',
      set_resource_limits (PInt n) (PStr quota) st = (Return tt, st') /\
      mem_limit (self st') = PStr quota /\
      match extra_host_config (self st) with
      | Some c =>
          extra_host_config (self st')
          = Some {| port_bindings := port_bindings c; cpu_period := Some 100000;
                    cpu_quota := Some (PInt (100000 * n)) |} /\
          cpu_limit (self st') = cpu_limit (self st)
      | None =>
          extra_host_config (self st') = None /\ cpu_limit (self st') = PInt n
      end.
Proof.
  intros H. apply options_from_form_inv in H
    as (lcg_rel & platform & scriptenv & cluster & cores & memory & n & quota
        & _ & _ & _ & _ & _ & _ & _ & Hq & -> & _).
  exists n, quota. split; [done|]. split; [done|]. split.
  - destruct (str_in_list memory _).
    + injection Hq as <-. apply ends_with_G_app.
    + destruct (available_memory (config (self st0))) as [|d rest]; [discriminate|].
      cbn in Hq. injection Hq as <-. apply ends_with_G_app.
  - intros st. unfold set_resource_limits. unfold_monad.
    destruct (extra_host_config (self st)) as [c|] eqn:Hc; cbn.
    + eexists. split; [reflexivity|]. cbn. done.
    + eexists. split; [reflexivity|]. cbn. by rewrite Hc.
Qed.

Lemma limits_from_form_witness :
  exists n quota,
    getitem (demo_options "LCG-dev3" "none") user_n_cores = Return (PInt n) /\
    getitem (demo_options "LCG-dev3" "none") user_memory = Return (PStr quota) /\
    ends_with_G quota = true /\
    forall st, exists st',
      set_resource_limits (PInt n) (PStr quota) st = (Return tt, st') /\
      mem_limit (self st') = PStr quota /\
      match extra_host_config (self st) with
      | Some c =>
          extra_host_config (self st')
          = Some {| port_bindings := port_bindings c; cpu_period := Some 100000;
                    cpu_quota := Some (PInt (100000 * n)) |} /\
          cpu_limit (self st') = cpu_limit (self st)
      | None =>
          extra_host_config (self st') = None /\ cpu_limit (self st') = PInt n
      end.
Proof.
  apply (limits_from_form (demo_formdata "none" "64" "2")
           (demo_state (demo_spawner (demo_config true ∅) [] true) [])
           (demo_options "LCG-dev3" "none")
           (demo_state (demo_spawner (demo_config true ∅) [] false) [])).
  vm_compute. reflexivity.
Defined.

(** ** [start] for a session that does not offload *)

Lemma runs_only_refl allowed st : runs_only allowed st st.
Proof.
  repeat split. exists []. rewrite app_nil_r. split; [done|]. by intros argv [].
Qed.

Lemma runs_only_trans allowed st1 st2 st3 :
  runs_only allowed st1 st2 -> runs_only allowed st2 st3 ->
  runs_only allowed st1 st3.
Proof.
  intros (E1 & C1 & O1 & ev1 & L1 & A1) (E2 & C2 & O2 & ev2 & L2 & A2).
  repeat split; try congruence.
  exists (ev1 ++ ev2)%list. split; [by rewrite L2, L1, app_assoc|].
  intros argv Hin. apply in_app_or in Hin as [Hin|Hin]; auto.
Qed.

Lemma runs_only_logged allowed st events :
  (forall argv, ~ In (Spawn argv) events) ->
  runs_only allowed st (logged st events).
Proof.
  intros Hnone. repeat split. exists events. split; [done|].
  intros argv Hin. by destruct (Hnone argv).
Qed.

Lemma runs_only_bind {A B} allowed (m : M A) (k : A -> M B) st0 st :
  runs_only allowed st0 (snd (m st)) ->
  (forall a, fst (m st) = Return a ->
     runs_only allowed st0 (snd (k a (snd (m st))))) ->
  runs_only allowed st0 (snd ((m ≫= k) st)).
Proof.
  intros Hm Hk. unfold mbind, M_bind.
  destruct (m st) as [[a|e] s1]; cbn [fst snd] in *; [by apply Hk|done].
Qed.

Lemma request_home_credentials_runs_only h username st :
  runs_only [["sudo"; auth_script (config (self st)); username]] st
    (snd (request_home_credentials h username st)).
Proof.
  destruct (request_home_credentials_spec h username st) as (r & events & -> & Hev).
  cbn [snd]. repeat split. exists events. split; [done|].
  intros argv Hin. left. symmetry. by apply Hev.
Qed.

Lemma set_resource_limits_runs_only allowed cpu_quota mem_limit st :
  runs_only allowed st (snd (set_resource_limits cpu_quota mem_limit st)).
Proof.
  unfold set_resource_limits. unfold_monad.
  destruct (extra_host_config (self st)) as [c|].
  - destruct (int_mul 100000 cpu_quota) as [quota|e]; cbn [fst snd].
    + repeat split. exists []. rewrite app_nil_r. split; [done|]. by intros argv [].
    + apply runs_only_refl.
  - cbn [fst snd]. repeat split. exists []. rewrite app_nil_r.
    split; [done|]. by intros argv [].
Qed.

Lemma send_user_metrics_runs_only allowed h st :
  runs_only allowed st (snd (_send_user_metrics h st)).
Proof.
  unfold _send_user_metrics, _send_graphite_metrics. unfold_monad.
  destruct (metrics_on (config (self st))); [|apply runs_only_refl].
  destruct (carbon h _) as [e|]; cbn [fst snd].
  - destruct (is_Exception (exn_class_of e)); [|apply runs_only_refl].
    apply (runs_only_logged allowed st [_]). by intros argv [[=]|[]].
  - apply (runs_only_logged allowed st [_]). by intros argv [[=]|[]].
Qed.

Lemma send_start_exception_metric_runs_only allowed h outcome st :
  runs_only allowed st (snd (_send_start_exception_metric h outcome st)).
Proof.
  rewrite send_start_exception_metric_spec. cbn [snd].
  destruct (metrics_on (config (self st))); [|apply runs_only_refl].
  apply runs_only_logged. by intros argv [[=]|[]].
Qed.

Lemma start_steps_runs_only h username platform lcg_rel cluster cpu_quota mem_limit st :
  offload (self st) = false ->
  runs_only [["sudo"; auth_script (config (self st)); username]] st
    (snd (start_steps h username platform lcg_rel cluster cpu_quota mem_limit st)).
Proof.
  intros Hoff. unfold start_steps.
  pose proof (request_home_credentials_runs_only h username st) as Hhome.
  apply runs_only_bind; [done|]. intros [] _.
  set (s1 := snd (request_home_credentials h username st)) in *.
  apply runs_only_bind; [by rewrite check_software_stack_state|]. intros [] _.
  rewrite check_software_stack_state.
  apply runs_only_bind; [done|]. intros s Hs. cbn in Hs. injection Hs as <-.
  cbn [snd get_self].
  assert (offload (self s1) = false) as ->.
  { destruct Hhome as (_ & _ & -> & _). done. }
  apply runs_only_bind; [done|]. intros [] _. cbn [snd mret M_ret].
  pose proof (set_resource_limits_runs_only
                [["sudo"; auth_script (config (self st)); username]]
                cpu_quota mem_limit s1) as Hlimits.
  set (s2 := snd (set_resource_limits cpu_quota mem_limit s1)) in *.
  pose proof (runs_only_trans _ _ _ _ Hhome Hlimits) as H2.
  apply runs_only_bind; [done|]. intros [] _.
  pose proof (send_user_metrics_runs_only
                [["sudo"; auth_script (config (self st)); username]] h s2) as Hsend.
  set (s3 := snd (_send_user_metrics h s2)) in *.
  pose proof (runs_only_trans _ _ _ _ H2 Hsend) as H3.
  apply runs_only_bind; [done|]. intros [] _.
  eapply runs_only_trans; [exact H3|].
  apply send_start_exception_metric_runs_only.
Qed.

(** X29.  For a session that does not offload, [start], whatever its
    outcome, leaves [self.env] and [self.offload] as they were, and the only
    program it may run is the helper for the home directory: neither
    [init_k8s_user] nor [hadoop_auth_script] is run. *)
Theorem start_without_offload_runs h st :
  offload (self st) = false ->
  runs_only [["sudo"; auth_script (config (self st)); user_name (config (self st))]]
    st (snd (start h st)).
Proof.
  intros Hoff. unfold start.
  apply runs_only_bind; [apply runs_only_refl|]. intros s Hs.
  cbn in Hs. injection Hs as <-. cbn [snd get_self].
  apply runs_only_bind; [apply runs_only_refl|]. intros platform _. cbn [snd lift].
  apply runs_only_bind; [apply runs_only_refl|]. intros lcg_rel _. cbn [snd lift].
  apply runs_only_bind; [apply runs_only_refl|]. intros cluster _. cbn [snd lift].
  apply runs_only_bind; [apply runs_only_refl|]. intros cpu_quota _. cbn [snd lift].
  apply runs_only_bind; [apply runs_only_refl|]. intros mem_limit _. cbn [snd lift].
  unfold try_except, start_body.
  pose proof (start_steps_runs_only h (user_name (config (self st))) platform lcg_rel
                cluster cpu_quota mem_limit st Hoff) as Hsteps.
  unfold mbind at 1, M_bind.
  destruct (start_steps _ _ _ _ _ _ _ _) as [[[]|e] s1]; cbn [snd] in Hsteps.
  - rewrite load_startup by reflexivity. unfold lift at 1.
    cbv [catch_BaseException].
    assert (Hmetric : runs_only
              [["sudo"; auth_script (config (self st)); user_name (config (self st))]]
              st (snd (_send_start_exception_metric h (Some startup_undefined) s1))).
    { eapply runs_only_trans; [exact Hsteps|].
      apply send_start_exception_metric_runs_only. }
    apply runs_only_bind; [exact Hmetric|]. intros [] _. exact Hmetric.
  - cbv [catch_BaseException].
    assert (Hmetric : runs_only
              [["sudo"; auth_script (config (self st)); user_name (config (self st))]]
              st (snd (_send_start_exception_metric h (Some e) s1))).
    { eapply runs_only_trans; [exact Hsteps|].
      apply send_start_exception_metric_runs_only. }
    apply runs_only_bind; [exact Hmetric|]. intros [] _. exact Hmetric.
Qed.

Lemma start_without_offload_runs_witness :
  let h := demo_host (fun _ => 0) (Return PNone) in
  let st := demo_state (demo_spawner (demo_config true ∅)
                          (demo_options "LCG-dev3" "none") false) [] in
  runs_only [["sudo"; "/srv/jupyterhub/private/eos_token.sh"; "alice"]]
    st (snd (start h st)).
Proof.
  exact (start_without_offload_runs (demo_host (fun _ => 0) (Return PNone))
           (demo_state (demo_spawner (demo_config true ∅)
                          (demo_options "LCG-dev3" "none") false) [])
           eq_refl).
Defined.
